(** * The emission ledger of nuklaivm (emission/emission.go)

    A shallow embedding of the staking and emission accounting core:
    the [Validator] and [Emission] aggregates, the register / withdraw /
    delegate / undelegate / claim operations, the epoch mint and the fee
    distribution, the queries on validators and delegators, and the
    properties of them stated by the specification or shown by the code.

    Go's [uint64] is a [Z] with the wrap-around modulo [2^64] written out,
    [float64] is IEEE-754 binary64 as given by [SpecFloat] (precision 53,
    [emax] 1024, round to nearest even), Go maps are [gmap]s. *)

From Stdlib Require Import ZArith Lia List SpecFloat.
From stdpp Require Import gmap.

Local Open Scope Z_scope.

(** ** Machine integers *)

Definition two64 : Z := 2 ^ 64.

(** The value a [uint64] holds after an arithmetic result [x]. *)
Definition u64 (x : Z) : Z := x mod two64.

Definition add64 (a b : Z) : Z := u64 (a + b).
Definition sub64 (a b : Z) : Z := u64 (a - b).

(** [int64(x)] and [int(x)] of a [uint64] on a 64-bit target: the same bits,
    read in two's complement. *)
Definition int64_of_u64 (x : Z) : Z :=
  if u64 x <? 2 ^ 63 then u64 x else u64 x - two64.

(** Wrap-around of a signed 64-bit result. *)
Definition wrap_i64 (x : Z) : Z := int64_of_u64 (u64 x).

Definition is_u64 (x : Z) : Prop := 0 <= x < two64.

(** ** float64 *)

Definition float64 : Type := spec_float.

Definition fmul : float64 -> float64 -> float64 := SFmul 53 1024.
Definition fdiv : float64 -> float64 -> float64 := SFdiv 53 1024.

(** [float64(n)] for an integer [n]: the nearest double, ties to even. *)
Definition float64_of_Z (n : Z) : float64 := binary_normalize 53 1024 n 0 false.

(** The integer part of a finite double of mantissa [m] and exponent [e],
    that is [floor (m * 2^e)]. *)
Definition trunc_mag (m : positive) (e : Z) : Z := Z.shiftl (Zpos m) e.

(** The exact value of a finite double times [n], rounded down: the
    mathematical [floor (n * x)] for [x >= 0], with no rounding of the
    product in between. *)
Definition floor_mul_exact (n : Z) (x : float64) : option Z :=
  match x with
  | S754_zero _ => Some 0
  | S754_finite false m e => Some (Z.shiftl (n * Zpos m) e)
  | _ => None
  end.

(** The literals of the source, each a double. *)
Definition f3 : float64 := float64_of_Z 3.
Definition f24 : float64 := float64_of_Z 24.
Definition f60 : float64 := float64_of_Z 60.
Definition f100 : float64 := float64_of_Z 100.
Definition f365 : float64 := float64_of_Z 365.
(** [0.25], that is [1/4] *)
Definition f0_25 : float64 := fdiv (float64_of_Z 1) (float64_of_Z 4).

(** ** Time (package time)

    A [time.Time] without monotonic reading: seconds since January 1 of
    year 1 in an [int64], and nanoseconds within the second. *)

Record Time : Type := mkTime { t_sec : Z; t_nsec : Z }.

Definition unixToInternal : Z := 62135596800.

(** [time.Unix(sec, 0).UTC()] *)
Definition time_Unix (sec : Z) : Time := mkTime (wrap_i64 (sec + unixToInternal)) 0.

(** [t.After(u)] *)
Definition After (t u : Time) : bool :=
  (t_sec u <? t_sec t) || ((t_sec t =? t_sec u) && (t_nsec u <? t_nsec t)).

(** ** Data model *)

(** [ids.NodeID] (20 bytes) and [codec.Address] (33 bytes), each as the
    number its bytes spell; [codec.EmptyAddress] is all zeros. *)
Definition NodeID : Type := N.
Definition Address : Type := N.
Definition EmptyAddress : Address := 0%N.

Record Validator : Type := mkValidator {
  IsActive : bool;
  vNodeID : NodeID;
  PublicKey : list Z;
  StakedAmount : Z;
  UnclaimedStakedReward : Z;
  DelegationFeeRate : float64;
  DelegatedAmount : Z;
  UnclaimedDelegatedReward : Z;
  delegatorsLastClaim : gmap Address Z;
  epochRewards : gmap Z Z;
  stakeStartTime : Time;
  stakeEndTime : Time
}.

Record EmissionAccount : Type := mkEmissionAccount {
  eaAddress : Address;
  UnclaimedBalance : Z
}.

Record EpochTracker : Type := mkEpochTracker {
  BaseAPR : float64;
  BaseValidators : Z;
  EpochLength : Z
}.

Record Emission : Type := mkEmission {
  TotalSupply : Z;
  MaxSupply : Z;
  emissionAccount : EmissionAccount;
  validators : gmap NodeID Validator;
  TotalStaked : Z;
  epochTracker : EpochTracker
}.

(** Field updates, one per assignment form of the source. *)

Definition set_IsActive (b : bool) (v : Validator) : Validator :=
  mkValidator b (vNodeID v) (PublicKey v) (StakedAmount v) (UnclaimedStakedReward v)
    (DelegationFeeRate v) (DelegatedAmount v) (UnclaimedDelegatedReward v)
    (delegatorsLastClaim v) (epochRewards v) (stakeStartTime v) (stakeEndTime v).

Definition set_UnclaimedStakedReward (x : Z) (v : Validator) : Validator :=
  mkValidator (IsActive v) (vNodeID v) (PublicKey v) (StakedAmount v) x
    (DelegationFeeRate v) (DelegatedAmount v) (UnclaimedDelegatedReward v)
    (delegatorsLastClaim v) (epochRewards v) (stakeStartTime v) (stakeEndTime v).

Definition set_DelegatedAmount (x : Z) (v : Validator) : Validator :=
  mkValidator (IsActive v) (vNodeID v) (PublicKey v) (StakedAmount v) (UnclaimedStakedReward v)
    (DelegationFeeRate v) x (UnclaimedDelegatedReward v)
    (delegatorsLastClaim v) (epochRewards v) (stakeStartTime v) (stakeEndTime v).

Definition set_UnclaimedDelegatedReward (x : Z) (v : Validator) : Validator :=
  mkValidator (IsActive v) (vNodeID v) (PublicKey v) (StakedAmount v) (UnclaimedStakedReward v)
    (DelegationFeeRate v) (DelegatedAmount v) x
    (delegatorsLastClaim v) (epochRewards v) (stakeStartTime v) (stakeEndTime v).

Definition set_delegatorsLastClaim (m : gmap Address Z) (v : Validator) : Validator :=
  mkValidator (IsActive v) (vNodeID v) (PublicKey v) (StakedAmount v) (UnclaimedStakedReward v)
    (DelegationFeeRate v) (DelegatedAmount v) (UnclaimedDelegatedReward v)
    m (epochRewards v) (stakeStartTime v) (stakeEndTime v).

Definition set_epochRewards (m : gmap Z Z) (v : Validator) : Validator :=
  mkValidator (IsActive v) (vNodeID v) (PublicKey v) (StakedAmount v) (UnclaimedStakedReward v)
    (DelegationFeeRate v) (DelegatedAmount v) (UnclaimedDelegatedReward v)
    (delegatorsLastClaim v) m (stakeStartTime v) (stakeEndTime v).

Definition set_TotalSupply (x : Z) (e : Emission) : Emission :=
  mkEmission x (MaxSupply e) (emissionAccount e) (validators e) (TotalStaked e) (epochTracker e).

Definition set_UnclaimedBalance (x : Z) (e : Emission) : Emission :=
  mkEmission (TotalSupply e) (MaxSupply e)
    (mkEmissionAccount (eaAddress (emissionAccount e)) x)
    (validators e) (TotalStaked e) (epochTracker e).

Definition set_validators (m : gmap NodeID Validator) (e : Emission) : Emission :=
  mkEmission (TotalSupply e) (MaxSupply e) (emissionAccount e) m (TotalStaked e) (epochTracker e).

Definition set_TotalStaked (x : Z) (e : Emission) : Emission :=
  mkEmission (TotalSupply e) (MaxSupply e) (emissionAccount e) (validators e) x (epochTracker e).

(** ** Collaborators

    What the ledger reads from the VM during one call: the last accepted
    block, the outcome of [State()], and the stake records of the storage
    layer ([storage.GetDelegateUserStake]: the staked amount when the record
    exists). *)

Inductive Error : Type :=
  | ErrValidatorNotFound
  | ErrValidatorAlreadyRegistered
  | ErrDelegatorNotFound
  | ErrDelegatorAlreadyStaked
  | ErrStakeNotFound
  | ErrState.

Record NuklaiVM : Type := mkVM {
  lastHeight : Z;
  lastTimestamp : Time;
  stateFails : bool;
  GetDelegateUserStake : Address -> NodeID -> option Z
}.

(** The outcome of a call: a value, one of the errors, or the run-time
    panic of an integer division by zero. *)
Inductive Outcome (A : Type) : Type :=
  | Ok (a : A)
  | Err (err : Error)
  | Panic.
Arguments Ok {A} a.
Arguments Err {A} err.
Arguments Panic {A}.

(** ** Construction *)

(** [New], first call: [supplyCap] is [GetStakingConfig().RewardConfig.SupplyCap]. *)
Definition New (supplyCap totalSupply maxSupply : Z) (emissionAddress : Address) : Emission :=
  let maxSupply := if maxSupply =? 0 then supplyCap else maxSupply in
  mkEmission totalSupply maxSupply (mkEmissionAccount emissionAddress 0) ∅ 0
    (mkEpochTracker f0_25 100 10).

(** Two targets of the gc compiler. On arm64 the conversion is one FCVTZU,
    which saturates and sends a NaN to [0]. On amd64 it is CVTTSD2SQ on [x],
    or on [x - 2^63] with the top bit set afterwards when [x >= 2^63] or [x]
    is a NaN; the instruction answers [2^63] whenever the result does not fit
    an [int64]. *)
Definition oor_arm64 (x : float64) : Z :=
  match x with
  | S754_infinity false | S754_finite false _ _ => two64 - 1
  | _ => 0
  end.

Definition oor_amd64 (x : float64) : Z :=
  match x with
  | S754_finite true m e =>
      let t := trunc_mag m e in
      if t <=? 2 ^ 63 then two64 - t else 2 ^ 63
  | _ => 2 ^ 63
  end.

(** ** Operations *)

Section Platform.

(** [uint64(x)] of a [float64] truncates toward zero when the result fits.
    For a NaN, an infinity, a value of [-1] or less, or a value of [2^64] or
    more, Go leaves the result to the implementation; [oor64 x] is what the
    target yields there (any [uint64]). *)
Variable oor64 : float64 -> Z.

Definition uint64_of_float64 (x : float64) : Z :=
  match x with
  | S754_zero _ => 0
  | S754_finite s m e =>
      let t := trunc_mag m e in
      if (negb s || (t =? 0)) && (t <? two64) then t else u64 (oor64 x)
  | _ => u64 (oor64 x)
  end.

Definition AddToTotalSupply (amount : Z) (e : Emission) : Z * Emission :=
  let amount :=
    if add64 (TotalSupply e) amount >? MaxSupply e
    then sub64 (MaxSupply e) (TotalSupply e)
    else amount in
  let total := add64 (TotalSupply e) amount in
  (total, set_TotalSupply total e).

Definition GetAPRForValidators (e : Emission) : float64 :=
  let apr := BaseAPR (epochTracker e) in
  let baseValidators := int64_of_u64 (BaseValidators (epochTracker e)) in
  let n := Z.of_nat (size (validators e)) in
  if n >? baseValidators
  then fdiv apr (fdiv (float64_of_Z n) (float64_of_Z baseValidators))
  else apr.

Definition GetRewardsPerEpoch (e : Emission) : Z :=
  let perSecond :=
    fdiv (fdiv (fdiv (fdiv
      (fmul (float64_of_Z (TotalStaked e)) (GetAPRForValidators e)) f365) f24) f60) f60 in
  let rewardsPerBlock :=
    uint64_of_float64
      (fmul perSecond (fmul (float64_of_Z (EpochLength (epochTracker e))) f3)) in
  if add64 (TotalSupply e) rewardsPerBlock >? MaxSupply e
  then sub64 (MaxSupply e) (TotalSupply e)
  else rewardsPerBlock.

(** One turn of the loop over the epochs since the last claim. *)
Definition epoch_reward (validator : Validator) (userStakedAmount : Z)
    (totalReward epoch : Z) : Z :=
  match epochRewards validator !! epoch with
  | Some reward =>
      let delegatorShare :=
        fdiv (float64_of_Z userStakedAmount) (float64_of_Z (DelegatedAmount validator)) in
      let epochReward := fmul delegatorShare (float64_of_Z reward) in
      add64 totalReward (uint64_of_float64 epochReward)
  | None => totalReward
  end.

Definition CalculateUserDelegationRewards (vm : NuklaiVM) (nodeID : NodeID)
    (actor : Address) (currentBlockHeight : Z) (e : Emission) : Outcome Z :=
  match validators e !! nodeID with
  | None => Err ErrValidatorNotFound
  | Some validator =>
      match delegatorsLastClaim validator !! actor with
      | None => Err ErrDelegatorNotFound
      | Some lastClaimHeight =>
          if stateFails vm then Err ErrState
          else
            match GetDelegateUserStake vm actor nodeID with
            | None => Err ErrStakeNotFound
            | Some userStakedAmount =>
                let len := EpochLength (epochTracker e) in
                if len =? 0 then Panic
                else
                  let startEpoch := lastClaimHeight / len in
                  let endEpoch := currentBlockHeight / len in
                  Ok (fold_left (epoch_reward validator userStakedAmount)
                        (seqZ startEpoch (endEpoch - startEpoch)) 0)
            end
      end
  end.

(** [nodePublicKey] stands for [bls.PublicKeyToBytes(nodePublicKey)]. *)
Definition RegisterValidatorStake (nodeID : NodeID) (nodePublicKey : list Z)
    (stakeStart stakeEnd stakedAmount delegationFeeRate : Z) (e : Emission)
    : Outcome unit * Emission :=
  let rate := fdiv (float64_of_Z delegationFeeRate) f100 in
  let startTime := time_Unix (int64_of_u64 stakeStart) in
  let endTime := time_Unix (int64_of_u64 stakeEnd) in
  match validators e !! nodeID with
  | Some validator =>
      if IsActive validator then (Err ErrValidatorAlreadyRegistered, e)
      else
        let validator' :=
          mkValidator (IsActive validator) (vNodeID validator) nodePublicKey
            (add64 (StakedAmount validator) stakedAmount)
            (UnclaimedStakedReward validator) rate
            (DelegatedAmount validator) (UnclaimedDelegatedReward validator)
            (delegatorsLastClaim validator) (epochRewards validator)
            startTime endTime in
        (Ok tt, set_validators (<[nodeID := validator']> (validators e)) e)
  | None =>
      let validator :=
        mkValidator false nodeID nodePublicKey stakedAmount 0 rate 0 0 ∅ ∅
          startTime endTime in
      (Ok tt, set_validators (<[nodeID := validator]> (validators e)) e)
  end.

(** The body of [WithdrawValidatorStake] once the validator is found: the
    reward returned, the [Validator] object as the call leaves it, the new
    [TotalStaked], and whether the entry is deleted from the map. *)
Definition withdraw_validator (validator : Validator) (totalStaked : Z)
    : Z * Validator * Z * bool :=
  let rewardAmount := UnclaimedStakedReward validator in
  let v1 := set_UnclaimedStakedReward 0 validator in
  let staked1 :=
    if IsActive v1 then sub64 totalStaked (StakedAmount v1) else totalStaked in
  let v2 := set_IsActive false v1 in
  if (size (delegatorsLastClaim v2) =? 0)%nat then
    (add64 rewardAmount (UnclaimedDelegatedReward v2),
     set_UnclaimedDelegatedReward 0 v2,
     sub64 staked1 (DelegatedAmount v2), true)
  else (rewardAmount, v2, staked1, false).

Definition WithdrawValidatorStake (nodeID : NodeID) (e : Emission)
    : Outcome Z * Emission :=
  match validators e !! nodeID with
  | None => (Err ErrValidatorNotFound, e)
  | Some validator =>
      let '(rewardAmount, validator', staked, deleted) :=
        withdraw_validator validator (TotalStaked e) in
      let vals :=
        if deleted then delete nodeID (validators e)
        else <[nodeID := validator']> (validators e) in
      (Ok rewardAmount, set_TotalStaked staked (set_validators vals e))
  end.

Definition DelegateUserStake (vm : NuklaiVM) (nodeID : NodeID)
    (delegatorAddress : Address) (stakeAmount : Z) (e : Emission)
    : Outcome unit * Emission :=
  match validators e !! nodeID with
  | None => (Err ErrValidatorNotFound, e)
  | Some validator =>
      match delegatorsLastClaim validator !! delegatorAddress with
      | Some _ => (Err ErrDelegatorAlreadyStaked, e)
      | None =>
          let v1 := set_DelegatedAmount (add64 (DelegatedAmount validator) stakeAmount) validator in
          let staked :=
            if IsActive v1 then add64 (TotalStaked e) stakeAmount else TotalStaked e in
          let v2 :=
            set_delegatorsLastClaim
              (<[delegatorAddress := lastHeight vm]> (delegatorsLastClaim v1)) v1 in
          (Ok tt, set_TotalStaked staked (set_validators (<[nodeID := v2]> (validators e)) e))
      end
  end.

Definition UndelegateUserStake (vm : NuklaiVM) (nodeID : NodeID) (actor : Address)
    (stakeAmount : Z) (e : Emission) : Outcome Z * Emission :=
  match validators e !! nodeID with
  | None => (Err ErrValidatorNotFound, e)
  | Some validator =>
      match delegatorsLastClaim validator !! actor with
      | None => (Err ErrDelegatorNotFound, e)
      | Some _ =>
          let currentBlockHeight := lastHeight vm in
          match CalculateUserDelegationRewards vm nodeID actor currentBlockHeight e with
          | Err err => (Err err, e)
          | Panic => (Panic, e)
          | Ok rewardAmount =>
              let v1 :=
                set_delegatorsLastClaim
                  (<[actor := currentBlockHeight]> (delegatorsLastClaim validator)) validator in
              let v2 :=
                set_UnclaimedDelegatedReward
                  (sub64 (UnclaimedDelegatedReward v1) rewardAmount) v1 in
              let v3 := set_DelegatedAmount (sub64 (DelegatedAmount v2) stakeAmount) v2 in
              let staked :=
                if IsActive v3 then sub64 (TotalStaked e) stakeAmount else TotalStaked e in
              let v4 := set_delegatorsLastClaim (delete actor (delegatorsLastClaim v3)) v3 in
              let vals :=
                if negb (IsActive v4) && (size (delegatorsLastClaim v4) =? 0)%nat
                then delete nodeID (validators e)
                else <[nodeID := v4]> (validators e) in
              (Ok rewardAmount, set_TotalStaked staked (set_validators vals e))
          end
      end
  end.

Definition ClaimStakingRewards (vm : NuklaiVM) (nodeID : NodeID) (actor : Address)
    (e : Emission) : Outcome Z * Emission :=
  match validators e !! nodeID with
  | None => (Err ErrValidatorNotFound, e)
  | Some validator =>
      if (actor =? EmptyAddress)%N then
        let rewardAmount := UnclaimedStakedReward validator in
        let v1 := set_UnclaimedStakedReward 0 validator in
        let '(rewardAmount, v2) :=
          if (size (delegatorsLastClaim v1) =? 0)%nat
          then (add64 rewardAmount (UnclaimedDelegatedReward v1),
                set_UnclaimedDelegatedReward 0 v1)
          else (rewardAmount, v1) in
        (Ok rewardAmount, set_validators (<[nodeID := v2]> (validators e)) e)
      else
        let currentBlockHeight := lastHeight vm in
        match CalculateUserDelegationRewards vm nodeID actor currentBlockHeight e with
        | Err err => (Err err, e)
        | Panic => (Panic, e)
        | Ok reward =>
            let v1 :=
              set_delegatorsLastClaim
                (<[actor := currentBlockHeight]> (delegatorsLastClaim validator)) validator in
            let v2 :=
              set_UnclaimedDelegatedReward
                (sub64 (UnclaimedDelegatedReward v1) reward) v1 in
            (Ok reward, set_validators (<[nodeID := v2]> (validators e)) e)
        end
  end.

Definition distributeValidatorRewards (totalValidatorReward : Z)
    (delegationFeeRate : float64) (delegatedAmount : Z) : Z * Z :=
  let delegationRewards :=
    if delegatedAmount >? 0
    then uint64_of_float64 (fmul (float64_of_Z totalValidatorReward) delegationFeeRate)
    else 0 in
  let validatorRewards := sub64 totalValidatorReward delegationRewards in
  (validatorRewards, delegationRewards).

(** The activation and deactivation steps that open the loop body of both
    [MintNewNAI] and [DistributeFees]: the validator and [TotalStaked] after
    them, and whether the body goes on to distribute ([false] where the
    source says [continue]). *)
Definition lifecycle (lastBlockTime : Time) (validator : Validator) (totalStaked : Z)
    : Validator * Z * bool :=
  let '(v1, staked1) :=
    if After lastBlockTime (stakeStartTime validator)
    then (set_IsActive true validator,
          add64 totalStaked (add64 (StakedAmount validator) (DelegatedAmount validator)))
    else (validator, totalStaked) in
  if negb (IsActive v1) then (v1, staked1, false)
  else if After lastBlockTime (stakeEndTime v1)
  then (set_IsActive false v1,
        sub64 staked1 (add64 (StakedAmount v1) (DelegatedAmount v1)), false)
  else (v1, staked1, true).

(** What a loop carries from one validator to the next: the validator
    objects, [e.TotalStaked] and [actualRewards]. *)
Definition LoopState : Type := gmap NodeID Validator * Z * Z.

(** The loop body of [MintNewNAI]. *)
Definition mint_body (vm : NuklaiVM) (epochLength : Z) (rewardsPerStakeUnit : float64)
    (st : LoopState) (entry : NodeID * Validator) : LoopState :=
  let '(vals, totalStaked, actualRewards) := st in
  let '(nodeID, validator) := entry in
  let '(v1, staked1, distribute) := lifecycle (lastTimestamp vm) validator totalStaked in
  if distribute then
    let validatorStake := add64 (StakedAmount v1) (DelegatedAmount v1) in
    let totalValidatorReward :=
      uint64_of_float64 (fmul (float64_of_Z validatorStake) rewardsPerStakeUnit) in
    let '(validatorReward, delegationReward) :=
      distributeValidatorRewards totalValidatorReward (DelegationFeeRate v1)
        (DelegatedAmount v1) in
    let actualRewards := add64 actualRewards (add64 validatorReward delegationReward) in
    let v2 := set_UnclaimedStakedReward (add64 (UnclaimedStakedReward v1) validatorReward) v1 in
    let v3 :=
      set_UnclaimedDelegatedReward (add64 (UnclaimedDelegatedReward v2) delegationReward) v2 in
    let epochNumber := lastHeight vm / epochLength in
    let v4 := set_epochRewards (<[epochNumber := delegationReward]> (epochRewards v3)) v3 in
    (<[nodeID := v4]> vals, staked1, actualRewards)
  else (<[nodeID := v1]> vals, staked1, actualRewards).

Definition MintNewNAI (vm : NuklaiVM) (e : Emission) : Outcome Z * Emission :=
  let currentBlockHeight := lastHeight vm in
  let len := EpochLength (epochTracker e) in
  if len =? 0 then (Panic, e)
  else if currentBlockHeight mod len =? 0 then
    let totalEpochRewards := GetRewardsPerEpoch e in
    let rewardsPerStakeUnit :=
      fdiv (float64_of_Z totalEpochRewards) (float64_of_Z (TotalStaked e)) in
    let '(vals, staked, actualRewards) :=
      fold_left (mint_body vm len rewardsPerStakeUnit)
        (map_to_list (validators e)) (validators e, TotalStaked e, 0) in
    (Ok actualRewards,
     set_TotalSupply (add64 (TotalSupply e) actualRewards)
       (set_TotalStaked staked (set_validators vals e)))
  else (Ok 0, e).

(** The loop body of [DistributeFees]; it has no [actualRewards]. *)
Definition fees_body (vm : NuklaiVM) (feesPerStakeUnit : float64)
    (st : gmap NodeID Validator * Z) (entry : NodeID * Validator)
    : gmap NodeID Validator * Z :=
  let '(vals, totalStaked) := st in
  let '(nodeID, validator) := entry in
  let '(v1, staked1, distribute) := lifecycle (lastTimestamp vm) validator totalStaked in
  if distribute then
    let validatorStake := add64 (StakedAmount v1) (DelegatedAmount v1) in
    let totalValidatorFee :=
      uint64_of_float64 (fmul (float64_of_Z validatorStake) feesPerStakeUnit) in
    let '(validatorFee, delegationFee) :=
      distributeValidatorRewards totalValidatorFee (DelegationFeeRate v1)
        (DelegatedAmount v1) in
    let v2 := set_UnclaimedStakedReward (add64 (UnclaimedStakedReward v1) validatorFee) v1 in
    let v3 :=
      set_UnclaimedDelegatedReward (add64 (UnclaimedDelegatedReward v2) delegationFee) v2 in
    (<[nodeID := v3]> vals, staked1)
  else (<[nodeID := v1]> vals, staked1).

Definition DistributeFees (vm : NuklaiVM) (fee : Z) (e : Emission) : Emission :=
  let fee :=
    if add64 (TotalSupply e) fee >? MaxSupply e
    then sub64 (MaxSupply e) (TotalSupply e)
    else fee in
  let feesForEmission := fee / 2 in
  let e1 :=
    set_UnclaimedBalance
      (add64 (UnclaimedBalance (emissionAccount e)) feesForEmission) e in
  let feesForValidators := sub64 fee feesForEmission in
  if (TotalStaked e1 =? 0) || (feesForValidators =? 0) then e1
  else
    let feesPerStakeUnit :=
      fdiv (float64_of_Z feesForValidators) (float64_of_Z (TotalStaked e1)) in
    let '(vals, staked) :=
      fold_left (fees_body vm feesPerStakeUnit)
        (map_to_list (validators e1)) (validators e1, TotalStaked e1) in
    set_TotalStaked staked (set_validators vals e1).

End Platform.

(** ** Queries *)

(** [ids.EmptyNodeID]: all zeros. *)
Definition EmptyNodeID : NodeID := 0%N.

(** One turn of the loop of [GetNumDelegators]; [numDelegators] is an
    [int]. *)
Definition numDelegators_body (numDelegators : Z) (entry : NodeID * Validator) : Z :=
  wrap_i64 (numDelegators + Z.of_nat (size (delegatorsLastClaim (snd entry)))).

Definition GetNumDelegators (nodeID : NodeID) (e : Emission) : Z :=
  if (nodeID =? EmptyNodeID)%N then
    fold_left numDelegators_body (map_to_list (validators e)) 0
  else
    match validators e !! nodeID with
    | Some validator => Z.of_nat (size (delegatorsLastClaim validator))
    | None => 0
    end.

Definition GetStakedValidator (nodeID : NodeID) (e : Emission) : list Validator :=
  if (nodeID =? EmptyNodeID)%N then
    fold_left (fun validators (entry : NodeID * Validator) => validators ++ [snd entry])
      (map_to_list (validators e)) []
  else
    match validators e !! nodeID with
    | Some validator => [validator]
    | None => []
    end.

(** The zero [time.Time]. *)
Definition zeroTime : Time := mkTime 0 0.

(** One turn of the loop of [GetAllValidators]; [publicKey] stands for
    [bls.PublicKeyToBytes(validator.PublicKey)]. *)
Definition allValidators_body (e : Emission) (validators : list Validator)
    (entry : NodeID * list Z) : list Validator :=
  let '(nodeID, publicKey) := entry in
  let v := mkValidator false nodeID publicKey 0 0 (S754_zero false) 0 0 ∅ ∅ zeroTime zeroTime in
  let v :=
    match GetStakedValidator nodeID e with
    | staked :: _ =>
        mkValidator (IsActive v) (vNodeID v) (PublicKey v) (StakedAmount staked)
          (UnclaimedStakedReward staked) (DelegationFeeRate staked) (DelegatedAmount staked)
          (UnclaimedDelegatedReward staked) (delegatorsLastClaim staked)
          (epochRewards v) (stakeStartTime v) (stakeEndTime v)
    | [] => v
    end in
  validators ++ [v].

(** [currentValidators] is what [e.nuklaivm.CurrentValidators(ctx)] returns:
    the public key of each current validator of the VM. *)
Definition GetAllValidators (currentValidators : gmap NodeID (list Z)) (e : Emission)
    : list Validator :=
  fold_left (allValidators_body e) (map_to_list currentValidators) [].

(** ** Quantities of the statements *)

(** [floor (total * pct / 100)] in exact arithmetic, for a fee rate given as
    the integer percentage [RegisterValidatorStake] receives. *)
Definition floor_percent (total pct : Z) : Z := total * pct / 100.

(** What one turn of a loop does to a counter: nothing, or an addition
    modulo [2^64]. *)
Definition bump (k : option Z) (s : Z) : Z :=
  match k with Some k => u64 (s + k) | None => s end.

(** The fee [DistributeFees] works with after its first [if]. *)
Definition clamped_fee (fee : Z) (e : Emission) : Z :=
  if add64 (TotalSupply e) fee >? MaxSupply e
  then sub64 (MaxSupply e) (TotalSupply e)
  else fee.

(** The sum of [StakedAmount + DelegatedAmount] over the validators whose
    [IsActive] flag is set, as a true integer. *)
Definition active_stake (vals : gmap NodeID Validator) : Z :=
  map_fold
    (fun _ v acc => if IsActive v then acc + (StakedAmount v + DelegatedAmount v) else acc)
    0 vals.

(** What a validator counts for in that sum. *)
Definition counted (v : Validator) : Z :=
  if IsActive v then StakedAmount v + DelegatedAmount v else 0.

(** [TotalStaked] agrees with that sum, as far as a [uint64] can tell. *)
Definition staked_matches (e : Emission) : Prop :=
  u64 (TotalStaked e) = u64 (active_stake (validators e)).

(** The sum of [f] over the validators of a ledger, as a true integer. *)
Definition total (f : Validator -> Z) (vals : gmap NodeID Validator) : Z :=
  map_fold (fun _ v acc => acc + f v) 0 vals.

(** The same over a list of validators. *)
Definition sum_over (f : Validator -> Z) (l : list Validator) : Z :=
  fold_right (fun v acc => acc + f v) 0 l.

(** The number of delegators of a validator. *)
Definition delegators (v : Validator) : Z := Z.of_nat (size (delegatorsLastClaim v)).

(** The rewards a validator holds unclaimed, its own and its delegators'. *)
Definition unclaimed (v : Validator) : Z :=
  UnclaimedStakedReward v + UnclaimedDelegatedReward v.

(** What [GetAllValidators] reports for a current validator [nodeID] of
    public key [publicKey], [staked] being its entry in the ledger, if any. *)
Definition reported (nodeID : NodeID) (publicKey : list Z) (staked : option Validator)
    : Validator :=
  match staked with
  | Some s =>
      mkValidator false nodeID publicKey (StakedAmount s) (UnclaimedStakedReward s)
        (DelegationFeeRate s) (DelegatedAmount s) (UnclaimedDelegatedReward s)
        (delegatorsLastClaim s) ∅ zeroTime zeroTime
  | None =>
      mkValidator false nodeID publicKey 0 0 (S754_zero false) 0 0 ∅ ∅ zeroTime zeroTime
  end.

(** Whether the loop of [MintNewNAI] runs: the block height is a multiple
    of the epoch length. *)
Definition minting (vm : NuklaiVM) (e : Emission) : bool :=
  negb (EpochLength (epochTracker e) =? 0)
  && (lastHeight vm mod EpochLength (epochTracker e) =? 0).

(** Whether the loop of [DistributeFees] runs: something is staked and the
    validators' part of the fee is not 0. *)
Definition paying (fee : Z) (e : Emission) : bool :=
  negb ((TotalStaked e =? 0)
        || (sub64 (clamped_fee fee e) (clamped_fee fee e / 2) =? 0)).

(** By how much one turn of a sweep at block time [now] moves
    [TotalStaked] for the validator [v]. *)
Definition moved (now : Time) (v : Validator) : Z :=
  let stake := add64 (StakedAmount v) (DelegatedAmount v) in
  if After now (stakeStartTime v) then
    if After now (stakeEndTime v) then 0 else stake
  else if IsActive v && After now (stakeEndTime v) then - stake
  else 0.

(** What a sweep at block time [now] leaves of a validator [v]: its
    identity, its stake, its delegators and its window, and an [IsActive]
    set by the block time. *)
Definition swept (now : Time) (v v' : Validator) : Prop :=
  vNodeID v' = vNodeID v /\ PublicKey v' = PublicKey v
  /\ StakedAmount v' = StakedAmount v /\ DelegatedAmount v' = DelegatedAmount v
  /\ DelegationFeeRate v' = DelegationFeeRate v
  /\ delegatorsLastClaim v' = delegatorsLastClaim v
  /\ stakeStartTime v' = stakeStartTime v /\ stakeEndTime v' = stakeEndTime v
  /\ IsActive v' = (After now (stakeStartTime v) || IsActive v)
                   && negb (After now (stakeEndTime v)).

(** What a sweep at the rate [perStakeUnit] per staked unit credits to the
    validator [v] and to its delegators. *)
Definition shares (oor64 : float64 -> Z) (perStakeUnit : float64) (v : Validator) : Z * Z :=
  distributeValidatorRewards oor64
    (uint64_of_float64 oor64
       (fmul (float64_of_Z (add64 (StakedAmount v) (DelegatedAmount v))) perStakeUnit))
    (DelegationFeeRate v) (DelegatedAmount v).

(** The validator [v] once activated and credited with [s]. *)
Definition credit (s : Z * Z) (v : Validator) : Validator :=
  set_UnclaimedDelegatedReward (add64 (UnclaimedDelegatedReward v) (snd s))
    (set_UnclaimedStakedReward (add64 (UnclaimedStakedReward v) (fst s))
       (set_IsActive true v)).

(** A validator that a sweep leaves inactive holds what it held. *)
Definition uncredited (v v' : Validator) : Prop :=
  IsActive v' = false ->
  UnclaimedStakedReward v' = UnclaimedStakedReward v
  /\ UnclaimedDelegatedReward v' = UnclaimedDelegatedReward v
  /\ epochRewards v' = epochRewards v.

(** Every entry is filed under its own [NodeID]. *)
Definition keyed (e : Emission) : Prop :=
  forall k v, validators e !! k = Some v -> vNodeID v = k.

(** One call of an operation that writes to the ledger. *)
Inductive step (oor64 : float64 -> Z) : Emission -> Emission -> Prop :=
  | step_AddToTotalSupply amount e :
      step oor64 e (snd (AddToTotalSupply amount e))
  | step_RegisterValidatorStake nodeID pk start stop amount feeRate e :
      step oor64 e (snd (RegisterValidatorStake nodeID pk start stop amount feeRate e))
  | step_WithdrawValidatorStake nodeID e :
      step oor64 e (snd (WithdrawValidatorStake nodeID e))
  | step_DelegateUserStake vm nodeID actor amount e :
      step oor64 e (snd (DelegateUserStake vm nodeID actor amount e))
  | step_UndelegateUserStake vm nodeID actor amount e :
      step oor64 e (snd (UndelegateUserStake oor64 vm nodeID actor amount e))
  | step_ClaimStakingRewards vm nodeID actor e :
      step oor64 e (snd (ClaimStakingRewards oor64 vm nodeID actor e))
  | step_MintNewNAI vm e :
      step oor64 e (snd (MintNewNAI oor64 vm e))
  | step_DistributeFees vm fee e :
      step oor64 e (DistributeFees oor64 vm fee e).

(** The ledgers a run of such calls reaches from [first]. *)
Inductive reachable (oor64 : float64 -> Z) (first : Emission) : Emission -> Prop :=
  | reachable_first : reachable oor64 first first
  | reachable_step e e' :
      reachable oor64 first e -> step oor64 e e' -> reachable oor64 first e'.

(** ** Example blocks and states *)

(** The last accepted block at [height], stamped [sec] seconds after the
    Unix epoch, over a storage layer holding the stake records [stakes]. *)
Definition blockAt (height sec : Z) (stakes : Address -> NodeID -> option Z) : NuklaiVM :=
  mkVM height (time_Unix sec) false stakes.

Definition noStakes : Address -> NodeID -> option Z := fun _ _ => None.

(** A fresh ledger: nothing minted yet, [MaxSupply] as given. *)
Definition fresh (maxSupply : Z) : Emission := New 0 0 maxSupply 9%N.

Definition alice : Address := 11%N.
Definition bob : Address := 12%N.

(** Validator 1, active from second 100 to second 100000 with a fee rate of
    10 percent, holding [staked] of its own and [delegated] from the
    delegators of [claims], with 7 and 3 of unclaimed rewards. *)
Definition validator1 (staked delegated : Z) (claims : gmap Address Z) : Validator :=
  mkValidator true 1%N [] staked 7 (fdiv (float64_of_Z 10) f100) delegated 3 claims ∅
    (time_Unix 100) (time_Unix 100000).

(** A ledger whose only validator is [validator1], with [TotalStaked] equal
    to its stake. *)
Definition ledger1 (staked delegated : Z) (claims : gmap Address Z) : Emission :=
  mkEmission 5000 1000000 (mkEmissionAccount 9%N 0)
    {[ 1%N := validator1 staked delegated claims ]} (staked + delegated)
    (mkEpochTracker f0_25 100 10).

(** A stake that earns 1000 per epoch: at the base rate of 25 percent a
    year, an epoch of 10 blocks of 3 seconds pays 1/4204800 of the stake. *)
Definition stake1000 : Z := 4204800000.

(** Validator [nodeID] as [RegisterValidatorStake] creates it, with a stake
    of [stake1000], a fee rate of 50 percent and a window from second
    [start] to second [stop]. *)
Definition registered (nodeID : NodeID) (start stop : Z) : Validator :=
  mkValidator false nodeID [] stake1000 0 (fdiv (float64_of_Z 50) f100) 0 0 ∅ ∅
    (time_Unix (int64_of_u64 start)) (time_Unix (int64_of_u64 stop)).

(** A fresh ledger on which validator 1 (from second 100) and validator 2
    (from second 250) have registered. *)
Definition twoRegistered (maxSupply : Z) : Emission :=
  snd (RegisterValidatorStake 2%N [] 250 100000 stake1000 50
         (snd (RegisterValidatorStake 1%N [] 100 100000 stake1000 50 (fresh maxSupply)))).

(** The same ledger once the sweep of block 10, at second 200, has
    activated validator 1 and credited it, and the supply, with [c]:
    validator 2 still waits for second 250, and [TotalStaked] is the stake
    of validator 1. *)
Definition oneActiveOneWaiting (maxSupply c : Z) : Emission :=
  mkEmission c (MaxSupply (fresh maxSupply)) (mkEmissionAccount 9%N 0)
    {[ 1%N := set_UnclaimedStakedReward c
                (set_epochRewards {[ 1 := 0 ]} (set_IsActive true (registered 1%N 100 100000)));
       2%N := registered 2%N 250 100000 ]}
    stake1000 (mkEpochTracker f0_25 100 10).

(** A fresh ledger on which validator 1 alone has registered, with a window
    from second 100 to second [stop]. *)
Definition oneRegistered (maxSupply stop : Z) : Emission :=
  snd (RegisterValidatorStake 1%N [] 100 stop stake1000 50 (fresh maxSupply)).

(** The same ledger once the sweep of block 10, at second 200, has
    activated validator 1 and credited it, and the supply, with [c]. *)
Definition oneActive (maxSupply stop c : Z) : Emission :=
  mkEmission c (MaxSupply (fresh maxSupply)) (mkEmissionAccount 9%N 0)
    {[ 1%N := set_UnclaimedStakedReward c
                (set_epochRewards {[ 1 := 0 ]} (set_IsActive true (registered 1%N 100 stop))) ]}
    stake1000 (mkEpochTracker f0_25 100 10).

(** The storage layer holding a stake of [stake1000] with validator 1 for
    each delegator of [who]. *)
Definition delegations (who : list Address) : Address -> NodeID -> option Z :=
  fun a n => if (n =? 1)%N && existsb (N.eqb a) who then Some stake1000 else None.

(** A fresh ledger with a cap of [10^19] driven through: validator 1
    registers with a window from second 100 to second 450; block 10
    activates it; alice delegates at block 11; the mint of block 20 records a
    delegation reward of 1000 for epoch 2; bob delegates at block 21; the
    sweep of block 30, at second 500, past the end of the window, deactivates
    the validator; bob undelegates at block 31 and takes his half of
    epoch 2. *)
Definition delegationRun (oor64 : float64 -> Z) : Emission :=
  let e1 := oneRegistered (10 ^ 19) 450 in
  let e2 := snd (MintNewNAI oor64 (blockAt 10 200 (delegations [])) e1) in
  let e3 := snd (DelegateUserStake (blockAt 11 203 (delegations [alice])) 1%N alice stake1000 e2) in
  let e4 := snd (MintNewNAI oor64 (blockAt 20 300 (delegations [alice])) e3) in
  let e5 :=
    snd (DelegateUserStake (blockAt 21 303 (delegations [alice; bob])) 1%N bob stake1000 e4) in
  let e6 := snd (MintNewNAI oor64 (blockAt 30 500 (delegations [alice; bob])) e5) in
  snd (UndelegateUserStake oor64 (blockAt 31 503 (delegations [alice; bob])) 1%N bob
         stake1000 e6).

(** Where that run ends, [c] being what the sweep of block 10 credited:
    the validator is inactive, alice is its one delegator, epoch 2 stands
    at 1000 and 500 of it are left unclaimed. *)
Definition sharedPool (c : Z) : Emission :=
  mkEmission (c + 2000) (10 ^ 19) (mkEmissionAccount 9%N 0)
    {[ 1%N := mkValidator false 1%N [] stake1000 (c + 1000) (fdiv (float64_of_Z 50) f100)
                stake1000 500 {[ alice := 11 ]} {[ 1 := 0; 2 := 1000 ]}
                (time_Unix 100) (time_Unix 450) ]}
    (5 * stake1000) (mkEpochTracker f0_25 100 10).

(** [ledger1] with alice and bob delegating 40 between them since block 5,
    and delegation rewards of 100 recorded for epoch 1 and 300 for epoch 2,
    all 400 unclaimed. *)
Definition twoEpochs : Emission :=
  mkEmission 5000 1000000 (mkEmissionAccount 9%N 0)
    {[ 1%N := set_epochRewards {[ 1 := 100; 2 := 300 ]}
                (set_UnclaimedDelegatedReward 400
                   (validator1 100 40 {[ alice := 5; bob := 5 ]})) ]}
    140 (mkEpochTracker f0_25 100 10).

(** The storage layer holding a stake of 20 with validator 1 for alice. *)
Definition aliceHolds20 : Address -> NodeID -> option Z :=
  fun a n => if (n =? 1)%N && (a =? alice)%N then Some 20 else None.

(** The VM's current validators: node 1 and node 3, with their public
    keys. *)
Definition currentOneAndThree : gmap NodeID (list Z) := {[ 1%N := [7]; 3%N := [8] ]}.

(** * Properties *)

(** Closed statements about example ledgers are settled by running the
    definitions. *)
Ltac by_evaluation := vm_compute; reflexivity.

(** ** Arithmetic modulo [2^64] *)

Lemma two64_pos : 0 < two64.
Proof. reflexivity. Qed.

Lemma u64_range (x : Z) : 0 <= u64 x < two64.
Proof. unfold u64. apply Z.mod_pos_bound, two64_pos. Qed.

Lemma u64_small (x : Z) : is_u64 x -> u64 x = x.
Proof. intros Hx. unfold u64. now apply Z.mod_small. Qed.

Lemma u64_idem (x : Z) : u64 (u64 x) = u64 x.
Proof. apply u64_small, u64_range. Qed.

Lemma add64_range (a b : Z) : is_u64 (add64 a b).
Proof. apply u64_range. Qed.

Lemma sub64_range (a b : Z) : is_u64 (sub64 a b).
Proof. apply u64_range. Qed.

Lemma add64_0_r (a : Z) : add64 a 0 = u64 a.
Proof. unfold add64. now rewrite Z.add_0_r. Qed.

Lemma add64_0_l (a : Z) : add64 0 a = u64 a.
Proof. reflexivity. Qed.

Lemma sub64_0_r (a : Z) : sub64 a 0 = u64 a.
Proof. unfold sub64. now rewrite Z.sub_0_r. Qed.

Lemma add64_sub64_cancel (a b : Z) : add64 (sub64 a b) b = u64 a.
Proof.
  unfold add64, sub64, u64. rewrite Zplus_mod_idemp_l. f_equal. lia.
Qed.

Lemma add64_exact (a b : Z) : 0 <= a -> 0 <= b -> a + b < two64 -> add64 a b = a + b.
Proof. intros Ha Hb Hab. apply u64_small. unfold is_u64. lia. Qed.

Lemma sub64_exact (a b : Z) : 0 <= b <= a -> a < two64 -> sub64 a b = a - b.
Proof. intros Hb Ha. apply u64_small. unfold is_u64. lia. Qed.

(** Equality of [uint64] values is congruence modulo [2^64]. *)
Lemma u64_eq_intro (a b k : Z) : a = b + k * two64 -> u64 a = u64 b.
Proof. intros ->. unfold u64. apply Z_mod_plus_full. Qed.

Lemma u64_eq_elim (a b : Z) : u64 a = u64 b -> exists k, a = b + k * two64.
Proof.
  unfold u64. intros H. exists (a / two64 - b / two64).
  pose proof (Z.div_mod a two64) as Ha. pose proof (Z.div_mod b two64) as Hb.
  unfold two64 in *. lia.
Qed.

Lemma u64_split (a : Z) : exists k, u64 a = a + k * two64.
Proof.
  exists (- (a / two64)). unfold u64. pose proof (Z.div_mod a two64). unfold two64 in *. lia.
Qed.


Lemma uint64_of_float64_range oor64 (x : float64) : is_u64 (uint64_of_float64 oor64 x).
Proof.
  unfold uint64_of_float64, is_u64. destruct x as [s | s | | s m e]; try apply u64_range.
  - unfold two64. lia.
  - cbv zeta.
    destruct ((negb s || (trunc_mag m e =? 0)) && (trunc_mag m e <? two64)) eqn:Hc;
      [| apply u64_range].
    apply andb_prop in Hc as [_ Hlt]. apply Z.ltb_lt in Hlt.
    split; [| exact Hlt]. unfold trunc_mag. apply Z.shiftl_nonneg. lia.
Qed.

(** A finite non-negative double below [2^64] converts to its floor. *)
Lemma uint64_of_float64_floor oor64 (m : positive) (e : Z) :
  Z.shiftl (Zpos m) e < two64 ->
  uint64_of_float64 oor64 (S754_finite false m e) = Z.shiftl (Zpos m) e.
Proof.
  intros Hlt. unfold uint64_of_float64, trunc_mag. cbv zeta.
  apply Z.ltb_lt in Hlt. now rewrite Hlt.
Qed.

(** ** The order of the loop over the validators *)

(** Two such additions commute. *)
Lemma bump_comm (k1 k2 : option Z) (s : Z) : bump k1 (bump k2 s) = bump k2 (bump k1 s).
Proof.
  destruct k1 as [k1 |], k2 as [k2 |]; cbn; try reflexivity.
  unfold u64. rewrite !Zplus_mod_idemp_l. f_equal. lia.
Qed.

(** What [lifecycle] returns for a validator does not depend on
    [TotalStaked], which it moves by a fixed amount. *)
Lemma lifecycle_effect (now : Time) (v : Validator) :
  exists v' k d, forall s, lifecycle now v s = (v', bump k s, d).
Proof.
  unfold lifecycle.
  destruct (After now (stakeStartTime v)).
  - cbn [IsActive set_IsActive negb StakedAmount DelegatedAmount stakeEndTime].
    destruct (After now (stakeEndTime v)).
    + exists (set_IsActive false (set_IsActive true v)), (Some 0), false. intros s. cbn.
      f_equal. f_equal. unfold sub64, add64, u64.
      rewrite Zminus_mod_idemp_l. f_equal. lia.
    + exists (set_IsActive true v), (Some (add64 (StakedAmount v) (DelegatedAmount v))), true.
      reflexivity.
  - destruct (IsActive v); cbn [negb].
    + destruct (After now (stakeEndTime v)).
      * exists (set_IsActive false v), (Some (- add64 (StakedAmount v) (DelegatedAmount v))), false.
        intros s. cbn. f_equal. 
      * exists v, None, true. reflexivity.
    + exists v, None, false. reflexivity.
Qed.

Lemma mint_body_effect oor64 (vm : NuklaiVM) (len : Z) (rate : float64) (n : NodeID) (v : Validator) :
  exists v' ks kr, forall vals s r,
    mint_body oor64 vm len rate (vals, s, r) (n, v) = (<[n := v']> vals, bump ks s, bump kr r).
Proof.
  destruct (lifecycle_effect (lastTimestamp vm) v) as (v1 & k & d & Hl).
  unfold mint_body. destruct d.
  - destruct (distributeValidatorRewards oor64
               (uint64_of_float64 oor64
                  (fmul (float64_of_Z (add64 (StakedAmount v1) (DelegatedAmount v1))) rate))
               (DelegationFeeRate v1) (DelegatedAmount v1)) as [vr dr] eqn:Hd.
    eexists _, k, (Some (add64 vr dr)). intros vals s r. rewrite Hl, Hd. reflexivity.
  - exists v1, k, None. intros vals s r. now rewrite Hl.
Qed.

Lemma fees_body_effect oor64 (vm : NuklaiVM) (rate : float64) (n : NodeID) (v : Validator) :
  exists v' ks, forall vals s,
    fees_body oor64 vm rate (vals, s) (n, v) = (<[n := v']> vals, bump ks s).
Proof.
  destruct (lifecycle_effect (lastTimestamp vm) v) as (v1 & k & d & Hl).
  unfold fees_body. destruct d.
  - destruct (distributeValidatorRewards oor64
               (uint64_of_float64 oor64
                  (fmul (float64_of_Z (add64 (StakedAmount v1) (DelegatedAmount v1))) rate))
               (DelegationFeeRate v1) (DelegatedAmount v1)) as [vr dr] eqn:Hd.
    eexists _, k. intros vals s. rewrite Hl, Hd. reflexivity.
  - exists v1, k. intros vals s. now rewrite Hl.
Qed.

(** A loop whose turns for different keys commute gives the same result in
    every order of a list without repeated keys. *)
Lemma fold_left_permutation_keys {S V : Type} (f : S -> NodeID * V -> S) :
  (forall st k1 v1 k2 v2, k1 <> k2 -> f (f st (k1, v1)) (k2, v2) = f (f st (k2, v2)) (k1, v1)) ->
  forall l l', l ≡ₚ l' -> NoDup (l.*1) -> forall st, fold_left f l st = fold_left f l' st.
Proof.
  intros Hcomm l l' Hperm. induction Hperm as [| x l l' Hperm IH | x y l | l l' l'' H1 IH1 H2 IH2];
    intros Hnd st.
  - reflexivity.
  - cbn. apply IH. now inversion Hnd.
  - cbn. destruct x as [kx vx], y as [ky vy]. f_equal. apply Hcomm.
    inversion Hnd as [| ? ? Hnotin _]; subst. cbn in Hnotin. set_solver.
  - rewrite IH1 by exact Hnd. apply IH2. now rewrite <- H1.
Qed.

Lemma mint_body_comm oor64 (vm : NuklaiVM) (len : Z) (rate : float64) (st : LoopState)
    (k1 : NodeID) (v1 : Validator) (k2 : NodeID) (v2 : Validator) :
  k1 <> k2 ->
  mint_body oor64 vm len rate (mint_body oor64 vm len rate st (k1, v1)) (k2, v2)
  = mint_body oor64 vm len rate (mint_body oor64 vm len rate st (k2, v2)) (k1, v1).
Proof.
  intros Hne. destruct st as [[vals s] r].
  destruct (mint_body_effect oor64 vm len rate k1 v1) as (w1 & ks1 & kr1 & H1).
  destruct (mint_body_effect oor64 vm len rate k2 v2) as (w2 & ks2 & kr2 & H2).
  rewrite H1, H2, H2, H1.
  now rewrite (insert_insert_ne vals k2 k1), (bump_comm ks2 ks1), (bump_comm kr2 kr1).
Qed.

Lemma fees_body_comm oor64 (vm : NuklaiVM) (rate : float64)
    (st : gmap NodeID Validator * Z)
    (k1 : NodeID) (v1 : Validator) (k2 : NodeID) (v2 : Validator) :
  k1 <> k2 ->
  fees_body oor64 vm rate (fees_body oor64 vm rate st (k1, v1)) (k2, v2)
  = fees_body oor64 vm rate (fees_body oor64 vm rate st (k2, v2)) (k1, v1).
Proof.
  intros Hne. destruct st as [vals s].
  destruct (fees_body_effect oor64 vm rate k1 v1) as (w1 & ks1 & H1).
  destruct (fees_body_effect oor64 vm rate k2 v2) as (w2 & ks2 & H2).
  rewrite H1, H2, H2, H1.
  now rewrite (insert_insert_ne vals k2 k1), (bump_comm ks2 ks1).
Qed.

(** Go ranges over a map in an order of its own choosing. Whatever order
    the validators come in, the loop of [MintNewNAI] and the loop of
    [DistributeFees] end in the same validators, the same [TotalStaked] and
    the same [actualRewards] as in the order of [map_to_list]. *)
Theorem sweep_order_irrelevant oor64 (vm : NuklaiVM) (len : Z) (rate : float64)
    (m : gmap NodeID Validator) (order : list (NodeID * Validator)) :
  order ≡ₚ map_to_list m ->
  (forall st, fold_left (mint_body oor64 vm len rate) order st
              = fold_left (mint_body oor64 vm len rate) (map_to_list m) st)
  /\ (forall st, fold_left (fees_body oor64 vm rate) order st
                 = fold_left (fees_body oor64 vm rate) (map_to_list m) st).
Proof.
  intros Hperm.
  assert (Hnd : NoDup (order.*1)) by (rewrite Hperm; apply NoDup_fst_map_to_list).
  split; intros st.
  - apply fold_left_permutation_keys; [| exact Hperm | exact Hnd].
    intros. now apply mint_body_comm.
  - apply fold_left_permutation_keys; [| exact Hperm | exact Hnd].
    intros. now apply fees_body_comm.
Qed.

(** On the two validators of [oneActiveOneWaiting], node 1 before node 2
    and the order of [map_to_list] give the same mint. *)
Lemma sweep_order_irrelevant_witness :
  let m := validators (oneActiveOneWaiting 1500 0) in
  let order :=
    [(1%N, set_epochRewards {[ 1 := 0 ]} (set_IsActive true (registered 1%N 100 100000)));
     (2%N, registered 2%N 250 100000)] in
  fold_left (mint_body oor_arm64 (blockAt 20 300 noStakes) 10 (float64_of_Z 1)) order
    (m, stake1000, 0)
  = fold_left (mint_body oor_arm64 (blockAt 20 300 noStakes) 10 (float64_of_Z 1))
      (map_to_list m) (m, stake1000, 0).
Proof.
  intros m order.
  assert (Hperm : order ≡ₚ map_to_list m).
  { change (map_to_list m) with [(2%N, registered 2%N 250 100000);
      (1%N, set_epochRewards {[ 1 := 0 ]} (set_IsActive true (registered 1%N 100 100000)))].
    apply perm_swap. }
  exact (proj1 (sweep_order_irrelevant oor_arm64 (blockAt 20 300 noStakes) 10
                  (float64_of_Z 1) m order Hperm) (m, stake1000, 0)).
Defined.

(** ** The cap on the supply *)

(** [AddToTotalSupply] never leaves the supply above the cap, whatever the
    amount and wherever the supply stood. *)
Lemma AddToTotalSupply_le_MaxSupply (amount : Z) (e : Emission) :
  is_u64 (TotalSupply e) -> is_u64 (MaxSupply e) ->
  TotalSupply (snd (AddToTotalSupply amount e)) <= MaxSupply (snd (AddToTotalSupply amount e))
  /\ fst (AddToTotalSupply amount e) = TotalSupply (snd (AddToTotalSupply amount e)).
Proof.
  intros Hs Hm. unfold AddToTotalSupply. cbn [fst snd TotalSupply MaxSupply set_TotalSupply].
  split; [| reflexivity].
  destruct (add64 (TotalSupply e) amount >? MaxSupply e) eqn:Hgt.
  - unfold add64, sub64.
    replace (TotalSupply e + u64 (MaxSupply e - TotalSupply e)) with
      (u64 (MaxSupply e - TotalSupply e) + TotalSupply e) by lia.
    fold (add64 (u64 (MaxSupply e - TotalSupply e)) (TotalSupply e)).
    fold (sub64 (MaxSupply e) (TotalSupply e)).
    rewrite add64_sub64_cancel, u64_small by exact Hm. lia.
  - rewrite Z.gtb_ltb in Hgt. apply Z.ltb_ge in Hgt. exact Hgt.
Qed.

(** Scenario A: 990 of 1000 minted, 50 more asked for, 1000 reached. *)
Lemma AddToTotalSupply_scenario_A (e : Emission) :
  TotalSupply e = 990 -> MaxSupply e = 1000 ->
  AddToTotalSupply 50 e = (1000, set_TotalSupply 1000 e).
Proof.
  intros Hs Hm. unfold AddToTotalSupply. rewrite Hs, Hm. reflexivity.
Qed.

(** Scenario A on a fresh ledger capped at 1000 with 990 minted. *)
Lemma AddToTotalSupply_scenario_A_witness :
  fst (AddToTotalSupply 50 (set_TotalSupply 990 (fresh 1000))) = 1000.
Proof.
  now rewrite (AddToTotalSupply_scenario_A (set_TotalSupply 990 (fresh 1000)) eq_refl eq_refl).
Defined.

(** An amount that wraps the sum around: 990 minted of 1000, [2^64 - 1]
    asked for. The sum is 989 in a [uint64], under the cap. *)
Lemma AddToTotalSupply_le_MaxSupply_witness :
  TotalSupply (snd (AddToTotalSupply (two64 - 1) (set_TotalSupply 990 (fresh 1000)))) = 989
  /\ TotalSupply (snd (AddToTotalSupply (two64 - 1) (set_TotalSupply 990 (fresh 1000))))
     <= MaxSupply (snd (AddToTotalSupply (two64 - 1) (set_TotalSupply 990 (fresh 1000)))).
Proof.
  split; [by_evaluation |].
  apply (AddToTotalSupply_le_MaxSupply (two64 - 1) (set_TotalSupply 990 (fresh 1000)));
    vm_compute; intuition congruence.
Defined.

(** ** The reward split *)

(** C9, as stated, fails: the delegation share is not the floor of the exact
    product. For a total of [2^54 + 2] and a fee rate of 50 percent, the
    conversion [float64(total)] rounds the total to [2^54], so the code
    returns a delegation share of [2^53], while [floor (total * 0.5)] is
    [2^53 + 1], on either target. For a total of 100 and a fee rate of 57
    percent, which [RegisterValidatorStake] stores as the double nearest to
    0.57, the rounded product is just below 57 and the code returns 56, while
    [floor (100 * 57 / 100)] is 57. *)
Lemma distributeValidatorRewards_not_exact_floor :
  distributeValidatorRewards oor_arm64 18014398509481986 (fdiv (float64_of_Z 50) f100) 1
    = (9007199254740994, 9007199254740992)
  /\ distributeValidatorRewards oor_amd64 18014398509481986 (fdiv (float64_of_Z 50) f100) 1
    = (9007199254740994, 9007199254740992)
  /\ floor_mul_exact 18014398509481986 (fdiv (float64_of_Z 50) f100) = Some 9007199254740993
  /\ floor_percent 18014398509481986 50 = 9007199254740993
  /\ distributeValidatorRewards oor_arm64 100 (fdiv (float64_of_Z 57) f100) 1 = (44, 56)
  /\ floor_percent 100 57 = 57.
Proof. repeat split; by_evaluation. Qed.

(** C9, amended: with no delegated amount the validator keeps the whole
    total; otherwise the delegation share is [uint64] of the double product
    [float64(total) * delegationFeeRate], which for a finite non-negative
    product below [2^64] is the floor of that double, and the validator
    share is [total - delegationShare] modulo [2^64]. The two shares sum to
    [total] modulo [2^64], and as integers whenever the delegation share
    does not exceed the total. For a total of 100 and a fee rate of 0.2
    (20 percent) the split is 20 for the delegation and 80 for the
    validator. *)
Theorem distributeValidatorRewards_split oor64 (total : Z) (rate : float64)
    (delegatedAmount : Z) :
  is_u64 total -> 0 <= delegatedAmount ->
  let validatorShare := fst (distributeValidatorRewards oor64 total rate delegatedAmount) in
  let delegationShare := snd (distributeValidatorRewards oor64 total rate delegatedAmount) in
  (delegatedAmount = 0 -> validatorShare = total /\ delegationShare = 0)
  /\ (0 < delegatedAmount ->
      delegationShare = uint64_of_float64 oor64 (fmul (float64_of_Z total) rate)
      /\ forall m e, fmul (float64_of_Z total) rate = S754_finite false m e ->
           Z.shiftl (Zpos m) e < two64 -> delegationShare = Z.shiftl (Zpos m) e)
  /\ validatorShare = sub64 total delegationShare
  /\ add64 validatorShare delegationShare = total
  /\ (delegationShare <= total -> validatorShare + delegationShare = total)
  /\ distributeValidatorRewards oor64 100 (fdiv (float64_of_Z 20) f100) 50 = (80, 20).
Proof.
  intros Ht Hd validatorShare delegationShare.
  subst validatorShare delegationShare. unfold distributeValidatorRewards. cbn [fst snd].
  assert (Hr : is_u64 (if delegatedAmount >? 0
                       then uint64_of_float64 oor64 (fmul (float64_of_Z total) rate)
                       else 0)).
  { destruct (delegatedAmount >? 0); [apply uint64_of_float64_range |].
    unfold is_u64, two64. lia. }
  split; [| split; [| split; [| split; [| split]]]].
  - intros ->. cbn. rewrite sub64_0_r. split; [now apply u64_small | reflexivity].
  - intros Hpos. apply Z.gtb_lt in Hpos. rewrite Hpos. split; [reflexivity |].
    intros m e Hmul Hlt. rewrite Hmul. now apply uint64_of_float64_floor.
  - reflexivity.
  - rewrite add64_sub64_cancel. now apply u64_small.
  - intros Hle. rewrite sub64_exact; unfold is_u64 in *; lia.
  - vm_compute. reflexivity.
Qed.

(** The amended C9 at a total of 1000, a fee rate of 0.25 and a delegated
    amount of 50: 250 for the delegation, 750 for the validator. *)
Lemma distributeValidatorRewards_split_witness :
  snd (distributeValidatorRewards oor_arm64 1000 f0_25 50) = 250
  /\ fst (distributeValidatorRewards oor_arm64 1000 f0_25 50) = sub64 1000 250
  /\ add64 (fst (distributeValidatorRewards oor_arm64 1000 f0_25 50))
       (snd (distributeValidatorRewards oor_arm64 1000 f0_25 50)) = 1000.
Proof.
  assert (Ht : is_u64 1000) by (unfold is_u64, two64; lia).
  assert (Hd : 0 <= 50) by lia.
  assert (Hpos : 0 < 50) by lia.
  pose proof (distributeValidatorRewards_split oor_arm64 1000 f0_25 50 Ht Hd) as H.
  cbv zeta in H.
  destruct H as (_ & Hshare & Hv & Hsum & _).
  destruct (Hshare Hpos) as [Hs _].
  assert (Hs' : snd (distributeValidatorRewards oor_arm64 1000 f0_25 50) = 250)
    by (rewrite Hs; by_evaluation).
  split; [exact Hs' |]. split; [| exact Hsum].
  rewrite Hv. now rewrite Hs'.
Defined.

(** ** Registration *)

(** A validator is never created active. *)
Lemma RegisterValidatorStake_creates_inactive (nodeID : NodeID) (pk : list Z)
    (start stop amount feeRate : Z) (e : Emission) :
  validators e !! nodeID = None ->
  exists v, validators (snd (RegisterValidatorStake nodeID pk start stop amount feeRate e))
              !! nodeID = Some v
            /\ IsActive v = false /\ StakedAmount v = amount.
Proof.
  intros Hnone. unfold RegisterValidatorStake. rewrite Hnone. cbn.
  rewrite lookup_insert_eq. eexists. repeat split.
Qed.

(** C4, as stated, fails: on a fresh ledger, registering node 1 with a stake
    of 100 and then registering it again, with no withdrawal in between,
    succeeds both times; the second call adds its 100 to the staked amount
    of the entry the first call created. *)
Lemma RegisterValidatorStake_twice_succeeds :
  RegisterValidatorStake 1%N [] 100 100000 100 10
    (snd (RegisterValidatorStake 1%N [] 100 100000 100 10 (fresh 1000)))
  = (Ok tt,
     set_validators
       {[ 1%N := mkValidator false 1%N [] 200 0 (fdiv (float64_of_Z 10) f100) 0 0 ∅ ∅
                   (time_Unix 100) (time_Unix 100000) ]}
       (fresh 1000)).
Proof. vm_compute. reflexivity. Qed.

(** C4, amended: [RegisterValidatorStake] fails, and then with
    [ValidatorAlreadyRegistered], exactly when the node has an entry whose
    [IsActive] flag is set. A first call for a node without an entry creates
    an inactive one, so a second call right after it succeeds and updates the
    entry in place: the public key, the fee rate and the stake window are
    replaced and the second staked amount is added to the first. *)
Theorem RegisterValidatorStake_twice (nodeID : NodeID) (pk1 pk2 : list Z)
    (start1 stop1 amount1 feeRate1 start2 stop2 amount2 feeRate2 : Z) (e : Emission) :
  (forall err,
      fst (RegisterValidatorStake nodeID pk2 start2 stop2 amount2 feeRate2 e) = Err err <->
      err = ErrValidatorAlreadyRegistered
      /\ exists v, validators e !! nodeID = Some v /\ IsActive v = true)
  /\ (validators e !! nodeID = None ->
      RegisterValidatorStake nodeID pk2 start2 stop2 amount2 feeRate2
        (snd (RegisterValidatorStake nodeID pk1 start1 stop1 amount1 feeRate1 e))
      = (Ok tt,
         set_validators
           (<[nodeID :=
                mkValidator false nodeID pk2 (add64 amount1 amount2) 0
                  (fdiv (float64_of_Z feeRate2) f100) 0 0 ∅ ∅
                  (time_Unix (int64_of_u64 start2)) (time_Unix (int64_of_u64 stop2))]>
              (validators e))
           e)).
Proof.
  split.
  - intros err. unfold RegisterValidatorStake.
    destruct (validators e !! nodeID) as [v |] eqn:Hv; cbn.
    + destruct (IsActive v) eqn:Ha; cbn; split.
      * intros [= <-]. eauto.
      * now intros [-> _].
      * discriminate.
      * intros [_ (v' & [= <-] & Ha')]. congruence.
    + split; [discriminate |]. now intros [_ (v' & Hv' & _)].
  - intros Hnone. unfold RegisterValidatorStake at 2. rewrite Hnone. cbn [snd].
    unfold RegisterValidatorStake. cbn. rewrite lookup_insert_eq. cbn.
    unfold set_validators. cbn. now rewrite insert_insert_eq.
Qed.

(** The amended C4 for node 7 on a fresh ledger, where the second call
    succeeds, and for validator 1 of [ledger1], which is active, where the
    call fails. *)
Lemma RegisterValidatorStake_twice_witness :
  fst (RegisterValidatorStake 7%N [1] 30 40 5 20
         (snd (RegisterValidatorStake 7%N [] 10 20 1000 10 (fresh 1000)))) = Ok tt
  /\ fst (RegisterValidatorStake 1%N [1] 30 40 5 20 (ledger1 100 0 ∅))
     = Err ErrValidatorAlreadyRegistered.
Proof.
  split.
  - assert (Hnone : validators (fresh 1000) !! 7%N = None) by reflexivity.
    pose proof (proj2 (RegisterValidatorStake_twice 7%N [] [1] 10 20 1000 10 30 40 5 20
                         (fresh 1000)) Hnone) as H.
    rewrite H. reflexivity.
  - apply (proj1 (RegisterValidatorStake_twice 1%N [] [1] 0 0 0 0 30 40 5 20
                    (ledger1 100 0 ∅)) ErrValidatorAlreadyRegistered).
    split; [reflexivity |]. exists (validator1 100 0 ∅). split; reflexivity.
Defined.

(** ** Withdrawal *)

Lemma size_delegators_zero (m : gmap Address Z) : (size m =? 0)%nat = true <-> m = ∅.
Proof. rewrite Nat.eqb_eq. apply map_size_empty_iff. Qed.

Lemma size_delegators_nonzero (m : gmap Address Z) (a : Address) (h : Z) :
  m !! a = Some h -> (size m =? 0)%nat = false.
Proof.
  intros Ha. apply Nat.eqb_neq. intros Hz. apply map_size_empty_iff in Hz.
  subst m. now rewrite lookup_empty in Ha.
Qed.

(** C7: [WithdrawValidatorStake] on a registered validator. While a
    delegator remains, it returns exactly the unclaimed staked reward, zeroes
    that field, clears [IsActive], takes the staked amount off [TotalStaked]
    if the validator was active, keeps the entry and leaves its
    [UnclaimedDelegatedReward] where it was. With no delegator, it returns
    the sum of both unclaimed rewards, zeroes both, also takes the delegated
    amount off [TotalStaked], and deletes the entry. *)
Theorem WithdrawValidatorStake_spec (nodeID : NodeID) (e : Emission) (v : Validator) :
  validators e !! nodeID = Some v ->
  let staked1 :=
    if IsActive v then sub64 (TotalStaked e) (StakedAmount v) else TotalStaked e in
  ((exists a h, delegatorsLastClaim v !! a = Some h) ->
   let v' := set_IsActive false (set_UnclaimedStakedReward 0 v) in
   WithdrawValidatorStake nodeID e
   = (Ok (UnclaimedStakedReward v),
      set_TotalStaked staked1 (set_validators (<[nodeID := v']> (validators e)) e))
   /\ validators (snd (WithdrawValidatorStake nodeID e)) !! nodeID = Some v'
   /\ UnclaimedStakedReward v' = 0 /\ IsActive v' = false
   /\ UnclaimedDelegatedReward v' = UnclaimedDelegatedReward v)
  /\ (delegatorsLastClaim v = ∅ ->
      WithdrawValidatorStake nodeID e
      = (Ok (add64 (UnclaimedStakedReward v) (UnclaimedDelegatedReward v)),
         set_TotalStaked (sub64 staked1 (DelegatedAmount v))
           (set_validators (delete nodeID (validators e)) e))
      /\ validators (snd (WithdrawValidatorStake nodeID e)) !! nodeID = None
      /\ let v' := snd (fst (fst (withdraw_validator v (TotalStaked e)))) in
         UnclaimedStakedReward v' = 0 /\ UnclaimedDelegatedReward v' = 0
         /\ IsActive v' = false).
Proof.
  intros Hv staked1. split.
  - intros (a & h & Hah) v'.
    assert (Hw : withdraw_validator v (TotalStaked e)
                 = (UnclaimedStakedReward v, v', staked1, false)).
    { unfold withdraw_validator. cbn.
      now rewrite (size_delegators_nonzero _ a h Hah). }
    unfold WithdrawValidatorStake. rewrite Hv, Hw. cbn [snd].
    split; [reflexivity |]. split; [| now cbn].
    cbn. apply lookup_insert_eq.
  - intros Hempty.
    assert (Hw : withdraw_validator v (TotalStaked e)
                 = (add64 (UnclaimedStakedReward v) (UnclaimedDelegatedReward v),
                    set_UnclaimedDelegatedReward 0
                      (set_IsActive false (set_UnclaimedStakedReward 0 v)),
                    sub64 staked1 (DelegatedAmount v), true)).
    { unfold withdraw_validator. cbn.
      now rewrite (proj2 (size_delegators_zero _) Hempty). }
    unfold WithdrawValidatorStake. rewrite Hv, Hw. cbn [snd fst].
    split; [reflexivity |]. split.
    + cbn. apply lookup_delete_eq.
    + now cbn.
Qed.

(** C7 on [ledger1]: with alice still delegating 40, the withdrawal returns
    the 7 of staked reward and keeps the entry; with nobody delegating, it
    returns 7 + 3 and deletes the entry. *)
Lemma WithdrawValidatorStake_spec_witness :
  (fst (WithdrawValidatorStake 1%N (ledger1 100 40 {[ alice := 5 ]})) = Ok 7
   /\ TotalStaked (snd (WithdrawValidatorStake 1%N (ledger1 100 40 {[ alice := 5 ]}))) = 40)
  /\ (fst (WithdrawValidatorStake 1%N (ledger1 100 0 ∅)) = Ok 10
      /\ validators (snd (WithdrawValidatorStake 1%N (ledger1 100 0 ∅))) = ∅).
Proof.
  split.
  - assert (Hv : validators (ledger1 100 40 {[ alice := 5 ]}) !! 1%N
                 = Some (validator1 100 40 {[ alice := 5 ]})) by reflexivity.
    assert (Hd : exists a h,
               delegatorsLastClaim (validator1 100 40 {[ alice := 5 ]}) !! a = Some h)
      by (exists alice, 5; reflexivity).
    destruct (proj1 (WithdrawValidatorStake_spec _ _ _ Hv) Hd) as (Heq & _).
    rewrite Heq. split; reflexivity.
  - assert (Hv : validators (ledger1 100 0 ∅) !! 1%N = Some (validator1 100 0 ∅))
      by reflexivity.
    assert (Hd : delegatorsLastClaim (validator1 100 0 ∅) = ∅) by reflexivity.
    destruct (proj2 (WithdrawValidatorStake_spec _ _ _ Hv) Hd) as (Heq & _).
    rewrite Heq. split; by_evaluation.
Defined.

(** ** Errors *)

(** The reward calculation reads the ledger and returns a value: it has no
    ledger to hand back, so it cannot change one. What it returns for a
    missing validator, delegator or stake record: *)
Lemma CalculateUserDelegationRewards_errors oor64 (vm : NuklaiVM) (nodeID : NodeID)
    (actor : Address) (height : Z) (e : Emission) (err : Error) :
  CalculateUserDelegationRewards oor64 vm nodeID actor height e = Err err ->
  (err = ErrValidatorNotFound /\ validators e !! nodeID = None)
  \/ (err = ErrDelegatorNotFound
      /\ exists v, validators e !! nodeID = Some v /\ delegatorsLastClaim v !! actor = None)
  \/ (err = ErrState /\ stateFails vm = true)
  \/ (err = ErrStakeNotFound /\ GetDelegateUserStake vm actor nodeID = None).
Proof.
  unfold CalculateUserDelegationRewards.
  destruct (validators e !! nodeID) as [v |] eqn:Hv; [| intros [= <-]; now left].
  destruct (delegatorsLastClaim v !! actor) eqn:Hd;
    [| intros [= <-]; right; left; eauto].
  destruct (stateFails vm) eqn:Hs; [intros [= <-]; right; right; now left |].
  destruct (GetDelegateUserStake vm actor nodeID) eqn:Hg;
    [| intros [= <-]; right; right; now right].
  destruct (EpochLength (epochTracker e) =? 0); discriminate.
Qed.

(** C10: whenever one of the five operations returns an error, the ledger
    it hands back is the ledger it was given: the supplies, the emission
    account and every validator entry with its maps are as before. *)
Theorem error_leaves_ledger_unchanged oor64 (vm : NuklaiVM) (nodeID : NodeID)
    (actor : Address) (pk : list Z) (start stop amount feeRate : Z) (e : Emission)
    (err : Error) :
  (fst (RegisterValidatorStake nodeID pk start stop amount feeRate e) = Err err ->
   snd (RegisterValidatorStake nodeID pk start stop amount feeRate e) = e)
  /\ (fst (WithdrawValidatorStake nodeID e) = Err err ->
      snd (WithdrawValidatorStake nodeID e) = e)
  /\ (fst (DelegateUserStake vm nodeID actor amount e) = Err err ->
      snd (DelegateUserStake vm nodeID actor amount e) = e)
  /\ (fst (UndelegateUserStake oor64 vm nodeID actor amount e) = Err err ->
      snd (UndelegateUserStake oor64 vm nodeID actor amount e) = e)
  /\ (fst (ClaimStakingRewards oor64 vm nodeID actor e) = Err err ->
      snd (ClaimStakingRewards oor64 vm nodeID actor e) = e).
Proof.
  repeat apply conj.
  - unfold RegisterValidatorStake.
    destruct (validators e !! nodeID) as [v |]; [destruct (IsActive v) |]; cbn;
      solve [reflexivity | discriminate].
  - unfold WithdrawValidatorStake.
    destruct (validators e !! nodeID) as [v |]; [| reflexivity].
    destruct (withdraw_validator v (TotalStaked e)) as [[[r v'] s] d]. cbn. discriminate.
  - unfold DelegateUserStake.
    destruct (validators e !! nodeID) as [v |]; [| reflexivity].
    destruct (delegatorsLastClaim v !! actor); cbn; solve [reflexivity | discriminate].
  - unfold UndelegateUserStake.
    destruct (validators e !! nodeID) as [v |]; [| reflexivity].
    destruct (delegatorsLastClaim v !! actor); [| reflexivity].
    destruct (CalculateUserDelegationRewards oor64 vm nodeID actor (lastHeight vm) e);
      cbn; solve [reflexivity | discriminate].
  - unfold ClaimStakingRewards.
    destruct (validators e !! nodeID) as [v |]; [| reflexivity].
    destruct (actor =? EmptyAddress)%N.
    + destruct (size (delegatorsLastClaim (set_UnclaimedStakedReward 0 v)) =? 0)%nat;
        cbn; discriminate.
    + destruct (CalculateUserDelegationRewards oor64 vm nodeID actor (lastHeight vm) e);
        cbn; solve [reflexivity | discriminate].
Qed.

(** C10 at work on [ledger1] with alice delegating: registering the active
    validator again, withdrawing an unknown node, delegating twice, and
    undelegating or claiming for bob, who never delegated, all fail and hand
    the ledger back as it was. *)
Lemma error_leaves_ledger_unchanged_witness :
  let e := ledger1 100 40 {[ alice := 5 ]} in
  let vm := blockAt 12 200 noStakes in
  RegisterValidatorStake 1%N [] 100 100000 100 10 e = (Err ErrValidatorAlreadyRegistered, e)
  /\ WithdrawValidatorStake 2%N e = (Err ErrValidatorNotFound, e)
  /\ DelegateUserStake vm 1%N alice 5 e = (Err ErrDelegatorAlreadyStaked, e)
  /\ UndelegateUserStake oor_arm64 vm 1%N bob 5 e = (Err ErrDelegatorNotFound, e)
  /\ ClaimStakingRewards oor_arm64 vm 1%N alice e = (Err ErrStakeNotFound, e).
Proof.
  intros e vm.
  assert (Hpair : forall (A : Type) (p : Outcome A * Emission) err,
             fst p = Err err -> snd p = e -> p = (Err err, e)).
  { intros A [o s] err. cbn. now intros -> ->. }
  repeat apply conj.
  - apply Hpair; [reflexivity |].
    now apply (proj1 (error_leaves_ledger_unchanged oor_arm64 vm 1%N alice [] 100 100000 100
                        10 e ErrValidatorAlreadyRegistered)).
  - apply Hpair; [reflexivity |].
    now apply (proj1 (proj2 (error_leaves_ledger_unchanged oor_arm64 vm 2%N alice [] 0 0 0
                               0 e ErrValidatorNotFound))).
  - apply Hpair; [reflexivity |].
    now apply (proj1 (proj2 (proj2 (error_leaves_ledger_unchanged oor_arm64 vm 1%N alice []
                                      0 0 5 0 e ErrDelegatorAlreadyStaked)))).
  - apply Hpair; [reflexivity |].
    now apply (proj1 (proj2 (proj2 (proj2 (error_leaves_ledger_unchanged oor_arm64 vm 1%N
                                             bob [] 0 0 5 0 e ErrDelegatorNotFound))))).
  - apply Hpair; [reflexivity |].
    now apply (proj2 (proj2 (proj2 (proj2 (error_leaves_ledger_unchanged oor_arm64 vm 1%N
                                             alice [] 0 0 0 0 e ErrStakeNotFound))))).
Defined.

(** ** Fee distribution *)

Lemma DistributeFees_frame oor64 (vm : NuklaiVM) (fee : Z) (e : Emission) :
  TotalSupply (DistributeFees oor64 vm fee e) = TotalSupply e
  /\ MaxSupply (DistributeFees oor64 vm fee e) = MaxSupply e
  /\ UnclaimedBalance (emissionAccount (DistributeFees oor64 vm fee e))
     = add64 (UnclaimedBalance (emissionAccount e)) (clamped_fee fee e / 2).
Proof.
  unfold DistributeFees. fold (clamped_fee fee e).
  set (e1 := set_UnclaimedBalance _ e).
  destruct ((TotalStaked e1 =? 0) || _); [now cbn |].
  destruct (fold_left _ _ _) as [vals staked]. now cbn.
Qed.

Lemma clamped_fee_min (fee : Z) (e : Emission) :
  0 <= fee -> 0 <= TotalSupply e <= MaxSupply e -> MaxSupply e < two64 ->
  TotalSupply e + fee < two64 ->
  clamped_fee fee e = Z.min fee (MaxSupply e - TotalSupply e).
Proof.
  intros Hf Hs Hm Hsum. unfold clamped_fee.
  rewrite add64_exact by lia.
  destruct (TotalSupply e + fee >? MaxSupply e) eqn:Hgt.
  - rewrite Z.gtb_ltb in Hgt. apply Z.ltb_lt in Hgt.
    rewrite sub64_exact by lia. lia.
  - rewrite Z.gtb_ltb in Hgt. apply Z.ltb_ge in Hgt. lia.
Qed.

(** One turn of the fee loop for an active validator with a stake of 100 and
    nothing delegated, before the end of its window, at a rate of 50 for 100
    staked: the validator is credited 50. *)
Lemma fees_body_scenario_B oor64 (vm : NuklaiVM) (vals : gmap NodeID Validator)
    (staked : Z) (nodeID : NodeID) (v : Validator) :
  IsActive v = true -> StakedAmount v = 100 -> DelegatedAmount v = 0 ->
  After (lastTimestamp vm) (stakeEndTime v) = false ->
  exists v' staked',
    fees_body oor64 vm (fdiv (float64_of_Z 50) (float64_of_Z 100)) (vals, staked) (nodeID, v)
    = (<[nodeID := v']> vals, staked')
    /\ UnclaimedStakedReward v' = add64 (UnclaimedStakedReward v) 50
    /\ UnclaimedDelegatedReward v' = u64 (UnclaimedDelegatedReward v)
    /\ IsActive v' = true.
Proof.
  intros Ha Hs Hd Hend.
  assert (Hfee : uint64_of_float64 oor64
                   (fmul (float64_of_Z (add64 100 0))
                      (fdiv (float64_of_Z 50) (float64_of_Z 100))) = 50)
    by (by_evaluation).
  unfold fees_body, lifecycle, distributeValidatorRewards.
  destruct (After (lastTimestamp vm) (stakeStartTime v));
    cbn -[add64 sub64 fmul fdiv float64_of_Z uint64_of_float64 Z.gtb];
    rewrite ?Ha, Hend;
    cbn -[add64 sub64 fmul fdiv float64_of_Z uint64_of_float64 Z.gtb];
    rewrite Hs, Hd, Hfee; change (0 >? 0) with false; cbv iota;
    change (sub64 50 0) with 50;
    do 2 eexists; (split; [reflexivity |]); cbn -[add64];
    rewrite add64_0_r; auto.
Qed.

(** C8, as stated, fails for a fee that wraps the supply around: with 990 of
    1000 minted and a fee of [2^64 - 1], the sum [TotalSupply + fee] is 989
    in a [uint64], the clamp does not fire, and the emission account is
    credited [2^63 - 1] where [floor (min (fee, MaxSupply - TotalSupply) / 2)]
    is 5. It fails as well on a ledger whose supply stands above the cap, as
    the mint of block 20 leaves [oneActiveOneWaiting] with 2000 minted of
    1500: a fee of 100 is clamped to [1500 - 2000] modulo [2^64] and the
    account is credited [2^63 - 250]. *)
Lemma DistributeFees_fee_wraps :
  UnclaimedBalance (emissionAccount
    (DistributeFees oor_arm64 (blockAt 11 200 noStakes) (two64 - 1)
       (set_TotalSupply 990 (fresh 1000)))) = 2 ^ 63 - 1
  /\ Z.min (two64 - 1)
       (MaxSupply (set_TotalSupply 990 (fresh 1000))
        - TotalSupply (set_TotalSupply 990 (fresh 1000))) / 2 = 5
  /\ UnclaimedBalance (emissionAccount
       (DistributeFees oor_arm64 (blockAt 21 303 noStakes) 100
          (snd (MintNewNAI oor_arm64 (blockAt 20 300 noStakes) (oneActiveOneWaiting 1500 0)))))
     = 2 ^ 63 - 250.
Proof. repeat split; by_evaluation. Qed.

(** C8, amended: [DistributeFees] leaves [TotalSupply] and [MaxSupply] as
    they were, for every fee and every ledger. When the supply is within the
    cap and [TotalSupply + fee] stays below [2^64], it credits the emission
    account with [floor (clampedFee / 2)], modulo [2^64], where [clampedFee]
    is [min (fee, MaxSupply - TotalSupply)]. With one active validator of
    stake 100, nothing delegated, a total stake of 100 and room for a fee of
    100, the emission account is credited 50 and so is the validator's
    unclaimed staked reward. *)
Theorem DistributeFees_supply_and_credit oor64 (vm : NuklaiVM) (fee : Z) (e : Emission) :
  TotalSupply (DistributeFees oor64 vm fee e) = TotalSupply e
  /\ MaxSupply (DistributeFees oor64 vm fee e) = MaxSupply e
  /\ (0 <= fee -> 0 <= TotalSupply e <= MaxSupply e -> MaxSupply e < two64 ->
      TotalSupply e + fee < two64 ->
      UnclaimedBalance (emissionAccount (DistributeFees oor64 vm fee e))
      = add64 (UnclaimedBalance (emissionAccount e))
          (Z.min fee (MaxSupply e - TotalSupply e) / 2))
  /\ (forall nodeID v,
        validators e = {[ nodeID := v ]} -> TotalStaked e = 100 ->
        IsActive v = true -> StakedAmount v = 100 -> DelegatedAmount v = 0 ->
        After (lastTimestamp vm) (stakeEndTime v) = false ->
        add64 (TotalSupply e) 100 <= MaxSupply e ->
        UnclaimedBalance (emissionAccount (DistributeFees oor64 vm 100 e))
        = add64 (UnclaimedBalance (emissionAccount e)) 50
        /\ exists v',
            validators (DistributeFees oor64 vm 100 e) = {[ nodeID := v' ]}
            /\ UnclaimedStakedReward v' = add64 (UnclaimedStakedReward v) 50
            /\ UnclaimedDelegatedReward v' = u64 (UnclaimedDelegatedReward v)).
Proof.
  destruct (DistributeFees_frame oor64 vm fee e) as (Hs & Hm & Hb).
  split; [exact Hs |]. split; [exact Hm |]. split.
  - intros Hf Hsup Hmax Hsum. rewrite Hb. now rewrite clamped_fee_min.
  - intros nodeID v Hvals Hstaked Ha Hst Hd Hend Hroom.
    destruct (DistributeFees_frame oor64 vm 100 e) as (_ & _ & Hb100).
    assert (Hc : clamped_fee 100 e = 100).
    { unfold clamped_fee. rewrite Z.gtb_ltb.
      now rewrite (proj2 (Z.ltb_ge _ _) Hroom). }
    split; [now rewrite Hb100, Hc |].
    unfold DistributeFees. fold (clamped_fee 100 e). rewrite Hc.
    cbn [TotalStaked set_UnclaimedBalance validators]. rewrite Hstaked, Hvals.
    change (100 / 2) with 50. change (sub64 100 50) with 50.
    change ((100 =? 0) || (50 =? 0)) with false. cbv iota.
    rewrite map_to_list_singleton. cbn [fold_left].
    destruct (fees_body_scenario_B oor64 vm {[ nodeID := v ]} 100 nodeID v Ha Hst Hd Hend)
      as (v' & staked' & Hbody & Hr1 & Hr2 & _).
    rewrite Hbody. exists v'. split; [| now split].
    cbn. apply insert_singleton_eq.
Qed.

(** The amended C8 on [ledger1] with nothing delegated: a fee of 100 at
    second 200 credits 50 to the emission account and 50 to validator 1,
    and a fee of 2000000, more than the 995000 still to mint, credits
    497500. *)
Lemma DistributeFees_supply_and_credit_witness :
  let e := ledger1 100 0 ∅ in
  let vm := blockAt 11 200 noStakes in
  (UnclaimedBalance (emissionAccount (DistributeFees oor_arm64 vm 2000000 e)) = 497500
   /\ TotalSupply (DistributeFees oor_arm64 vm 2000000 e) = 5000)
  /\ UnclaimedBalance (emissionAccount (DistributeFees oor_arm64 vm 100 e)) = 50
  /\ exists v', validators (DistributeFees oor_arm64 vm 100 e) = {[ 1%N := v' ]}
                /\ UnclaimedStakedReward v' = 57.
Proof.
  intros e vm.
  destruct (DistributeFees_supply_and_credit oor_arm64 vm 2000000 e)
    as (Hs & _ & Hcredit & _).
  destruct (DistributeFees_supply_and_credit oor_arm64 vm 100 e) as (_ & _ & _ & HB).
  split.
  - split; [| exact Hs]. rewrite Hcredit; [reflexivity | | | |]; vm_compute; intuition congruence.
  - destruct (HB 1%N (validator1 100 0 ∅)) as (Hb & v' & Hv' & Hr & _);
      try reflexivity; [vm_compute; congruence |].
    split; [exact Hb |]. exists v'. split; [exact Hv' | exact Hr].
Defined.

(** ** The loop body for a validator in its window *)

(** What the loop body does to [TotalStaked] for a validator whose stake
    has started and not ended: it adds the validator's whole stake, whether
    or not the validator was active already. *)
Lemma lifecycle_started (now : Time) (v : Validator) (staked : Z) :
  After now (stakeStartTime v) = true -> After now (stakeEndTime v) = false ->
  lifecycle now v staked
  = (set_IsActive true v, add64 staked (add64 (StakedAmount v) (DelegatedAmount v)), true).
Proof.
  intros Hs He. unfold lifecycle. rewrite Hs. cbn. now rewrite He.
Qed.

Lemma fmul_nan_r (x : float64) : fmul x S754_nan = S754_nan.
Proof. now destruct x. Qed.

(** The loop body of [MintNewNAI] for a validator whose stake has started
    and not ended. *)
Lemma mint_body_started oor64 (vm : NuklaiVM) (len : Z) (rate : float64)
    (vals : gmap NodeID Validator) (staked rewards : Z) (nodeID : NodeID) (v : Validator) :
  After (lastTimestamp vm) (stakeStartTime v) = true ->
  After (lastTimestamp vm) (stakeEndTime v) = false ->
  let stake := add64 (StakedAmount v) (DelegatedAmount v) in
  let total := uint64_of_float64 oor64 (fmul (float64_of_Z stake) rate) in
  let shares := distributeValidatorRewards oor64 total (DelegationFeeRate v) (DelegatedAmount v) in
  mint_body oor64 vm len rate (vals, staked, rewards) (nodeID, v)
  = (<[nodeID :=
         set_epochRewards (<[lastHeight vm / len := snd shares]> (epochRewards v))
           (set_UnclaimedDelegatedReward (add64 (UnclaimedDelegatedReward v) (snd shares))
              (set_UnclaimedStakedReward (add64 (UnclaimedStakedReward v) (fst shares))
                 (set_IsActive true v)))]> vals,
     add64 staked stake,
     add64 rewards (add64 (fst shares) (snd shares))).
Proof.
  intros Hs He stake total shares. unfold mint_body.
  rewrite (lifecycle_started _ _ _ Hs He).
  subst shares total stake. cbn [IsActive StakedAmount DelegatedAmount DelegationFeeRate
    set_IsActive].
  now destruct (distributeValidatorRewards _ _ _ _).
Qed.

(** The first sweep past the stake start of validator 1, on a ledger where
    nothing is staked yet: the epoch reward is 0, the rate per staked unit
    is [0 / 0], and the validator and the supply are credited with
    [uint64(NaN)]. *)
Lemma first_mint oor64 (stakes : Address -> NodeID -> option Z) (maxSupply stop : Z) :
  0 <= maxSupply ->
  After (time_Unix 200) (time_Unix (int64_of_u64 stop)) = false ->
  MintNewNAI oor64 (blockAt 10 200 stakes) (oneRegistered maxSupply stop)
  = (Ok (uint64_of_float64 oor64 S754_nan),
     oneActive maxSupply stop (uint64_of_float64 oor64 S754_nan)).
Proof.
  intros HM Hstop.
  assert (Hmax : 0 <= MaxSupply (oneRegistered maxSupply stop)).
  { change (MaxSupply (oneRegistered maxSupply stop))
      with (if maxSupply =? 0 then 0 else maxSupply).
    destruct (maxSupply =? 0); lia. }
  assert (Hr : GetRewardsPerEpoch oor64 (oneRegistered maxSupply stop) = 0).
  { unfold GetRewardsPerEpoch.
    change (uint64_of_float64 oor64 _) with 0.
    change (add64 (TotalSupply (oneRegistered maxSupply stop)) 0) with 0.
    rewrite Z.gtb_ltb. now rewrite (proj2 (Z.ltb_ge _ _) Hmax). }
  set (c := uint64_of_float64 oor64 S754_nan).
  assert (Hc : is_u64 c) by apply uint64_of_float64_range.
  assert (H0c : add64 0 c = c) by (rewrite add64_0_l; now apply u64_small).
  unfold MintNewNAI. rewrite Hr.
  change (EpochLength (epochTracker (oneRegistered maxSupply stop))) with 10.
  change (lastHeight (blockAt 10 200 stakes) mod 10 =? 0) with true.
  change (10 =? 0) with false. cbv iota.
  change (validators (oneRegistered maxSupply stop))
    with ({[ 1%N := registered 1%N 100 stop ]} : gmap NodeID Validator).
  change (TotalStaked (oneRegistered maxSupply stop)) with 0.
  change (fdiv (float64_of_Z 0) (float64_of_Z 0)) with S754_nan.
  rewrite map_to_list_singleton. cbn [fold_left].
  rewrite mint_body_started by (exact Hstop || (by_evaluation)).
  rewrite fmul_nan_r. fold c. clearbody c.
  unfold distributeValidatorRewards.
  change (DelegatedAmount (registered 1%N 100 stop) >? 0) with false. cbv iota.
  cbn [fst snd]. rewrite sub64_0_r, add64_0_r, !(u64_small c Hc), !H0c.
  rewrite insert_singleton_eq.
  cbn [UnclaimedStakedReward UnclaimedDelegatedReward epochRewards registered].
  change (TotalSupply (oneRegistered maxSupply stop)) with 0. rewrite ?H0c.
  reflexivity.
Qed.

(** The loop body of [MintNewNAI] for an inactive validator whose stake has
    not started. *)
Lemma mint_body_waiting oor64 (vm : NuklaiVM) (len : Z) (rate : float64)
    (vals : gmap NodeID Validator) (staked rewards : Z) (nodeID : NodeID) (v : Validator) :
  After (lastTimestamp vm) (stakeStartTime v) = false -> IsActive v = false ->
  mint_body oor64 vm len rate (vals, staked, rewards) (nodeID, v)
  = (<[nodeID := v]> vals, staked, rewards).
Proof.
  intros Hs Ha. unfold mint_body, lifecycle. now rewrite Hs, Ha.
Qed.

(** The same first sweep with validator 2 registered as well and still
    waiting for its stake start. *)
Lemma first_mint_two oor64 (maxSupply : Z) :
  0 <= maxSupply ->
  MintNewNAI oor64 (blockAt 10 200 noStakes) (twoRegistered maxSupply)
  = (Ok (uint64_of_float64 oor64 S754_nan),
     oneActiveOneWaiting maxSupply (uint64_of_float64 oor64 S754_nan)).
Proof.
  intros HM.
  assert (Hmax : 0 <= MaxSupply (twoRegistered maxSupply)).
  { change (MaxSupply (twoRegistered maxSupply))
      with (if maxSupply =? 0 then 0 else maxSupply).
    destruct (maxSupply =? 0); lia. }
  assert (Hr : GetRewardsPerEpoch oor64 (twoRegistered maxSupply) = 0).
  { unfold GetRewardsPerEpoch.
    change (uint64_of_float64 oor64 _) with 0.
    change (add64 (TotalSupply (twoRegistered maxSupply)) 0) with 0.
    rewrite Z.gtb_ltb. now rewrite (proj2 (Z.ltb_ge _ _) Hmax). }
  set (c := uint64_of_float64 oor64 S754_nan).
  assert (Hc : is_u64 c) by apply uint64_of_float64_range.
  assert (H0c : add64 0 c = c) by (rewrite add64_0_l; now apply u64_small).
  unfold MintNewNAI. rewrite Hr.
  change (EpochLength (epochTracker (twoRegistered maxSupply))) with 10.
  change (lastHeight (blockAt 10 200 noStakes) mod 10 =? 0) with true.
  change (10 =? 0) with false. cbv iota.
  change (validators (twoRegistered maxSupply))
    with ({[ 1%N := registered 1%N 100 100000; 2%N := registered 2%N 250 100000 ]}
          : gmap NodeID Validator).
  change (TotalStaked (twoRegistered maxSupply)) with 0.
  change (fdiv (float64_of_Z 0) (float64_of_Z 0)) with S754_nan.
  change (map_to_list ({[ 1%N := registered 1%N 100 100000; 2%N := registered 2%N 250 100000 ]}
                       : gmap NodeID Validator))
    with [(2%N, registered 2%N 250 100000); (1%N, registered 1%N 100 100000)].
  cbn [fold_left].
  rewrite mint_body_waiting by by_evaluation.
  rewrite mint_body_started by by_evaluation.
  rewrite fmul_nan_r. fold c. clearbody c.
  unfold distributeValidatorRewards.
  change (DelegatedAmount (registered 1%N 100 100000) >? 0) with false. cbv iota.
  cbn [fst snd]. rewrite sub64_0_r, add64_0_r, !(u64_small c Hc), !H0c.
  cbn [UnclaimedStakedReward UnclaimedDelegatedReward epochRewards registered].
  change (TotalSupply (twoRegistered maxSupply)) with 0. rewrite ?H0c.
  reflexivity.
Qed.

(** ** The epoch mint with nothing staked *)

(** C5 fails on the code: [MintNewNAI] has no guard on a [TotalStaked] of
    0. On a ledger where validator 1 has registered and nothing is staked
    yet, at the epoch boundary of block 10, past the validator's stake
    start, the epoch reward is 0, the rate per staked unit is [0 / 0], a
    NaN, and the loop runs: it activates validator 1, converts the NaN
    reward with [uint64], credits the result to the validator's unclaimed
    staked reward, records epoch 1 and adds the result to [TotalSupply].
    What [uint64(NaN)] is depends on the target: 0 on arm64, [2^63] on
    amd64. *)
Theorem MintNewNAI_divides_by_zero_stake oor64 :
  TotalStaked (oneRegistered 1500 100000) = 0
  /\ fdiv (float64_of_Z (GetRewardsPerEpoch oor64 (oneRegistered 1500 100000)))
       (float64_of_Z (TotalStaked (oneRegistered 1500 100000))) = S754_nan
  /\ MintNewNAI oor64 (blockAt 10 200 noStakes) (oneRegistered 1500 100000)
     = (Ok (uint64_of_float64 oor64 S754_nan),
        mkEmission (uint64_of_float64 oor64 S754_nan) 1500 (mkEmissionAccount 9%N 0)
          {[ 1%N := set_UnclaimedStakedReward (uint64_of_float64 oor64 S754_nan)
                      (set_epochRewards {[ 1 := 0 ]}
                         (set_IsActive true (registered 1%N 100 100000))) ]}
          stake1000 (mkEpochTracker f0_25 100 10))
  /\ uint64_of_float64 oor_arm64 S754_nan = 0
  /\ uint64_of_float64 oor_amd64 S754_nan = 2 ^ 63.
Proof.
  split; [reflexivity |]. split; [by_evaluation |].
  split; [| split; reflexivity].
  now rewrite first_mint.
Qed.

(** ** The epoch mint and the cap *)

(** [DistributeFees] never changes [TotalSupply], so it keeps the supply
    within the cap. *)
Lemma DistributeFees_keeps_cap oor64 (vm : NuklaiVM) (fee : Z) (e : Emission) :
  TotalSupply e <= MaxSupply e ->
  TotalSupply (DistributeFees oor64 vm fee e) <= MaxSupply (DistributeFees oor64 vm fee e).
Proof.
  intros Hle. destruct (DistributeFees_frame oor64 vm fee e) as (-> & -> & _). exact Hle.
Qed.

(** Off an epoch boundary [MintNewNAI] returns 0 and changes nothing. *)
Lemma MintNewNAI_off_boundary oor64 (vm : NuklaiVM) (e : Emission) :
  EpochLength (epochTracker e) <> 0 ->
  lastHeight vm mod EpochLength (epochTracker e) <> 0 ->
  MintNewNAI oor64 vm e = (Ok 0, e).
Proof.
  intros Hlen Hmod. unfold MintNewNAI.
  apply Z.eqb_neq in Hlen, Hmod. now rewrite Hlen, Hmod.
Qed.

(** Block 13 on [oneActiveOneWaiting]: not a multiple of the epoch length
    of 10. *)
Lemma MintNewNAI_off_boundary_witness :
  MintNewNAI oor_arm64 (blockAt 13 209 noStakes) (oneActiveOneWaiting 1500 0)
  = (Ok 0, oneActiveOneWaiting 1500 0).
Proof.
  apply MintNewNAI_off_boundary; vm_compute; discriminate.
Defined.

(** A fee of 100 on [oneActiveOneWaiting], where the supply is 0 of 1500. *)
Lemma DistributeFees_keeps_cap_witness :
  UnclaimedBalance (emissionAccount
    (DistributeFees oor_arm64 (blockAt 11 203 noStakes) 100 (oneActiveOneWaiting 1500 0))) = 50
  /\ TotalSupply (DistributeFees oor_arm64 (blockAt 11 203 noStakes) 100
                    (oneActiveOneWaiting 1500 0))
     <= MaxSupply (DistributeFees oor_arm64 (blockAt 11 203 noStakes) 100
                     (oneActiveOneWaiting 1500 0)).
Proof.
  split; [by_evaluation |].
  apply DistributeFees_keeps_cap. vm_compute. discriminate.
Defined.

(** C1 fails on the code, on every target. On a fresh ledger with a cap of
    1500 on which validators 1 and 2 have registered, the sweep of block 10
    divides by a [TotalStaked] of 0 and credits validator 1, and the supply,
    with [uint64(NaN)]: on amd64 that is [2^63], far above the cap. Where it
    is 0, as on arm64, the supply is still 0 before block 20; there the
    epoch reward is 1000 and the rate per staked unit is 1000 over the stake
    of validator 1 alone, the sweep then activates validator 2 and pays both
    validators 1000, so [MintNewNAI] mints 2000 and leaves the supply at
    2000, above the cap of 1500. *)
Theorem MintNewNAI_exceeds_MaxSupply oor64 :
  let c := uint64_of_float64 oor64 S754_nan in
  TotalSupply (twoRegistered 1500) = 0
  /\ MaxSupply (twoRegistered 1500) = 1500
  /\ MintNewNAI oor64 (blockAt 10 200 noStakes) (twoRegistered 1500)
     = (Ok c, oneActiveOneWaiting 1500 c)
  /\ TotalSupply (oneActiveOneWaiting 1500 c) = c
  /\ fst (MintNewNAI oor64 (blockAt 20 300 noStakes) (oneActiveOneWaiting 1500 0)) = Ok 2000
  /\ TotalSupply (snd (MintNewNAI oor64 (blockAt 20 300 noStakes)
                         (oneActiveOneWaiting 1500 0))) = 2000
  /\ MaxSupply (snd (MintNewNAI oor64 (blockAt 20 300 noStakes)
                       (oneActiveOneWaiting 1500 0))) = 1500
  /\ uint64_of_float64 oor_arm64 S754_nan = 0
  /\ uint64_of_float64 oor_amd64 S754_nan = 2 ^ 63.
Proof.
  intros c. split; [reflexivity |]. split; [reflexivity |].
  split; [now apply first_mint_two |]. split; [reflexivity |].
  repeat split; by_evaluation.
Qed.

(** ** Total stake *)

(** C2 fails on the code, on every target. The sweep of block 10 leaves
    [oneActive], [c] being what it credited: validator 1 is the one active
    validator and [TotalStaked] is its stake. A second sweep, by
    [MintNewNAI] at block 20, or by [DistributeFees] at block 11 (shown for
    what arm64 and amd64 credit), adds the stake of validator 1 again:
    [TotalStaked] is twice the stake of the active validators. And once
    alice has delegated to validator 1, a withdrawal of the validator leaves
    alice's delegation in [TotalStaked] although no validator is active any
    more. *)
Theorem TotalStaked_drifts_from_active_stake oor64 (c : Z) :
  snd (MintNewNAI oor64 (blockAt 10 200 noStakes) (oneRegistered 1000000 100000))
    = oneActive 1000000 100000 (uint64_of_float64 oor64 S754_nan)
  /\ TotalStaked (oneActive 1000000 100000 c)
     = active_stake (validators (oneActive 1000000 100000 c))
  /\ (let e := snd (MintNewNAI oor64 (blockAt 20 300 noStakes) (oneActive 1000000 100000 c)) in
      TotalStaked e = 2 * stake1000 /\ active_stake (validators e) = stake1000)
  /\ (let e := DistributeFees oor64 (blockAt 11 203 noStakes) 100 (oneActive 1000000 100000 0) in
      TotalStaked e = 2 * stake1000 /\ active_stake (validators e) = stake1000)
  /\ (let e :=
        DistributeFees oor64 (blockAt 11 203 noStakes) 100 (oneActive 1000000 100000 (2 ^ 63)) in
      TotalStaked e = 2 * stake1000 /\ active_stake (validators e) = stake1000)
  /\ (let e1 := snd (DelegateUserStake (blockAt 11 203 (delegations [alice])) 1%N alice
                       stake1000 (oneActive 1000000 100000 c)) in
      let e2 := snd (WithdrawValidatorStake 1%N e1) in
      TotalStaked e1 = active_stake (validators e1)
      /\ TotalStaked e2 = stake1000 /\ active_stake (validators e2) = 0).
Proof.
  split; [now rewrite first_mint |].
  repeat split; by_evaluation.
Qed.

(** C3 fails on the code: the loop body of [MintNewNAI] and that of
    [DistributeFees] add the whole stake of a validator to [TotalStaked]
    whenever the block time is past the stake start, also when the
    validator is active already and within its window. *)
Theorem sweep_adds_stake_of_active_validator oor64 (vm : NuklaiVM) (len : Z)
    (rate : float64) (vals : gmap NodeID Validator) (staked rewards : Z)
    (nodeID : NodeID) (v : Validator) :
  IsActive v = true ->
  After (lastTimestamp vm) (stakeStartTime v) = true ->
  After (lastTimestamp vm) (stakeEndTime v) = false ->
  snd (fst (mint_body oor64 vm len rate (vals, staked, rewards) (nodeID, v)))
    = add64 staked (add64 (StakedAmount v) (DelegatedAmount v))
  /\ snd (fees_body oor64 vm rate (vals, staked) (nodeID, v))
    = add64 staked (add64 (StakedAmount v) (DelegatedAmount v)).
Proof.
  intros _ Hs He. unfold mint_body, fees_body.
  rewrite (lifecycle_started _ _ _ Hs He).
  split.
  - destruct (distributeValidatorRewards _ _ _ _). reflexivity.
  - destruct (distributeValidatorRewards _ _ _ _). reflexivity.
Qed.

(** C3's failure on [oneActive]: validator 1 is active, block 11 falls in
    its window, and the fee sweep takes [TotalStaked] from its stake to
    twice its stake. *)
Lemma sweep_adds_stake_of_active_validator_witness :
  TotalStaked (oneActive 1000000 100000 0) = stake1000
  /\ snd (fees_body oor_arm64 (blockAt 11 203 noStakes) (float64_of_Z 0)
            (validators (oneActive 1000000 100000 0), stake1000)
            (1%N, set_epochRewards {[ 1 := 0 ]} (set_IsActive true (registered 1%N 100 100000))))
     = 2 * stake1000
  /\ TotalStaked (DistributeFees oor_arm64 (blockAt 11 203 noStakes) 100
                    (oneActive 1000000 100000 0)) = 2 * stake1000.
Proof.
  split; [reflexivity |]. split; [| by_evaluation].
  rewrite (proj2 (sweep_adds_stake_of_active_validator oor_arm64 (blockAt 11 203 noStakes) 10
                    (float64_of_Z 0) (validators (oneActive 1000000 100000 0)) stake1000 0 1%N
                    (set_epochRewards {[ 1 := 0 ]} (set_IsActive true (registered 1%N 100 100000)))
                    eq_refl eq_refl eq_refl)).
  vm_compute. reflexivity.
Defined.

(** ** Total stake and the operations on stake *)

Lemma active_stake_insert_new (m : gmap NodeID Validator) (n : NodeID) (v : Validator) :
  m !! n = None -> active_stake (<[n := v]> m) = active_stake m + counted v.
Proof.
  intros Hn. unfold active_stake. rewrite map_fold_insert_L; [| | exact Hn].
  - unfold counted. destruct (IsActive v); lia.
  - intros j1 j2 z1 z2 y _ _ _. destruct (IsActive z1), (IsActive z2); lia.
Qed.

Lemma active_stake_delete (m : gmap NodeID Validator) (n : NodeID) (v : Validator) :
  m !! n = Some v -> active_stake (delete n m) = active_stake m - counted v.
Proof.
  intros Hn. unfold active_stake. rewrite (map_fold_delete_L _ _ n v m); [| | exact Hn].
  - unfold counted. destruct (IsActive v); lia.
  - intros j1 j2 z1 z2 y _ _ _. destruct (IsActive z1), (IsActive z2); lia.
Qed.

Lemma active_stake_insert (m : gmap NodeID Validator) (n : NodeID) (v v' : Validator) :
  m !! n = Some v -> active_stake (<[n := v']> m) = active_stake m - counted v + counted v'.
Proof.
  intros Hn. rewrite <- insert_delete_eq.
  rewrite active_stake_insert_new by apply lookup_delete_eq.
  now rewrite (active_stake_delete m n v Hn).
Qed.

Lemma DelegateUserStake_keeps_match (vm : NuklaiVM) (n : NodeID) (a : Address) (amt : Z)
    (e : Emission) :
  staked_matches e -> staked_matches (snd (DelegateUserStake vm n a amt e)).
Proof.
  unfold staked_matches, DelegateUserStake. intros H.
  destruct (validators e !! n) as [v |] eqn:Hv; [| exact H].
  destruct (delegatorsLastClaim v !! a); [exact H |].
  cbn [snd TotalStaked validators set_TotalStaked set_validators].
  rewrite (active_stake_insert _ _ _ _ Hv). unfold counted. cbn.
  apply u64_eq_elim in H as [k Hk].
  destruct (u64_split (DelegatedAmount v + amt)) as [k1 Hk1].
  destruct (IsActive v).
  - unfold add64 at 1. destruct (u64_split (TotalStaked e + amt)) as [k2 Hk2].
    unfold add64. rewrite Hk1, Hk2. apply (u64_eq_intro _ _ (k + k2 - k1)). lia.
  - apply (u64_eq_intro _ _ k). lia.
Qed.

Lemma RegisterValidatorStake_keeps_match (n : NodeID) (pk : list Z)
    (start stop amount feeRate : Z) (e : Emission) :
  staked_matches e ->
  staked_matches (snd (RegisterValidatorStake n pk start stop amount feeRate e)).
Proof.
  unfold staked_matches, RegisterValidatorStake. intros H.
  destruct (validators e !! n) as [v |] eqn:Hv.
  - destruct (IsActive v) eqn:Ha; [exact H |].
    cbn [snd TotalStaked validators set_validators].
    rewrite (active_stake_insert _ _ _ _ Hv). unfold counted. cbn. rewrite Ha.
    rewrite H. f_equal. lia.
  - cbn [snd TotalStaked validators set_validators].
    rewrite (active_stake_insert_new _ _ _ Hv). unfold counted. cbn.
    rewrite H. f_equal. lia.
Qed.

Lemma ClaimStakingRewards_keeps_match oor64 (vm : NuklaiVM) (n : NodeID) (a : Address)
    (e : Emission) :
  staked_matches e -> staked_matches (snd (ClaimStakingRewards oor64 vm n a e)).
Proof.
  unfold staked_matches, ClaimStakingRewards. intros H.
  destruct (validators e !! n) as [v |] eqn:Hv; [| exact H].
  destruct (a =? EmptyAddress)%N.
  - destruct (size (delegatorsLastClaim (set_UnclaimedStakedReward 0 v)) =? 0)%nat;
      cbn [snd TotalStaked validators set_validators];
      rewrite (active_stake_insert _ _ _ _ Hv); unfold counted; cbn;
      rewrite H; f_equal; lia.
  - destruct (CalculateUserDelegationRewards oor64 vm n a (lastHeight vm) e);
      [| exact H | exact H].
    cbn [snd TotalStaked validators set_validators].
    rewrite (active_stake_insert _ _ _ _ Hv). unfold counted. cbn.
    rewrite H. f_equal. lia.
Qed.

Lemma UndelegateUserStake_keeps_match oor64 (vm : NuklaiVM) (n : NodeID) (a : Address)
    (amt : Z) (e : Emission) :
  staked_matches e -> staked_matches (snd (UndelegateUserStake oor64 vm n a amt e)).
Proof.
  unfold staked_matches, UndelegateUserStake. intros H.
  destruct (validators e !! n) as [v |] eqn:Hv; [| exact H].
  destruct (delegatorsLastClaim v !! a); [| exact H].
  destruct (CalculateUserDelegationRewards oor64 vm n a (lastHeight vm) e);
    [| exact H | exact H].
  cbn [IsActive set_delegatorsLastClaim set_DelegatedAmount set_UnclaimedDelegatedReward
       delegatorsLastClaim StakedAmount DelegatedAmount].
  apply u64_eq_elim in H as [k Hk].
  destruct (u64_split (DelegatedAmount v - amt)) as [k1 Hk1].
  destruct (IsActive v) eqn:Ha; cbn [negb andb].
  - cbn [snd TotalStaked validators set_TotalStaked set_validators].
    rewrite (active_stake_insert _ _ _ _ Hv). unfold counted. cbn. rewrite Ha.
    unfold sub64 at 1. destruct (u64_split (TotalStaked e - amt)) as [k2 Hk2].
    unfold sub64. rewrite Hk1, Hk2. apply (u64_eq_intro _ _ (k + k2 - k1)). lia.
  - destruct (size (delete a (<[a:=lastHeight vm]> (delegatorsLastClaim v))) =? 0)%nat;
      cbn [snd TotalStaked validators set_TotalStaked set_validators].
    + rewrite (active_stake_delete _ _ _ Hv). unfold counted. rewrite Ha.
      apply (u64_eq_intro _ _ k). lia.
    + rewrite (active_stake_insert _ _ _ _ Hv). unfold counted. cbn. rewrite Ha.
      apply (u64_eq_intro _ _ k). lia.
Qed.

(** The four operations that never deactivate a validator keep
    [TotalStaked] in step with the stake of the active validators. *)
Theorem stake_operations_keep_TotalStaked oor64 (vm : NuklaiVM) (n : NodeID) (a : Address)
    (pk : list Z) (start stop amount feeRate : Z) (e : Emission) :
  staked_matches e ->
  staked_matches (snd (RegisterValidatorStake n pk start stop amount feeRate e))
  /\ staked_matches (snd (DelegateUserStake vm n a amount e))
  /\ staked_matches (snd (UndelegateUserStake oor64 vm n a amount e))
  /\ staked_matches (snd (ClaimStakingRewards oor64 vm n a e)).
Proof.
  intros H. repeat apply conj.
  - now apply RegisterValidatorStake_keeps_match.
  - now apply DelegateUserStake_keeps_match.
  - now apply UndelegateUserStake_keeps_match.
  - now apply ClaimStakingRewards_keeps_match.
Qed.

(** On [oneActive], where [TotalStaked] is the stake of validator 1: after a
    delegation by alice the two still agree. *)
Lemma stake_operations_keep_TotalStaked_witness :
  staked_matches (snd (DelegateUserStake (blockAt 11 203 (delegations [alice])) 1%N alice
                         stake1000 (oneActive 1000000 100000 0))).
Proof.
  assert (H : staked_matches (oneActive 1000000 100000 0)) by (by_evaluation).
  exact (proj1 (proj2 (stake_operations_keep_TotalStaked oor_arm64
                         (blockAt 11 203 (delegations [alice])) 1%N alice [] 0 0 stake1000 0
                         (oneActive 1000000 100000 0) H))).
Defined.

(** What [WithdrawValidatorStake] leaves in [TotalStaked] beyond the stake of
    the active validators: the delegated amount of an active validator that
    still has delegators, and minus the delegated amount of an inactive one
    that has none. *)
Theorem WithdrawValidatorStake_drift (n : NodeID) (e : Emission) (v : Validator) :
  validators e !! n = Some v -> staked_matches e ->
  let e' := snd (WithdrawValidatorStake n e) in
  let left_behind :=
    if (size (delegatorsLastClaim v) =? 0)%nat
    then (if IsActive v then 0 else - DelegatedAmount v)
    else (if IsActive v then DelegatedAmount v else 0) in
  u64 (TotalStaked e') = u64 (active_stake (validators e') + left_behind).
Proof.
  intros Hv H e' left_behind. subst e' left_behind.
  unfold staked_matches in H. unfold WithdrawValidatorStake, withdraw_validator. rewrite Hv.
  cbn [IsActive set_UnclaimedStakedReward set_IsActive delegatorsLastClaim StakedAmount
       DelegatedAmount].
  apply u64_eq_elim in H as [k Hk].
  destruct (size (delegatorsLastClaim v) =? 0)%nat;
    cbn [snd TotalStaked validators set_TotalStaked set_validators].
  - rewrite (active_stake_delete _ _ _ Hv). unfold counted.
    destruct (IsActive v).
    + unfold sub64. rewrite u64_idem.
      destruct (u64_split (TotalStaked e - StakedAmount v)) as [k1 Hk1].
      rewrite Hk1. apply (u64_eq_intro _ _ (k + k1)). lia.
    + unfold sub64. rewrite u64_idem. apply (u64_eq_intro _ _ k). lia.
  - rewrite (active_stake_insert _ _ _ _ Hv). unfold counted. cbn.
    destruct (IsActive v).
    + unfold sub64. rewrite u64_idem. apply (u64_eq_intro _ _ k). lia.
    + apply (u64_eq_intro _ _ k). lia.
Qed.

(** On [ledger1] with alice delegating 40 to the active validator 1: after
    the withdrawal those 40 are still in [TotalStaked] and no validator is
    active. *)
Lemma WithdrawValidatorStake_drift_witness :
  active_stake (validators (snd (WithdrawValidatorStake 1%N (ledger1 100 40 {[ alice := 5 ]}))))
  = 0
  /\ u64 (TotalStaked (snd (WithdrawValidatorStake 1%N (ledger1 100 40 {[ alice := 5 ]}))))
     = u64 (0 + 40).
Proof.
  assert (Hv : validators (ledger1 100 40 {[ alice := 5 ]}) !! 1%N
               = Some (validator1 100 40 {[ alice := 5 ]})) by reflexivity.
  assert (H : staked_matches (ledger1 100 40 {[ alice := 5 ]})) by (by_evaluation).
  pose proof (WithdrawValidatorStake_drift 1%N _ _ Hv H) as Hd. cbv zeta in Hd.
  assert (Ha : active_stake
                 (validators (snd (WithdrawValidatorStake 1%N (ledger1 100 40 {[ alice := 5 ]}))))
               = 0) by (by_evaluation).
  split; [exact Ha |]. rewrite Hd, Ha. reflexivity.
Defined.

(** ** The shared pool of delegation rewards *)

(** C6 fails on the code: neither [UndelegateUserStake] nor
    [ClaimStakingRewards] compares the computed reward with the validator's
    [UnclaimedDelegatedReward]. [delegationRun] ends in [sharedPool], on
    arm64 and on amd64 alike: the validator holds 500 of unclaimed delegated
    reward, bob having taken his half of the 1000 of epoch 2, and alice is
    the one delegator left. Her share of epoch 2 is computed against the
    delegated amount that remains, her own, so it is the whole 1000. Her
    claim succeeds with 1000 and leaves [UnclaimedDelegatedReward] at
    [500 - 1000] modulo [2^64]; undelegating instead returns the same
    1000. *)
Theorem delegator_reward_exceeds_pool oor64 (c : Z) :
  delegationRun oor_arm64 = sharedPool 0
  /\ delegationRun oor_amd64 = sharedPool (2 ^ 63)
  /\ (exists v,
        validators (sharedPool c) !! 1%N = Some v
        /\ UnclaimedDelegatedReward v = 500
        /\ DelegatedAmount v = stake1000
        /\ delegatorsLastClaim v = {[ alice := 11 ]}
        /\ epochRewards v !! 2 = Some 1000)
  /\ CalculateUserDelegationRewards oor64 (blockAt 31 503 (delegations [alice])) 1%N alice 31
       (sharedPool c) = Ok 1000
  /\ fst (ClaimStakingRewards oor64 (blockAt 31 503 (delegations [alice])) 1%N alice
            (sharedPool c)) = Ok 1000
  /\ (exists v',
        validators (snd (ClaimStakingRewards oor64 (blockAt 31 503 (delegations [alice]))
                           1%N alice (sharedPool c))) !! 1%N = Some v'
        /\ UnclaimedDelegatedReward v' = two64 - 500)
  /\ fst (UndelegateUserStake oor64 (blockAt 31 503 (delegations [alice])) 1%N alice stake1000
            (sharedPool c)) = Ok 1000.
Proof.
  split; [by_evaluation |]. split; [by_evaluation |].
  split.
  - eexists. split; [reflexivity |]. repeat split; by_evaluation.
  - split; [by_evaluation |]. split; [by_evaluation |].
    split; [| by_evaluation].
    eexists. split; [by_evaluation |]. vm_compute. reflexivity.
Qed.

(** ** Arithmetic of [int] and [int64] *)

Lemma wrap_i64_small (x : Z) : - 2 ^ 63 <= x < 2 ^ 63 -> wrap_i64 x = x.
Proof.
  intros Hx. unfold wrap_i64, int64_of_u64. rewrite u64_idem.
  destruct (u64_split x) as [k Hk]. pose proof (u64_range x) as Hr.
  unfold two64 in *.
  destruct (u64 x <? 2 ^ 63) eqn:Hlt; [apply Z.ltb_lt in Hlt | apply Z.ltb_ge in Hlt]; lia.
Qed.

Lemma wrap_i64_high (x : Z) : 2 ^ 63 <= x < two64 -> wrap_i64 x = x - two64.
Proof.
  intros Hx. unfold wrap_i64, int64_of_u64. rewrite u64_idem.
  rewrite u64_small by (unfold is_u64; lia).
  destruct (x <? 2 ^ 63) eqn:Hlt; [apply Z.ltb_lt in Hlt; lia | reflexivity].
Qed.

Lemma wrap_i64_congr (x y : Z) : u64 x = u64 y -> wrap_i64 x = wrap_i64 y.
Proof. unfold wrap_i64. now intros ->. Qed.

Lemma u64_wrap_i64 (x : Z) : u64 (wrap_i64 x) = u64 x.
Proof.
  unfold wrap_i64, int64_of_u64. rewrite u64_idem.
  destruct (u64 x <? 2 ^ 63); [apply u64_idem |].
  rewrite <- (u64_idem x) at 2. apply (u64_eq_intro _ _ (-1)). lia.
Qed.

Lemma wrap_i64_add_l (x y : Z) : wrap_i64 (wrap_i64 x + y) = wrap_i64 (x + y).
Proof.
  apply wrap_i64_congr.
  destruct (u64_eq_elim _ _ (u64_wrap_i64 x)) as [k Hk].
  apply (u64_eq_intro _ _ k). lia.
Qed.

Lemma wrap_i64_sub_l (x y : Z) : wrap_i64 (wrap_i64 x - y) = wrap_i64 (x - y).
Proof. unfold Z.sub. apply wrap_i64_add_l. Qed.

Lemma int64_of_u64_low (x : Z) : 0 <= x < 2 ^ 63 -> int64_of_u64 x = x.
Proof.
  intros Hx. unfold int64_of_u64. rewrite u64_small by (unfold is_u64, two64; lia).
  now rewrite (proj2 (Z.ltb_lt _ _) (proj2 Hx)).
Qed.

Lemma int64_of_u64_high (x : Z) : 2 ^ 63 <= x < two64 -> int64_of_u64 x = x - two64.
Proof.
  intros Hx. unfold int64_of_u64. rewrite u64_small by (unfold is_u64, two64 in *; lia).
  now rewrite (proj2 (Z.ltb_ge _ _) (proj1 Hx)).
Qed.

Lemma add64_assoc (a b c : Z) : add64 a (add64 b c) = add64 (add64 a b) c.
Proof.
  unfold add64, u64. rewrite Zplus_mod_idemp_r, Zplus_mod_idemp_l. f_equal. lia.
Qed.

Lemma sub64_sub64 (a b c : Z) : sub64 (sub64 a b) c = sub64 a (add64 b c).
Proof.
  unfold sub64, add64, u64. rewrite Zminus_mod_idemp_l, Zminus_mod_idemp_r. f_equal. lia.
Qed.

(** ** Sums over the validators *)

Lemma total_insert_new (f : Validator -> Z) (m : gmap NodeID Validator) (n : NodeID)
    (v : Validator) :
  m !! n = None -> total f (<[n := v]> m) = total f m + f v.
Proof.
  intros Hn. unfold total. rewrite map_fold_insert_L; [reflexivity | | exact Hn].
  intros. lia.
Qed.

Lemma total_delete (f : Validator -> Z) (m : gmap NodeID Validator) (n : NodeID)
    (v : Validator) :
  m !! n = Some v -> total f (delete n m) = total f m - f v.
Proof.
  intros Hn. unfold total. rewrite (map_fold_delete_L _ _ n v m); [lia | | exact Hn].
  intros. lia.
Qed.

Lemma total_insert (f : Validator -> Z) (m : gmap NodeID Validator) (n : NodeID)
    (v v' : Validator) :
  m !! n = Some v -> total f (<[n := v']> m) = total f m - f v + f v'.
Proof.
  intros Hn. rewrite <- insert_delete_eq.
  rewrite total_insert_new by apply lookup_delete_eq.
  now rewrite (total_delete f m n v Hn).
Qed.

Lemma total_sum_over (f : Validator -> Z) (m : gmap NodeID Validator) :
  total f m = sum_over f ((map_to_list m).*2).
Proof.
  unfold total. rewrite map_fold_foldr. unfold sum_over.
  induction (map_to_list m) as [| [k v] l IH]; [reflexivity |]. cbn. now rewrite IH.
Qed.

Lemma sum_over_perm (f : Validator -> Z) (l l' : list Validator) :
  l ≡ₚ l' -> sum_over f l = sum_over f l'.
Proof.
  unfold sum_over. induction 1; cbn; lia.
Qed.

Lemma sum_over_nonneg (f : Validator -> Z) (l : list Validator) :
  (forall v, 0 <= f v) -> 0 <= sum_over f l.
Proof.
  intros Hf. unfold sum_over. induction l as [| v l IH]; cbn; [lia |]. specialize (Hf v). lia.
Qed.

(** ** The queries *)

Lemma GetStakedValidator_all (e : Emission) :
  GetStakedValidator EmptyNodeID e = (map_to_list (validators e)).*2.
Proof.
  unfold GetStakedValidator. cbn [N.eqb EmptyNodeID].
  assert (H : forall (l : list (NodeID * Validator)) acc,
             fold_left (fun validators entry => validators ++ [snd entry]) l acc
             = acc ++ l.*2).
  { induction l as [| x l IH]; intros acc; cbn.
    - now rewrite app_nil_r.
    - rewrite IH. now rewrite <- app_assoc. }
  now rewrite H.
Qed.

Lemma fold_numDelegators (l : list (NodeID * Validator)) (z : Z) :
  fold_left numDelegators_body l (wrap_i64 z) = wrap_i64 (z + sum_over delegators (l.*2)).
Proof.
  revert z. unfold sum_over. induction l as [| [k v] l IH]; intros z; cbn.
  - now rewrite Z.add_0_r.
  - unfold numDelegators_body at 2. cbn [snd]. rewrite wrap_i64_add_l, IH.
    f_equal. unfold delegators. lia.
Qed.

(** [GetNumDelegators] counts the delegators of the validators that
    [GetStakedValidator] returns for the same [nodeID], one validator or
    all of them, in whatever order the map is ranged over, as long as the
    count fits an [int]. *)
Theorem GetNumDelegators_counts (nodeID : NodeID) (e : Emission) :
  (forall order, order ≡ₚ map_to_list (validators e) ->
     fold_left numDelegators_body order 0 = GetNumDelegators EmptyNodeID e)
  /\ (sum_over delegators (GetStakedValidator nodeID e) < 2 ^ 63 ->
      GetNumDelegators nodeID e = sum_over delegators (GetStakedValidator nodeID e))
  /\ (nodeID <> EmptyNodeID -> validators e !! nodeID = None -> GetNumDelegators nodeID e = 0).
Proof.
  assert (H0 : 0 = wrap_i64 0) by reflexivity.
  split; [| split].
  - intros order Hperm. unfold GetNumDelegators. cbn [N.eqb EmptyNodeID].
    rewrite H0, !fold_numDelegators. f_equal. f_equal.
    apply sum_over_perm. now rewrite Hperm.
  - destruct (decide (nodeID = EmptyNodeID)) as [-> | Hne].
    + rewrite GetStakedValidator_all. unfold GetNumDelegators. cbn [N.eqb EmptyNodeID].
      intros Hlt. rewrite H0, fold_numDelegators. apply wrap_i64_small.
      assert (Hnn : 0 <= sum_over delegators ((map_to_list (validators e)).*2))
        by (apply sum_over_nonneg; intros v; unfold delegators; lia).
      lia.
    + unfold GetNumDelegators, GetStakedValidator. apply N.eqb_neq in Hne. rewrite Hne.
      destruct (validators e !! nodeID) as [v |]; cbn; unfold delegators; lia.
  - intros Hne Hnone. unfold GetNumDelegators.
    apply N.eqb_neq in Hne. now rewrite Hne, Hnone.
Qed.

(** On [twoEpochs], where validator 1 has two delegators: the count for
    node 1 and the count over all validators are both 2. *)
Lemma GetNumDelegators_counts_witness :
  GetNumDelegators 1%N twoEpochs = 2 /\ GetNumDelegators EmptyNodeID twoEpochs = 2
  /\ GetNumDelegators 5%N twoEpochs = 0.
Proof.
  destruct (GetNumDelegators_counts 1%N twoEpochs) as (_ & H1 & _).
  destruct (GetNumDelegators_counts EmptyNodeID twoEpochs) as (_ & H0 & _).
  destruct (GetNumDelegators_counts 5%N twoEpochs) as (_ & _ & H5).
  split; [rewrite H1; by_evaluation |].
  split; [rewrite H0; by_evaluation |].
  apply H5; [discriminate | reflexivity].
Defined.

(** [GetStakedValidator] returns registered validators only: for
    [EmptyNodeID] every one of them, once; for another [nodeID] the
    validator filed under it, or nothing. *)
Theorem GetStakedValidator_registry (nodeID : NodeID) (e : Emission) :
  (forall v, v ∈ GetStakedValidator nodeID e ->
     exists k, validators e !! k = Some v /\ (nodeID = EmptyNodeID \/ k = nodeID))
  /\ (forall k v, validators e !! k = Some v ->
        v ∈ GetStakedValidator EmptyNodeID e
        /\ (k <> EmptyNodeID -> GetStakedValidator k e = [v]))
  /\ length (GetStakedValidator EmptyNodeID e) = size (validators e)
  /\ (nodeID <> EmptyNodeID -> validators e !! nodeID = None ->
      GetStakedValidator nodeID e = []).
Proof.
  split; [| split; [| split]].
  - intros v Hin. destruct (decide (nodeID = EmptyNodeID)) as [-> | Hne].
    + rewrite GetStakedValidator_all in Hin.
      apply list_elem_of_fmap in Hin as ([k v'] & -> & Hin).
      apply elem_of_map_to_list in Hin. exists k. split; [exact Hin | now left].
    + unfold GetStakedValidator in Hin. apply N.eqb_neq in Hne. rewrite Hne in Hin.
      destruct (validators e !! nodeID) as [w |] eqn:Hw.
      * apply list_elem_of_singleton in Hin as ->. exists nodeID. split; [exact Hw | now right].
      * inversion Hin.
  - intros k v Hkv. split.
    + rewrite GetStakedValidator_all. apply list_elem_of_fmap. exists (k, v).
      split; [reflexivity |]. now apply elem_of_map_to_list.
    + intros Hne. unfold GetStakedValidator. apply N.eqb_neq in Hne. now rewrite Hne, Hkv.
  - rewrite GetStakedValidator_all, length_fmap. apply length_map_to_list.
  - intros Hne Hnone. unfold GetStakedValidator. apply N.eqb_neq in Hne. now rewrite Hne, Hnone.
Qed.

Lemma allValidators_body_app (e : Emission) (acc : list Validator) (entry : NodeID * list Z) :
  allValidators_body e acc entry
  = acc ++ [reported (fst entry) (snd entry) (head (GetStakedValidator (fst entry) e))].
Proof.
  destruct entry as [n pk]. unfold allValidators_body. cbn [fst snd].
  now destruct (GetStakedValidator n e).
Qed.

Lemma GetAllValidators_map (currentValidators : gmap NodeID (list Z)) (e : Emission) :
  GetAllValidators currentValidators e
  = (fun entry => reported (fst entry) (snd entry) (head (GetStakedValidator (fst entry) e)))
      <$> map_to_list currentValidators.
Proof.
  unfold GetAllValidators.
  assert (H : forall l acc,
             fold_left (allValidators_body e) l acc
             = acc ++ ((fun entry =>
                          reported (fst entry) (snd entry)
                            (head (GetStakedValidator (fst entry) e))) <$> l)).
  { induction l as [| x l IH]; intros acc; cbn [fold_left].
    - now rewrite app_nil_r.
    - rewrite IH, allValidators_body_app. now rewrite <- app_assoc. }
  now rewrite H.
Qed.

(** [GetAllValidators] returns one entry per current validator of the VM,
    under its node ID and public key. No entry is ever marked active, and
    none carries a stake window or epoch rewards: those fields are not
    copied from the ledger. For a current validator other than
    [EmptyNodeID] the amounts, the fee rate and the delegators are those of
    its ledger entry, and zero when it has none. *)
Theorem GetAllValidators_reports (currentValidators : gmap NodeID (list Z)) (e : Emission) :
  length (GetAllValidators currentValidators e) = size currentValidators
  /\ (forall v, v ∈ GetAllValidators currentValidators e ->
        IsActive v = false /\ epochRewards v = ∅
        /\ stakeStartTime v = zeroTime /\ stakeEndTime v = zeroTime
        /\ currentValidators !! vNodeID v = Some (PublicKey v))
  /\ (forall nodeID publicKey,
        currentValidators !! nodeID = Some publicKey -> nodeID <> EmptyNodeID ->
        reported nodeID publicKey (validators e !! nodeID)
          ∈ GetAllValidators currentValidators e).
Proof.
  rewrite GetAllValidators_map. split; [| split].
  - rewrite length_fmap. apply length_map_to_list.
  - intros v Hin. apply list_elem_of_fmap in Hin as ([n pk] & -> & Hin).
    apply elem_of_map_to_list in Hin. cbn [fst snd].
    destruct (head (GetStakedValidator n e)); cbn; auto.
  - intros n pk Hcv Hne. apply list_elem_of_fmap. exists (n, pk).
    split; [| now apply elem_of_map_to_list]. cbn [fst snd]. f_equal.
    unfold GetStakedValidator. apply N.eqb_neq in Hne. rewrite Hne.
    now destruct (validators e !! n).
Qed.

(** On [ledger1], where validator 1 is active with 7 and 3 of unclaimed
    rewards, and with nodes 1 and 3 current in the VM: node 1 is reported
    with its amounts and not active, node 3 with zeros. *)
Lemma GetAllValidators_reports_witness :
  length (GetAllValidators currentOneAndThree (ledger1 100 40 {[ alice := 5 ]})) = 2%nat
  /\ mkValidator false 1%N [7] 100 7 (fdiv (float64_of_Z 10) f100) 40 3 {[ alice := 5 ]} ∅
       zeroTime zeroTime
     ∈ GetAllValidators currentOneAndThree (ledger1 100 40 {[ alice := 5 ]})
  /\ mkValidator false 3%N [8] 0 0 (S754_zero false) 0 0 ∅ ∅ zeroTime zeroTime
     ∈ GetAllValidators currentOneAndThree (ledger1 100 40 {[ alice := 5 ]}).
Proof.
  destruct (GetAllValidators_reports currentOneAndThree (ledger1 100 40 {[ alice := 5 ]}))
    as (Hlen & _ & Hin).
  split; [rewrite Hlen; reflexivity |]. split.
  - apply (Hin 1%N [7]); [reflexivity | discriminate].
  - apply (Hin 3%N [8]); [reflexivity | discriminate].
Defined.

Lemma GetNumDelegators_total (e : Emission) :
  GetNumDelegators EmptyNodeID e = wrap_i64 (total delegators (validators e)).
Proof.
  unfold GetNumDelegators. cbn [N.eqb EmptyNodeID].
  change 0 with (wrap_i64 0) at 1. rewrite fold_numDelegators.
  now rewrite total_sum_over.
Qed.

Lemma GetNumDelegators_node (nodeID : NodeID) (e : Emission) :
  nodeID <> EmptyNodeID ->
  GetNumDelegators nodeID e
  = match validators e !! nodeID with Some v => delegators v | None => 0 end.
Proof.
  intros Hne. unfold GetNumDelegators. apply N.eqb_neq in Hne. now rewrite Hne.
Qed.

(** A delegation that succeeds adds one delegator to the count of its
    validator and to the count over all validators; an undelegation that
    succeeds takes one off both, also when it removes the validator. *)
Theorem delegations_counted oor64 (vm : NuklaiVM) (nodeID : NodeID) (actor : Address)
    (amount : Z) (e : Emission) :
  nodeID <> EmptyNodeID ->
  (fst (DelegateUserStake vm nodeID actor amount e) = Ok tt ->
   GetNumDelegators nodeID (snd (DelegateUserStake vm nodeID actor amount e))
   = GetNumDelegators nodeID e + 1
   /\ GetNumDelegators EmptyNodeID (snd (DelegateUserStake vm nodeID actor amount e))
      = wrap_i64 (GetNumDelegators EmptyNodeID e + 1))
  /\ (forall reward,
        fst (UndelegateUserStake oor64 vm nodeID actor amount e) = Ok reward ->
        GetNumDelegators nodeID (snd (UndelegateUserStake oor64 vm nodeID actor amount e))
        = GetNumDelegators nodeID e - 1
        /\ GetNumDelegators EmptyNodeID
             (snd (UndelegateUserStake oor64 vm nodeID actor amount e))
           = wrap_i64 (GetNumDelegators EmptyNodeID e - 1)).
Proof.
  intros Hne. split.
  - unfold DelegateUserStake.
    destruct (validators e !! nodeID) as [v |] eqn:Hv; [| discriminate].
    destruct (delegatorsLastClaim v !! actor) eqn:Ha; [discriminate |]. intros _.
    cbn [snd]. rewrite !GetNumDelegators_total, !GetNumDelegators_node by exact Hne.
    cbn [validators set_TotalStaked set_validators]. rewrite lookup_insert_eq, Hv.
    rewrite (total_insert _ _ _ _ _ Hv), wrap_i64_add_l.
    unfold delegators. cbn [delegatorsLastClaim set_delegatorsLastClaim set_DelegatedAmount].
    rewrite map_size_insert_None by exact Ha.
    split; [lia | f_equal; lia].
  - intros reward. unfold UndelegateUserStake.
    destruct (validators e !! nodeID) as [v |] eqn:Hv; [| discriminate].
    destruct (delegatorsLastClaim v !! actor) as [h |] eqn:Ha; [| discriminate].
    destruct (CalculateUserDelegationRewards oor64 vm nodeID actor (lastHeight vm) e);
      [| discriminate | discriminate].
    intros _.
    cbn [IsActive set_delegatorsLastClaim set_DelegatedAmount set_UnclaimedDelegatedReward
         delegatorsLastClaim].
    rewrite !GetNumDelegators_total, !GetNumDelegators_node by exact Hne. rewrite Hv.
    assert (Hsize : size (delete actor (<[actor := lastHeight vm]> (delegatorsLastClaim v)))
                    = pred (size (delegatorsLastClaim v))).
    { rewrite delete_insert_eq. apply map_size_delete_Some. now rewrite Ha. }
    assert (Hpos : (size (delegatorsLastClaim v) <> 0)%nat).
    { apply (map_size_ne_0_lookup_2 _ actor). now rewrite Ha. }
    rewrite Hsize.
    destruct (negb (IsActive v) && (pred (size (delegatorsLastClaim v)) =? 0)%nat) eqn:Hdel;
      cbn [snd validators set_TotalStaked set_validators].
    + apply andb_prop in Hdel as [_ Hz]. apply Nat.eqb_eq in Hz.
      rewrite lookup_delete_eq, (total_delete _ _ _ _ Hv), wrap_i64_sub_l.
      unfold delegators. split; [lia | f_equal; lia].
    + rewrite lookup_insert_eq, (total_insert _ _ _ _ _ Hv), wrap_i64_sub_l.
      unfold delegators. cbn [delegatorsLastClaim set_delegatorsLastClaim]. rewrite Hsize.
      split; [lia | f_equal; lia].
Qed.

(** On [ledger1] with alice delegating: bob's delegation takes the count of
    node 1 from 1 to 2, and alice's undelegation takes it to 0. *)
Lemma delegations_counted_witness :
  let e := ledger1 100 40 {[ alice := 5 ]} in
  let vm := blockAt 12 200 (delegations [alice; bob]) in
  GetNumDelegators 1%N e = 1
  /\ GetNumDelegators 1%N (snd (DelegateUserStake vm 1%N bob 5 e)) = 2
  /\ GetNumDelegators 1%N (snd (UndelegateUserStake oor_arm64 vm 1%N alice 40 e)) = 0.
Proof.
  intros e vm.
  assert (Hne : 1%N <> EmptyNodeID) by discriminate.
  assert (H1 : GetNumDelegators 1%N e = 1) by reflexivity.
  split; [exact H1 |]. split.
  - destruct (proj1 (delegations_counted oor_arm64 vm 1%N bob 5 e Hne) eq_refl) as [H _].
    rewrite H, H1. reflexivity.
  - assert (Hok : fst (UndelegateUserStake oor_arm64 vm 1%N alice 40 e) = Ok 0)
      by (by_evaluation).
    destruct (proj2 (delegations_counted oor_arm64 vm 1%N alice 40 e Hne) 0 Hok) as [H _].
    rewrite H, H1. reflexivity.
Defined.

(** ** Round trips *)

(** Registering a validator that has no entry and withdrawing it at once
    pays nothing and gives back the ledger as it was: the staked amount of
    a validator that never became active reaches no counter. *)
Theorem register_then_withdraw (nodeID : NodeID) (pk : list Z)
    (start stop amount feeRate : Z) (e : Emission) :
  validators e !! nodeID = None -> is_u64 (TotalStaked e) ->
  WithdrawValidatorStake nodeID
    (snd (RegisterValidatorStake nodeID pk start stop amount feeRate e))
  = (Ok 0, e).
Proof.
  intros Hnone Hts. unfold RegisterValidatorStake. rewrite Hnone. cbn [snd].
  unfold WithdrawValidatorStake. cbn [validators set_validators].
  rewrite lookup_insert_eq. unfold withdraw_validator. cbn.
  rewrite sub64_0_r, (u64_small _ Hts), delete_insert_id by exact Hnone.
  now destruct e.
Qed.

(** On [ledger1]: node 2 registers a stake of 1000 and withdraws. *)
Lemma register_then_withdraw_witness :
  WithdrawValidatorStake 2%N
    (snd (RegisterValidatorStake 2%N [] 300 400 1000 10 (ledger1 100 0 ∅)))
  = (Ok 0, ledger1 100 0 ∅).
Proof.
  apply register_then_withdraw; [reflexivity |].
  unfold is_u64, two64. cbn. lia.
Defined.

(** The reward of a delegator who last claimed in the current epoch. *)
Lemma CalculateUserDelegationRewards_same_epoch oor64 (vm : NuklaiVM) (nodeID : NodeID)
    (actor : Address) (e : Emission) (v : Validator) (s : Z) :
  validators e !! nodeID = Some v ->
  delegatorsLastClaim v !! actor = Some (lastHeight vm) ->
  stateFails vm = false -> GetDelegateUserStake vm actor nodeID = Some s ->
  EpochLength (epochTracker e) <> 0 ->
  CalculateUserDelegationRewards oor64 vm nodeID actor (lastHeight vm) e = Ok 0.
Proof.
  intros Hv Ha Hs Hg Hlen. unfold CalculateUserDelegationRewards.
  rewrite Hv, Ha, Hs, Hg. apply Z.eqb_neq in Hlen. rewrite Hlen.
  now rewrite Z.sub_diag.
Qed.

(** Delegating and undelegating the same amount in the same block pays
    nothing and gives back the ledger as it was, except that a validator
    that is not active and has no other delegator is removed from the
    ledger by the undelegation. *)
Theorem delegate_then_undelegate oor64 (vm : NuklaiVM) (nodeID : NodeID) (actor : Address)
    (amount stake : Z) (e : Emission) (v : Validator) :
  validators e !! nodeID = Some v -> delegatorsLastClaim v !! actor = None ->
  is_u64 (TotalStaked e) -> is_u64 (DelegatedAmount v) ->
  is_u64 (UnclaimedDelegatedReward v) ->
  stateFails vm = false -> GetDelegateUserStake vm actor nodeID = Some stake ->
  EpochLength (epochTracker e) <> 0 ->
  UndelegateUserStake oor64 vm nodeID actor amount
    (snd (DelegateUserStake vm nodeID actor amount e))
  = (Ok 0,
     if negb (IsActive v) && (size (delegatorsLastClaim v) =? 0)%nat
     then set_validators (delete nodeID (validators e)) e
     else e).
Proof.
  intros Hv Ha Hts Hda Hur Hs Hg Hlen.
  set (e1 := snd (DelegateUserStake vm nodeID actor amount e)).
  set (v1 := set_delegatorsLastClaim (<[actor := lastHeight vm]> (delegatorsLastClaim v))
               (set_DelegatedAmount (add64 (DelegatedAmount v) amount) v)).
  assert (He1 : e1 = set_TotalStaked
                       (if IsActive v then add64 (TotalStaked e) amount else TotalStaked e)
                       (set_validators (<[nodeID := v1]> (validators e)) e)).
  { subst e1. unfold DelegateUserStake. now rewrite Hv, Ha. }
  assert (Hv1 : validators e1 !! nodeID = Some v1).
  { rewrite He1. cbn. apply lookup_insert_eq. }
  assert (Ha1 : delegatorsLastClaim v1 !! actor = Some (lastHeight vm)).
  { subst v1. cbn. apply lookup_insert_eq. }
  assert (Hlen1 : EpochLength (epochTracker e1) <> 0) by (now rewrite He1).
  unfold UndelegateUserStake. rewrite Hv1, Ha1.
  rewrite (CalculateUserDelegationRewards_same_epoch oor64 vm nodeID actor e1 v1 stake
             Hv1 Ha1 Hs Hg Hlen1).
  f_equal. subst v1.
  cbn [IsActive set_delegatorsLastClaim set_DelegatedAmount set_UnclaimedDelegatedReward
       delegatorsLastClaim DelegatedAmount UnclaimedDelegatedReward].
  rewrite insert_insert_eq, delete_insert_id by exact Ha.
  rewrite sub64_0_r, (u64_small _ Hur).
  assert (Hd : sub64 (add64 (DelegatedAmount v) amount) amount = DelegatedAmount v).
  { unfold sub64, add64, u64. rewrite Zminus_mod_idemp_l.
    replace (DelegatedAmount v + amount - amount) with (DelegatedAmount v) by lia.
    now apply Z.mod_small. }
  assert (Ht : (if IsActive v
                then sub64 (TotalStaked e1) amount else TotalStaked e1) = TotalStaked e).
  { rewrite He1. cbn [TotalStaked set_TotalStaked]. destruct (IsActive v); [| reflexivity].
    unfold sub64, add64, u64. rewrite Zminus_mod_idemp_l.
    replace (TotalStaked e + amount - amount) with (TotalStaked e) by lia.
    now apply Z.mod_small. }
  rewrite Hd, Ht.
  assert (Hback : forall m d,
             set_delegatorsLastClaim (delegatorsLastClaim v)
               (set_DelegatedAmount (DelegatedAmount v)
                  (set_UnclaimedDelegatedReward (UnclaimedDelegatedReward v)
                     (set_delegatorsLastClaim m
                        (set_delegatorsLastClaim m (set_DelegatedAmount d v))))) = v)
    by (now destruct v).
  rewrite Hback.
  destruct (negb (IsActive v) && (size (delegatorsLastClaim v) =? 0)%nat).
  - rewrite He1. cbn. rewrite delete_insert_eq. now destruct e.
  - rewrite He1. cbn. rewrite insert_insert_eq, insert_id by exact Hv. now destruct e.
Qed.

(** Alice delegates 5 and undelegates them in block 12. With the active
    validator 1 of [ledger1] the ledger is as before; with validator 1 of
    [oneRegistered], which is not active yet and has no delegator, the
    validator is gone. *)
Lemma delegate_then_undelegate_witness :
  let vm := blockAt 12 200 (delegations [alice]) in
  UndelegateUserStake oor_arm64 vm 1%N alice 5
    (snd (DelegateUserStake vm 1%N alice 5 (ledger1 100 0 ∅)))
  = (Ok 0, ledger1 100 0 ∅)
  /\ validators (snd (UndelegateUserStake oor_arm64 vm 1%N alice 5
                        (snd (DelegateUserStake vm 1%N alice 5 (oneRegistered 1500 100000)))))
     = ∅.
Proof.
  intros vm. split.
  - rewrite (delegate_then_undelegate oor_arm64 vm 1%N alice 5 stake1000 (ledger1 100 0 ∅)
               (validator1 100 0 ∅)); try reflexivity;
      unfold is_u64, two64; cbn; lia.
  - rewrite (delegate_then_undelegate oor_arm64 vm 1%N alice 5 stake1000
               (oneRegistered 1500 100000) (registered 1%N 100 100000));
      [by_evaluation
      | first [reflexivity | vm_compute; discriminate
              | unfold is_u64; vm_compute; split; [discriminate | reflexivity]] ..].
Defined.

(** ** Claims and withdrawals, repeated *)

Lemma CalculateUserDelegationRewards_Ok oor64 (vm : NuklaiVM) (nodeID : NodeID)
    (actor : Address) (height : Z) (e : Emission) (r : Z) :
  CalculateUserDelegationRewards oor64 vm nodeID actor height e = Ok r ->
  exists v h s,
    validators e !! nodeID = Some v /\ delegatorsLastClaim v !! actor = Some h
    /\ stateFails vm = false /\ GetDelegateUserStake vm actor nodeID = Some s
    /\ EpochLength (epochTracker e) <> 0
    /\ r = fold_left (epoch_reward oor64 v s)
             (seqZ (h / EpochLength (epochTracker e))
                (height / EpochLength (epochTracker e) - h / EpochLength (epochTracker e))) 0.
Proof.
  unfold CalculateUserDelegationRewards.
  destruct (validators e !! nodeID) as [v |] eqn:Hv; [| discriminate].
  destruct (delegatorsLastClaim v !! actor) as [h |] eqn:Ha; [| discriminate].
  destruct (stateFails vm) eqn:Hs; [discriminate |].
  destruct (GetDelegateUserStake vm actor nodeID) as [s |] eqn:Hg; [| discriminate].
  destruct (EpochLength (epochTracker e) =? 0) eqn:Hlen; [discriminate |].
  intros [= <-]. apply Z.eqb_neq in Hlen. exists v, h, s. repeat split; auto.
Qed.

Lemma epoch_reward_range oor64 (v : Validator) (s acc epoch : Z) :
  is_u64 acc -> is_u64 (epoch_reward oor64 v s acc epoch).
Proof.
  intros Hacc. unfold epoch_reward. destruct (epochRewards v !! epoch); [apply add64_range | exact Hacc].
Qed.

Lemma fold_epoch_reward_range oor64 (v : Validator) (s : Z) (l : list Z) (acc : Z) :
  is_u64 acc -> is_u64 (fold_left (epoch_reward oor64 v s) l acc).
Proof.
  revert acc. induction l as [| x l IH]; intros acc Hacc; cbn; [exact Hacc |].
  apply IH. now apply epoch_reward_range.
Qed.

(** The loop over the epochs started from [acc] adds to [acc] what it
    gives started from 0. *)
Lemma fold_epoch_reward_acc oor64 (v : Validator) (s : Z) (l : list Z) (acc : Z) :
  is_u64 acc ->
  fold_left (epoch_reward oor64 v s) l acc
  = add64 acc (fold_left (epoch_reward oor64 v s) l 0).
Proof.
  revert acc. induction l as [| x l IH]; intros acc Hacc; cbn [fold_left].
  - rewrite add64_0_r. symmetry. now apply u64_small.
  - assert (H0 : is_u64 0) by (unfold is_u64, two64; lia).
    rewrite (IH (epoch_reward oor64 v s acc x)) by now apply epoch_reward_range.
    rewrite (IH (epoch_reward oor64 v s 0 x)) by now apply epoch_reward_range.
    unfold epoch_reward. destruct (epochRewards v !! x) as [reward |].
    + rewrite !add64_assoc. f_equal. rewrite <- !add64_assoc. f_equal.
      rewrite add64_0_l. symmetry. apply u64_small, uint64_of_float64_range.
    + rewrite add64_0_l. unfold add64 at 3. unfold add64, u64.
      now rewrite Zplus_mod_idemp_r.
Qed.

(** A second claim in the same block, by the validator or by the same
    delegator, pays nothing and changes nothing. *)
Theorem ClaimStakingRewards_twice oor64 (vm : NuklaiVM) (nodeID : NodeID) (actor : Address)
    (e : Emission) (reward : Z) :
  fst (ClaimStakingRewards oor64 vm nodeID actor e) = Ok reward ->
  ClaimStakingRewards oor64 vm nodeID actor (snd (ClaimStakingRewards oor64 vm nodeID actor e))
  = (Ok 0, snd (ClaimStakingRewards oor64 vm nodeID actor e)).
Proof.
  unfold ClaimStakingRewards at 1 3 4.
  destruct (validators e !! nodeID) as [v |] eqn:Hv; [| discriminate].
  destruct (actor =? EmptyAddress)%N eqn:Hact.
  - intros _.
    destruct (size (delegatorsLastClaim (set_UnclaimedStakedReward 0 v)) =? 0)%nat eqn:Hsz;
      cbn [snd]; unfold ClaimStakingRewards; cbn [validators set_validators];
      rewrite lookup_insert_eq, Hact; cbn in Hsz |- *; rewrite Hsz;
      now rewrite insert_insert_eq.
  - destruct (CalculateUserDelegationRewards oor64 vm nodeID actor (lastHeight vm) e)
      as [r | |] eqn:Hc; [| discriminate | discriminate].
    intros _. cbn [snd].
    apply CalculateUserDelegationRewards_Ok in Hc
      as (v0 & h & s & Hv0 & Ha & Hs & Hg & Hlen & _).
    rewrite Hv in Hv0. injection Hv0 as <-.
    set (v1 := set_UnclaimedDelegatedReward _ _).
    set (e1 := set_validators (<[nodeID := v1]> (validators e)) e).
    assert (Hv1 : validators e1 !! nodeID = Some v1) by (cbn; apply lookup_insert_eq).
    assert (Ha1 : delegatorsLastClaim v1 !! actor = Some (lastHeight vm))
      by (cbn; apply lookup_insert_eq).
    unfold ClaimStakingRewards. rewrite Hv1, Hact.
    rewrite (CalculateUserDelegationRewards_same_epoch oor64 vm nodeID actor e1 v1 s
               Hv1 Ha1 Hs Hg Hlen).
    f_equal. subst e1 v1. cbn -[sub64]. rewrite !insert_insert_eq.
    rewrite sub64_0_r, (u64_small _ (sub64_range _ _)). reflexivity.
Qed.

(** On [sharedPool]: alice's claim at block 31 pays 1000, her second claim
    in the same block pays 0. *)
Lemma ClaimStakingRewards_twice_witness :
  let vm := blockAt 31 503 (delegations [alice]) in
  fst (ClaimStakingRewards oor_arm64 vm 1%N alice (sharedPool 0)) = Ok 1000
  /\ fst (ClaimStakingRewards oor_arm64 vm 1%N alice
            (snd (ClaimStakingRewards oor_arm64 vm 1%N alice (sharedPool 0)))) = Ok 0.
Proof.
  intros vm.
  assert (H : fst (ClaimStakingRewards oor_arm64 vm 1%N alice (sharedPool 0)) = Ok 1000)
    by (by_evaluation).
  split; [exact H |].
  now rewrite (ClaimStakingRewards_twice oor_arm64 vm 1%N alice (sharedPool 0) 1000 H).
Defined.

(** A delegator who claims at one block and again at a later one is paid
    in all, modulo [2^64], what one claim at the later block pays, and the
    ledger ends the same, as long as nothing else touches the validator in
    between. *)
Theorem claim_in_two_steps oor64 (vm1 vm2 : NuklaiVM) (nodeID : NodeID) (actor : Address)
    (e : Emission) (v : Validator) (h stake : Z) :
  validators e !! nodeID = Some v -> delegatorsLastClaim v !! actor = Some h ->
  actor <> EmptyAddress ->
  0 <= h <= lastHeight vm1 -> lastHeight vm1 <= lastHeight vm2 ->
  0 < EpochLength (epochTracker e) ->
  stateFails vm1 = false -> stateFails vm2 = false ->
  GetDelegateUserStake vm1 actor nodeID = Some stake ->
  GetDelegateUserStake vm2 actor nodeID = Some stake ->
  let first := ClaimStakingRewards oor64 vm1 nodeID actor e in
  let second := ClaimStakingRewards oor64 vm2 nodeID actor (snd first) in
  let single := ClaimStakingRewards oor64 vm2 nodeID actor e in
  exists r1 r2,
    fst first = Ok r1 /\ fst second = Ok r2 /\ fst single = Ok (add64 r1 r2)
    /\ snd second = snd single.
Proof.
  intros Hv Ha Hact Hh1 Hh2 Hlen Hs1 Hs2 Hg1 Hg2 first second single.
  set (len := EpochLength (epochTracker e)) in *.
  set (F := epoch_reward oor64 v stake).
  set (a := h / len). set (b := lastHeight vm1 / len). set (c := lastHeight vm2 / len).
  assert (Hab : a <= b) by (apply Z.div_le_mono; lia).
  assert (Hbc : b <= c) by (apply Z.div_le_mono; lia).
  assert (Hlen0 : (len =? 0) = false) by (apply Z.eqb_neq; lia).
  apply N.eqb_neq in Hact.
  set (r1 := fold_left F (seqZ a (b - a)) 0).
  set (r2 := fold_left F (seqZ b (c - b)) 0).
  assert (Hr1 : is_u64 r1).
  { apply fold_epoch_reward_range. unfold is_u64, two64. lia. }
  set (v1 := set_UnclaimedDelegatedReward (sub64 (UnclaimedDelegatedReward v) r1)
               (set_delegatorsLastClaim
                  (<[actor := lastHeight vm1]> (delegatorsLastClaim v)) v)).
  assert (Hfirst : first = (Ok r1, set_validators (<[nodeID := v1]> (validators e)) e)).
  { subst first. unfold ClaimStakingRewards, CalculateUserDelegationRewards.
    rewrite Hv, Hact, Ha, Hs1, Hg1. fold len. now rewrite Hlen0. }
  assert (Hsingle : single
                    = (Ok (add64 r1 r2),
                       set_validators
                         (<[nodeID :=
                              set_UnclaimedDelegatedReward
                                (sub64 (UnclaimedDelegatedReward v) (add64 r1 r2))
                                (set_delegatorsLastClaim
                                   (<[actor := lastHeight vm2]> (delegatorsLastClaim v)) v)]>
                            (validators e)) e)).
  { subst single. unfold ClaimStakingRewards, CalculateUserDelegationRewards.
    rewrite Hv, Hact, Ha, Hs2, Hg2. fold len. rewrite Hlen0. fold a c F.
    assert (Hsum : fold_left F (seqZ a (c - a)) 0 = add64 r1 r2).
    { replace (c - a) with ((b - a) + (c - b)) by lia.
      rewrite seqZ_app by lia. rewrite fold_left_app.
      replace (a + (b - a)) with b by lia. fold r1.
      subst F. now rewrite fold_epoch_reward_acc. }
    now rewrite Hsum. }
  assert (Hsecond : second
                    = (Ok r2,
                       set_validators
                         (<[nodeID :=
                              set_UnclaimedDelegatedReward
                                (sub64 (UnclaimedDelegatedReward v1) r2)
                                (set_delegatorsLastClaim
                                   (<[actor := lastHeight vm2]> (delegatorsLastClaim v1)) v1)]>
                            (validators (snd first))) (snd first))).
  { subst second. rewrite Hfirst. cbn [snd].
    unfold ClaimStakingRewards, CalculateUserDelegationRewards.
    cbn [validators set_validators epochTracker]. rewrite lookup_insert_eq, Hact.
    assert (Ha1 : delegatorsLastClaim v1 !! actor = Some (lastHeight vm1))
      by (cbn; apply lookup_insert_eq).
    rewrite Ha1, Hs2, Hg2. fold len. rewrite Hlen0. fold b c.
    change (epoch_reward oor64 v1 stake) with F. fold r2. reflexivity. }
  exists r1, r2. rewrite Hfirst, Hsecond, Hsingle. cbn [fst snd].
  repeat split. rewrite Hfirst. subst v1. cbn.
  rewrite !insert_insert_eq, sub64_sub64. reflexivity.
Qed.

(** On [twoEpochs], alice holding 20 of the 40 delegated: a claim at block
    20 pays her half of epoch 1, a claim at block 30 her half of epoch 2,
    and one claim at block 30 pays the 200 at once. *)
Lemma claim_in_two_steps_witness :
  let vm1 := blockAt 20 300 aliceHolds20 in
  let vm2 := blockAt 30 330 aliceHolds20 in
  fst (ClaimStakingRewards oor_arm64 vm1 1%N alice twoEpochs) = Ok 50
  /\ fst (ClaimStakingRewards oor_arm64 vm2 1%N alice twoEpochs) = Ok 200
  /\ exists r1 r2,
       fst (ClaimStakingRewards oor_arm64 vm1 1%N alice twoEpochs) = Ok r1
       /\ fst (ClaimStakingRewards oor_arm64 vm2 1%N alice
                 (snd (ClaimStakingRewards oor_arm64 vm1 1%N alice twoEpochs))) = Ok r2
       /\ fst (ClaimStakingRewards oor_arm64 vm2 1%N alice twoEpochs) = Ok (add64 r1 r2)
       /\ snd (ClaimStakingRewards oor_arm64 vm2 1%N alice
                 (snd (ClaimStakingRewards oor_arm64 vm1 1%N alice twoEpochs)))
          = snd (ClaimStakingRewards oor_arm64 vm2 1%N alice twoEpochs).
Proof.
  intros vm1 vm2. split; [by_evaluation |]. split; [by_evaluation |].
  apply (claim_in_two_steps oor_arm64 vm1 vm2 1%N alice twoEpochs
           (set_epochRewards {[ 1 := 100; 2 := 300 ]}
              (set_UnclaimedDelegatedReward 400 (validator1 100 40 {[ alice := 5; bob := 5 ]})))
           5 20); try reflexivity; try discriminate; cbn; lia.
Defined.

(** A second withdrawal finds no validator when the first one removed it,
    and otherwise pays nothing and changes nothing. *)
Theorem WithdrawValidatorStake_twice (nodeID : NodeID) (e : Emission) (v : Validator) :
  validators e !! nodeID = Some v ->
  let e1 := snd (WithdrawValidatorStake nodeID e) in
  WithdrawValidatorStake nodeID e1
  = (if (size (delegatorsLastClaim v) =? 0)%nat then Err ErrValidatorNotFound else Ok 0, e1).
Proof.
  intros Hv e1. subst e1. unfold WithdrawValidatorStake at 2 3. rewrite Hv.
  unfold withdraw_validator.
  cbn [IsActive set_UnclaimedStakedReward set_IsActive delegatorsLastClaim StakedAmount
       DelegatedAmount UnclaimedStakedReward].
  destruct (size (delegatorsLastClaim v) =? 0)%nat eqn:Hsz; cbn [snd].
  - unfold WithdrawValidatorStake. cbn [validators set_TotalStaked set_validators].
    now rewrite lookup_delete_eq.
  - unfold WithdrawValidatorStake. cbn [validators set_TotalStaked set_validators].
    rewrite lookup_insert_eq. unfold withdraw_validator. cbn. rewrite Hsz.
    now rewrite insert_insert_eq.
Qed.

(** On [ledger1]: with alice still delegating, the second withdrawal pays
    0; with nobody delegating, it finds no validator. *)
Lemma WithdrawValidatorStake_twice_witness :
  fst (WithdrawValidatorStake 1%N
         (snd (WithdrawValidatorStake 1%N (ledger1 100 40 {[ alice := 5 ]})))) = Ok 0
  /\ fst (WithdrawValidatorStake 1%N (snd (WithdrawValidatorStake 1%N (ledger1 100 0 ∅))))
     = Err ErrValidatorNotFound.
Proof.
  split.
  - now rewrite (WithdrawValidatorStake_twice 1%N (ledger1 100 40 {[ alice := 5 ]})
                   (validator1 100 40 {[ alice := 5 ]}) eq_refl).
  - now rewrite (WithdrawValidatorStake_twice 1%N (ledger1 100 0 ∅) (validator1 100 0 ∅)
                   eq_refl).
Defined.

(** After a delegation has succeeded, the same delegator cannot delegate to
    the same validator again, in any block and for any amount. After an
    undelegation has succeeded, a second one fails: for want of the
    delegator, or for want of the validator when the first one removed
    it. *)
Theorem delegation_not_repeatable oor64 (vm vm' : NuklaiVM) (nodeID : NodeID)
    (actor : Address) (amount amount' : Z) (e : Emission) :
  (fst (DelegateUserStake vm nodeID actor amount e) = Ok tt ->
   DelegateUserStake vm' nodeID actor amount' (snd (DelegateUserStake vm nodeID actor amount e))
   = (Err ErrDelegatorAlreadyStaked, snd (DelegateUserStake vm nodeID actor amount e)))
  /\ (forall reward,
        fst (UndelegateUserStake oor64 vm nodeID actor amount e) = Ok reward ->
        exists err,
          UndelegateUserStake oor64 vm' nodeID actor amount'
            (snd (UndelegateUserStake oor64 vm nodeID actor amount e))
          = (Err err, snd (UndelegateUserStake oor64 vm nodeID actor amount e))
          /\ (err = ErrDelegatorNotFound \/ err = ErrValidatorNotFound)).
Proof.
  split.
  - unfold DelegateUserStake at 1 3 4.
    destruct (validators e !! nodeID) as [v |] eqn:Hv; [| discriminate].
    destruct (delegatorsLastClaim v !! actor) eqn:Ha; [discriminate |]. intros _.
    cbn [snd]. unfold DelegateUserStake. cbn [validators set_TotalStaked set_validators].
    rewrite lookup_insert_eq. cbn [delegatorsLastClaim set_delegatorsLastClaim].
    now rewrite lookup_insert_eq.
  - intros reward. unfold UndelegateUserStake at 1 3 4.
    destruct (validators e !! nodeID) as [v |] eqn:Hv; [| discriminate].
    destruct (delegatorsLastClaim v !! actor) as [h |] eqn:Ha; [| discriminate].
    destruct (CalculateUserDelegationRewards oor64 vm nodeID actor (lastHeight vm) e);
      [| discriminate | discriminate].
    intros _.
    cbn [IsActive set_delegatorsLastClaim set_DelegatedAmount set_UnclaimedDelegatedReward
         delegatorsLastClaim].
    destruct (negb (IsActive v) && _); cbn [snd].
    + exists ErrValidatorNotFound. split; [| now right].
      unfold UndelegateUserStake. cbn [validators set_TotalStaked set_validators].
      now rewrite lookup_delete_eq.
    + exists ErrDelegatorNotFound. split; [| now left].
      unfold UndelegateUserStake. cbn [validators set_TotalStaked set_validators].
      rewrite lookup_insert_eq. cbn [delegatorsLastClaim set_delegatorsLastClaim].
      now rewrite lookup_delete_eq.
Qed.

(** On [ledger1] with alice delegating: bob delegates and cannot delegate
    again; alice undelegates and cannot undelegate again. *)
Lemma delegation_not_repeatable_witness :
  let e := ledger1 100 40 {[ alice := 5 ]} in
  let vm := blockAt 12 200 (delegations [alice; bob]) in
  let vm' := blockAt 13 203 (delegations [alice; bob]) in
  fst (DelegateUserStake vm' 1%N bob 7 (snd (DelegateUserStake vm 1%N bob 5 e)))
  = Err ErrDelegatorAlreadyStaked
  /\ fst (UndelegateUserStake oor_arm64 vm' 1%N alice 40
            (snd (UndelegateUserStake oor_arm64 vm 1%N alice 40 e)))
     = Err ErrDelegatorNotFound.
Proof.
  intros e vm vm'.
  destruct (delegation_not_repeatable oor_arm64 vm vm' 1%N bob 5 7 e) as [Hd _].
  destruct (delegation_not_repeatable oor_arm64 vm vm' 1%N alice 40 40 e) as [_ Hu].
  split.
  - now rewrite (Hd eq_refl).
  - assert (Hok : fst (UndelegateUserStake oor_arm64 vm 1%N alice 40 e) = Ok 0)
      by (by_evaluation).
    destruct (Hu 0 Hok) as (err & Heq & _). by_evaluation.
Defined.

(** ** What a sweep leaves of the validators *)

(** A loop that files under each key a validator related to the one it
    was given for that key ends with every listed key related so, and the
    other keys untouched. *)
Lemma fold_entries {S : Type} (valsof : S -> gmap NodeID Validator)
    (body : S -> NodeID * Validator -> S) (R : Validator -> Validator -> Prop) :
  (forall st n v, exists v', valsof (body st (n, v)) = <[n := v']> (valsof st) /\ R v v') ->
  forall l, NoDup (l.*1) -> forall st k,
    (forall v, (k, v) ∈ l ->
       exists v', valsof (fold_left body l st) !! k = Some v' /\ R v v')
    /\ (k ∉ l.*1 -> valsof (fold_left body l st) !! k = valsof st !! k).
Proof.
  intros Hbody l. induction l as [| [n w] l IH]; intros Hnd st k.
  - split; [intros v Hin; inversion Hin | reflexivity].
  - cbn [fold_left]. inversion Hnd as [| ? ? Hnotin Hnd']; subst.
    destruct (Hbody st n w) as (w' & Hw' & HR).
    destruct (IH Hnd' (body st (n, w)) k) as [IHin IHout].
    split.
    + intros v Hin. apply elem_of_cons in Hin as [[= -> ->] | Hin].
      * exists w'. split; [| exact HR].
        rewrite IHout by exact Hnotin. rewrite Hw'. apply lookup_insert_eq.
      * now apply IHin.
    + intros Hk. cbn in Hk. apply not_elem_of_cons in Hk as [Hne Hk].
      rewrite IHout by exact Hk. rewrite Hw'. now apply lookup_insert_ne.
Qed.

Lemma lifecycle_swept (now : Time) (v : Validator) (staked : Z) :
  swept now v (fst (fst (lifecycle now v staked))).
Proof.
  unfold lifecycle, swept.
  destruct (After now (stakeStartTime v)) eqn:Hs; cbn [IsActive set_IsActive negb].
  - cbn [stakeEndTime]. destruct (After now (stakeEndTime v)) eqn:He; cbn; rewrite ?Hs, ?He;
      repeat split.
  - destruct (IsActive v) eqn:Ha; cbn [negb].
    + destruct (After now (stakeEndTime v)) eqn:He; cbn; rewrite ?Hs, ?He, ?Ha; repeat split.
    + cbn. rewrite ?Hs, ?Ha. repeat split.
Qed.

Lemma swept_credit (now : Time) (v v1 : Validator) (a b : Z) (m : gmap Z Z) :
  swept now v v1 ->
  swept now v (set_epochRewards m (set_UnclaimedDelegatedReward b (set_UnclaimedStakedReward a v1))).
Proof. unfold swept. cbn. tauto. Qed.

Lemma mint_body_swept oor64 (vm : NuklaiVM) (len : Z) (rate : float64) (st : LoopState)
    (n : NodeID) (v : Validator) :
  exists v', fst (fst (mint_body oor64 vm len rate st (n, v))) = <[n := v']> (fst (fst st))
             /\ swept (lastTimestamp vm) v v'.
Proof.
  destruct st as [[vals s] r]. unfold mint_body.
  pose proof (lifecycle_swept (lastTimestamp vm) v s) as Hsw.
  destruct (lifecycle (lastTimestamp vm) v s) as [[v1 s1] d]. cbn [fst] in Hsw.
  destruct d.
  - destruct (distributeValidatorRewards _ _ _ _) as [vr dr]. eexists. split; [reflexivity |].
    now apply swept_credit.
  - exists v1. now split.
Qed.

Lemma fees_body_swept oor64 (vm : NuklaiVM) (rate : float64)
    (st : gmap NodeID Validator * Z) (n : NodeID) (v : Validator) :
  exists v', fst (fees_body oor64 vm rate st (n, v)) = <[n := v']> (fst st)
             /\ swept (lastTimestamp vm) v v'.
Proof.
  destruct st as [vals s]. unfold fees_body.
  pose proof (lifecycle_swept (lastTimestamp vm) v s) as Hsw.
  destruct (lifecycle (lastTimestamp vm) v s) as [[v1 s1] d]. cbn [fst] in Hsw.
  destruct d.
  - destruct (distributeValidatorRewards _ _ _ _) as [vr dr]. eexists. split; [reflexivity |].
    unfold swept in *. cbn. tauto.
  - exists v1. now split.
Qed.

(** The validators after [MintNewNAI] and after [DistributeFees], key by
    key: [None] where there was none, and otherwise either the validator as
    it was (no loop ran) or one [swept] from it. *)
Lemma MintNewNAI_validators oor64 (vm : NuklaiVM) (e : Emission) (k : NodeID) :
  match validators e !! k with
  | None => validators (snd (MintNewNAI oor64 vm e)) !! k = None
  | Some v =>
      exists v', validators (snd (MintNewNAI oor64 vm e)) !! k = Some v'
                 /\ if minting vm e then swept (lastTimestamp vm) v v' else v' = v
  end.
Proof.
  unfold minting, MintNewNAI.
  destruct (EpochLength (epochTracker e) =? 0); cbn [negb andb snd].
  { destruct (validators e !! k) as [v |]; eauto. }
  destruct (lastHeight vm mod EpochLength (epochTracker e) =? 0); cbn [snd].
  2: { destruct (validators e !! k) as [v |]; eauto. }
  set (body := mint_body oor64 vm (EpochLength (epochTracker e)) _).
  destruct (fold_entries (fun st : LoopState => fst (fst st)) body (swept (lastTimestamp vm))
              (fun st n v => mint_body_swept oor64 vm _ _ st n v)
              (map_to_list (validators e)) (NoDup_fst_map_to_list _)
              (validators e, TotalStaked e, 0) k) as [Hin Hout].
  destruct (fold_left body _ _) as [[vals s] r]. cbn [fst snd validators set_TotalSupply
    set_TotalStaked set_validators] in *.
  destruct (validators e !! k) as [v |] eqn:Hk.
  - apply Hin. now apply elem_of_map_to_list.
  - apply Hout. intros Hmem.
    apply list_elem_of_fmap in Hmem as ([k' v'] & -> & Hmem).
    apply elem_of_map_to_list in Hmem. cbn in Hk. congruence.
Qed.

Lemma DistributeFees_validators oor64 (vm : NuklaiVM) (fee : Z) (e : Emission) (k : NodeID) :
  match validators e !! k with
  | None => validators (DistributeFees oor64 vm fee e) !! k = None
  | Some v =>
      exists v', validators (DistributeFees oor64 vm fee e) !! k = Some v'
                 /\ if paying fee e then swept (lastTimestamp vm) v v' else v' = v
  end.
Proof.
  unfold paying, DistributeFees. fold (clamped_fee fee e).
  cbn [TotalStaked set_UnclaimedBalance validators].
  destruct ((TotalStaked e =? 0) || _); cbn [negb].
  { cbn. destruct (validators e !! k) as [v |]; eauto. }
  set (body := fees_body oor64 vm _).
  destruct (fold_entries (fun st : gmap NodeID Validator * Z => fst st) body
              (swept (lastTimestamp vm))
              (fun st n v => fees_body_swept oor64 vm _ st n v)
              (map_to_list (validators e)) (NoDup_fst_map_to_list _)
              (validators e, TotalStaked e) k) as [Hin Hout].
  destruct (fold_left body _ _) as [vals s]. cbn [fst snd validators
    set_TotalStaked set_validators] in *.
  destruct (validators e !! k) as [v |] eqn:Hk.
  - apply Hin. now apply elem_of_map_to_list.
  - apply Hout. intros Hmem.
    apply list_elem_of_fmap in Hmem as ([k' v'] & -> & Hmem).
    apply elem_of_map_to_list in Hmem. cbn in Hk. congruence.
Qed.

(** [MintNewNAI] and [DistributeFees] neither add nor remove a validator.
    When their loop runs, each validator keeps its identity, its stake, its
    delegators and its window, and is active afterwards exactly when the
    block time is not past its stake end and either is past its stake start
    or the validator was active already. When the loop does not run (off an
    epoch boundary; nothing staked or no fee left for the validators) the
    validators stay as they are. *)
Theorem sweep_frame oor64 (vm : NuklaiVM) (fee : Z) (e : Emission) (k : NodeID) :
  (validators e !! k = None ->
   validators (snd (MintNewNAI oor64 vm e)) !! k = None
   /\ validators (DistributeFees oor64 vm fee e) !! k = None)
  /\ (forall v, validators e !! k = Some v ->
        (exists v', validators (snd (MintNewNAI oor64 vm e)) !! k = Some v'
                    /\ if minting vm e then swept (lastTimestamp vm) v v' else v' = v)
        /\ (exists v', validators (DistributeFees oor64 vm fee e) !! k = Some v'
                       /\ if paying fee e then swept (lastTimestamp vm) v v' else v' = v)).
Proof.
  pose proof (MintNewNAI_validators oor64 vm e k) as Hm.
  pose proof (DistributeFees_validators oor64 vm fee e k) as Hf.
  split.
  - intros Hk. rewrite Hk in Hm, Hf. now split.
  - intros v Hk. rewrite Hk in Hm, Hf. now split.
Qed.

(** ** What a sweep does to [TotalStaked] *)

Lemma lifecycle_moved (now : Time) (v : Validator) (s : Z) :
  u64 (snd (fst (lifecycle now v s))) = u64 (s + moved now v).
Proof.
  unfold lifecycle, moved.
  destruct (After now (stakeStartTime v)); cbn [IsActive set_IsActive negb stakeEndTime
    StakedAmount DelegatedAmount].
  - destruct (After now (stakeEndTime v)); cbn [fst snd].
    + rewrite Z.add_0_r. unfold sub64. rewrite u64_idem.
      destruct (u64_split (s + add64 (StakedAmount v) (DelegatedAmount v))) as [k Hk].
      unfold add64 at 1. rewrite Hk. apply (u64_eq_intro _ _ k). lia.
    + apply u64_idem.
  - destruct (IsActive v); cbn [negb andb].
    + destruct (After now (stakeEndTime v)); cbn [fst snd].
      * unfold sub64. now rewrite u64_idem.
      * now rewrite Z.add_0_r.
    + cbn [fst snd]. now rewrite Z.add_0_r.
Qed.

Lemma mint_body_moved oor64 (vm : NuklaiVM) (len : Z) (rate : float64) (st : LoopState)
    (n : NodeID) (v : Validator) :
  u64 (snd (fst (mint_body oor64 vm len rate st (n, v))))
  = u64 (snd (fst st) + moved (lastTimestamp vm) v).
Proof.
  destruct st as [[vals s] r]. rewrite <- lifecycle_moved. unfold mint_body. cbn [fst snd].
  destruct (lifecycle (lastTimestamp vm) v s) as [[v1 s1] d].
  destruct d; [destruct (distributeValidatorRewards _ _ _ _) |]; reflexivity.
Qed.

Lemma fees_body_moved oor64 (vm : NuklaiVM) (rate : float64)
    (st : gmap NodeID Validator * Z) (n : NodeID) (v : Validator) :
  u64 (snd (fees_body oor64 vm rate st (n, v))) = u64 (snd st + moved (lastTimestamp vm) v).
Proof.
  destruct st as [vals s]. rewrite <- lifecycle_moved. unfold fees_body. cbn [fst snd].
  destruct (lifecycle (lastTimestamp vm) v s) as [[v1 s1] d].
  destruct d; [destruct (distributeValidatorRewards _ _ _ _) |]; reflexivity.
Qed.

Lemma fold_moved {S : Type} (stakedof : S -> Z) (body : S -> NodeID * Validator -> S)
    (now : Time) :
  (forall st n v, u64 (stakedof (body st (n, v))) = u64 (stakedof st + moved now v)) ->
  forall l st,
    u64 (stakedof (fold_left body l st)) = u64 (stakedof st + sum_over (moved now) (l.*2)).
Proof.
  intros Hbody. unfold sum_over. induction l as [| [n v] l IH]; intros st; cbn.
  - now rewrite Z.add_0_r.
  - rewrite IH. destruct (u64_eq_elim _ _ (Hbody st n v)) as [k Hk].
    apply (u64_eq_intro _ _ k). lia.
Qed.

(** When the loop of [MintNewNAI] or of [DistributeFees] runs, it moves
    [TotalStaked], modulo [2^64], by the stake of every validator whose
    stake start is passed and whose stake end is not, active already or
    not, and takes off the stake of an active validator only when its end
    is passed and its start is not. A validator past both its start and its
    end leaves [TotalStaked] where it was. When the loop does not run,
    [TotalStaked] is unchanged. *)
Theorem sweep_TotalStaked oor64 (vm : NuklaiVM) (fee : Z) (e : Emission) :
  let by_sweep := total (moved (lastTimestamp vm)) (validators e) in
  u64 (TotalStaked (snd (MintNewNAI oor64 vm e)))
  = u64 (TotalStaked e + if minting vm e then by_sweep else 0)
  /\ u64 (TotalStaked (DistributeFees oor64 vm fee e))
     = u64 (TotalStaked e + if paying fee e then by_sweep else 0).
Proof.
  intros by_sweep. subst by_sweep. rewrite total_sum_over. split.
  - unfold minting, MintNewNAI.
    destruct (EpochLength (epochTracker e) =? 0); cbn [negb andb snd];
      [now rewrite Z.add_0_r |].
    destruct (lastHeight vm mod EpochLength (epochTracker e) =? 0); cbn [snd];
      [| now rewrite Z.add_0_r].
    pose proof (fold_moved (fun st : LoopState => snd (fst st))
                  (mint_body oor64 vm (EpochLength (epochTracker e))
                     (fdiv (float64_of_Z (GetRewardsPerEpoch oor64 e))
                        (float64_of_Z (TotalStaked e))))
                  (lastTimestamp vm)
                  (fun st n v => mint_body_moved oor64 vm _ _ st n v)
                  (map_to_list (validators e)) (validators e, TotalStaked e, 0)) as H.
    destruct (fold_left _ _ _) as [[vals s] r]. exact H.
  - unfold paying, DistributeFees. fold (clamped_fee fee e).
    cbn [TotalStaked set_UnclaimedBalance validators].
    destruct ((TotalStaked e =? 0) || _); cbn [negb]; [now rewrite Z.add_0_r |].
    pose proof (fold_moved (fun st : gmap NodeID Validator * Z => snd st)
                  (fees_body oor64 vm
                     (fdiv (float64_of_Z (sub64 (clamped_fee fee e) (clamped_fee fee e / 2)))
                        (float64_of_Z (TotalStaked e))))
                  (lastTimestamp vm)
                  (fun st n v => fees_body_moved oor64 vm _ st n v)
                  (map_to_list (validators e)) (validators e, TotalStaked e)) as H.
    destruct (fold_left _ _ _) as [vals s]. exact H.
Qed.

(** The sweep of block 20 on [oneActive]: validator 1, active already and
    within its window, moves [TotalStaked] by its stake once more. *)
Lemma sweep_TotalStaked_witness :
  let e := oneActive 1000000 100000 0 in
  let vm := blockAt 20 300 noStakes in
  total (moved (lastTimestamp vm)) (validators e) = stake1000
  /\ u64 (TotalStaked (snd (MintNewNAI oor_arm64 vm e))) = 2 * stake1000.
Proof.
  intros e vm.
  assert (Hm : total (moved (lastTimestamp vm)) (validators e) = stake1000) by (by_evaluation).
  split; [exact Hm |].
  rewrite (proj1 (sweep_TotalStaked oor_arm64 vm 0 e)), Hm. by_evaluation.
Defined.

(** ** What the epoch mint credits *)

Lemma lifecycle_unclaimed (now : Time) (v : Validator) (staked : Z) :
  UnclaimedStakedReward (fst (fst (lifecycle now v staked))) = UnclaimedStakedReward v
  /\ UnclaimedDelegatedReward (fst (fst (lifecycle now v staked))) = UnclaimedDelegatedReward v.
Proof.
  unfold lifecycle.
  destruct (After now (stakeStartTime v)); cbn [IsActive set_IsActive negb stakeEndTime].
  - destruct (After now (stakeEndTime v)); now cbn.
  - destruct (IsActive v); cbn [negb]; [destruct (After now (stakeEndTime v)) |]; now cbn.
Qed.

(** One turn of the loop of [MintNewNAI] adds to the validator's unclaimed
    rewards what it adds to [actualRewards]. *)
Lemma mint_body_credit oor64 (vm : NuklaiVM) (len : Z) (rate : float64)
    (vals : gmap NodeID Validator) (s r : Z) (n : NodeID) (v : Validator) :
  exists v' s' r',
    mint_body oor64 vm len rate (vals, s, r) (n, v) = (<[n := v']> vals, s', r')
    /\ u64 (unclaimed v' + r) = u64 (unclaimed v + r').
Proof.
  unfold mint_body.
  destruct (lifecycle_unclaimed (lastTimestamp vm) v s) as [Hus Hud].
  destruct (lifecycle (lastTimestamp vm) v s) as [[v1 s1] d]. cbn [fst] in Hus, Hud.
  destruct d.
  - destruct (distributeValidatorRewards _ _ _ _) as [vr dr].
    do 3 eexists. split; [reflexivity |].
    unfold unclaimed. cbn. rewrite Hus, Hud.
    destruct (u64_split (UnclaimedStakedReward v + vr)) as [k1 H1].
    destruct (u64_split (UnclaimedDelegatedReward v + dr)) as [k2 H2].
    destruct (u64_split (vr + dr)) as [k3 H3].
    destruct (u64_split (r + u64 (vr + dr))) as [k4 H4].
    unfold add64. rewrite H1, H2, H4, H3.
    apply (u64_eq_intro _ _ (k1 + k2 - k3 - k4)). lia.
  - exists v1, s1, r. split; [reflexivity |]. unfold unclaimed. now rewrite Hus, Hud.
Qed.

Lemma fold_mint_credit oor64 (vm : NuklaiVM) (len : Z) (rate : float64)
    (l : list (NodeID * Validator)) :
  NoDup (l.*1) ->
  forall vals s r,
    (forall n v, (n, v) ∈ l -> vals !! n = Some v) ->
    let st := fold_left (mint_body oor64 vm len rate) l (vals, s, r) in
    u64 (total unclaimed (fst (fst st)) + r) = u64 (total unclaimed vals + snd st).
Proof.
  induction l as [| [n v] l IH]; intros Hnd vals s r Hl; cbn [fold_left].
  - cbv zeta. cbn. reflexivity.
  - inversion Hnd as [| ? ? Hnotin Hnd']; subst.
    destruct (mint_body_credit oor64 vm len rate vals s r n v) as (v' & s' & r' & Hb & Hc).
    rewrite Hb.
    assert (Hv : vals !! n = Some v) by (apply Hl; left).
    assert (Hl' : forall n2 v2, (n2, v2) ∈ l -> <[n := v']> vals !! n2 = Some v2).
    { intros n2 v2 Hin. rewrite lookup_insert_ne.
      - apply Hl. now right.
      - intros ->. apply Hnotin. apply list_elem_of_fmap. now exists (n2, v2). }
    specialize (IH Hnd' (<[n := v']> vals) s' r' Hl'). cbv zeta in IH |- *.
    rewrite (total_insert _ _ _ _ _ Hv) in IH.
    apply u64_eq_elim in IH as [k1 H1]. apply u64_eq_elim in Hc as [k2 H2].
    apply (u64_eq_intro _ _ (k1 + k2)). lia.
Qed.

(** What [MintNewNAI] returns is what it adds to [TotalSupply] and what it
    adds, in all, to the unclaimed rewards of the validators, modulo
    [2^64]. *)
Theorem MintNewNAI_credits_what_it_mints oor64 (vm : NuklaiVM) (e : Emission) (minted : Z) :
  fst (MintNewNAI oor64 vm e) = Ok minted ->
  u64 (TotalSupply (snd (MintNewNAI oor64 vm e))) = u64 (TotalSupply e + minted)
  /\ u64 (total unclaimed (validators (snd (MintNewNAI oor64 vm e))))
     = u64 (total unclaimed (validators e) + minted).
Proof.
  unfold MintNewNAI.
  destruct (EpochLength (epochTracker e) =? 0); [discriminate |].
  destruct (lastHeight vm mod EpochLength (epochTracker e) =? 0).
  2: { intros [= <-]. cbn [snd]. now rewrite !Z.add_0_r. }
  pose proof (fold_mint_credit oor64 vm (EpochLength (epochTracker e))
                (fdiv (float64_of_Z (GetRewardsPerEpoch oor64 e))
                   (float64_of_Z (TotalStaked e)))
                (map_to_list (validators e)) (NoDup_fst_map_to_list _)
                (validators e) (TotalStaked e) 0) as Hfold.
  cbv zeta in Hfold.
  destruct (fold_left _ _ _) as [[vals s] r]. cbn [fst snd] in *.
  intros [= <-]. cbn [TotalSupply validators set_TotalSupply set_TotalStaked set_validators].
  split; [apply u64_idem |].
  rewrite Z.add_0_r in Hfold. apply Hfold.
  intros n v Hin. now apply elem_of_map_to_list.
Qed.

(** The mint of block 20 on [oneActiveOneWaiting]: 2000 minted, and the
    unclaimed rewards of the two validators go from 0 to 2000. *)
Lemma MintNewNAI_credits_what_it_mints_witness :
  let e := oneActiveOneWaiting 1500 0 in
  let vm := blockAt 20 300 noStakes in
  fst (MintNewNAI oor_arm64 vm e) = Ok 2000
  /\ total unclaimed (validators e) = 0
  /\ u64 (total unclaimed (validators (snd (MintNewNAI oor_arm64 vm e)))) = 2000.
Proof.
  intros e vm.
  assert (H : fst (MintNewNAI oor_arm64 vm e) = Ok 2000) by (by_evaluation).
  assert (H0 : total unclaimed (validators e) = 0) by (by_evaluation).
  split; [exact H |]. split; [exact H0 |].
  rewrite (proj2 (MintNewNAI_credits_what_it_mints oor_arm64 vm e 2000 H)), H0.
  reflexivity.
Defined.

(** ** What a sweep credits, validator by validator *)

Lemma lifecycle_inactive (now : Time) (v : Validator) (staked : Z) :
  IsActive (fst (fst (lifecycle now v staked))) = false ->
  snd (lifecycle now v staked) = false.
Proof.
  unfold lifecycle.
  destruct (After now (stakeStartTime v)); cbn [IsActive set_IsActive negb stakeEndTime].
  - destruct (After now (stakeEndTime v)); cbn; congruence.
  - destruct (IsActive v) eqn:Ha; cbn [negb]; [| reflexivity].
    destruct (After now (stakeEndTime v)); cbn; congruence.
Qed.

Lemma lifecycle_epochRewards (now : Time) (v : Validator) (staked : Z) :
  epochRewards (fst (fst (lifecycle now v staked))) = epochRewards v.
Proof.
  unfold lifecycle.
  destruct (After now (stakeStartTime v)); cbn [IsActive set_IsActive negb stakeEndTime].
  - destruct (After now (stakeEndTime v)); now cbn.
  - destruct (IsActive v); cbn [negb]; [destruct (After now (stakeEndTime v)) |]; now cbn.
Qed.

Lemma lifecycle_uncredited (now : Time) (v : Validator) (staked : Z) :
  uncredited v (fst (fst (lifecycle now v staked))).
Proof.
  intros _. destruct (lifecycle_unclaimed now v staked) as [Hus Hud].
  split; [exact Hus |]. split; [exact Hud | apply lifecycle_epochRewards].
Qed.

Lemma mint_body_uncredited oor64 (vm : NuklaiVM) (len : Z) (rate : float64) (st : LoopState)
    (n : NodeID) (v : Validator) :
  exists v', fst (fst (mint_body oor64 vm len rate st (n, v))) = <[n := v']> (fst (fst st))
             /\ uncredited v v'.
Proof.
  destruct st as [[vals s] r]. unfold mint_body. cbn [fst snd].
  pose proof (lifecycle_inactive (lastTimestamp vm) v s) as Hin.
  pose proof (lifecycle_uncredited (lastTimestamp vm) v s) as Hun.
  destruct (lifecycle (lastTimestamp vm) v s) as [[v1 s1] d]. cbn [fst snd] in *.
  destruct d.
  - destruct (distributeValidatorRewards _ _ _ _) as [vr dr]. eexists. split; [reflexivity |].
    intros Hia. cbn in Hia. specialize (Hin Hia). discriminate.
  - exists v1. now split.
Qed.

Lemma fees_body_uncredited oor64 (vm : NuklaiVM) (rate : float64)
    (st : gmap NodeID Validator * Z) (n : NodeID) (v : Validator) :
  exists v', fst (fees_body oor64 vm rate st (n, v)) = <[n := v']> (fst st)
             /\ uncredited v v'.
Proof.
  destruct st as [vals s]. unfold fees_body. cbn [fst snd].
  pose proof (lifecycle_inactive (lastTimestamp vm) v s) as Hin.
  pose proof (lifecycle_uncredited (lastTimestamp vm) v s) as Hun.
  destruct (lifecycle (lastTimestamp vm) v s) as [[v1 s1] d]. cbn [fst snd] in *.
  destruct d.
  - destruct (distributeValidatorRewards _ _ _ _) as [vr dr]. eexists. split; [reflexivity |].
    intros Hia. cbn in Hia. specialize (Hin Hia). discriminate.
  - exists v1. now split.
Qed.

(** The loop body of [DistributeFees] for a validator whose stake has
    started and not ended. *)
Lemma fees_body_started oor64 (vm : NuklaiVM) (rate : float64)
    (vals : gmap NodeID Validator) (staked : Z) (nodeID : NodeID) (v : Validator) :
  After (lastTimestamp vm) (stakeStartTime v) = true ->
  After (lastTimestamp vm) (stakeEndTime v) = false ->
  fees_body oor64 vm rate (vals, staked) (nodeID, v)
  = (<[nodeID := credit (shares oor64 rate v) v]> vals,
     add64 staked (add64 (StakedAmount v) (DelegatedAmount v))).
Proof.
  intros Hs He. unfold fees_body, shares, credit.
  rewrite (lifecycle_started _ _ _ Hs He).
  cbn [IsActive StakedAmount DelegatedAmount DelegationFeeRate set_IsActive].
  now destruct (distributeValidatorRewards _ _ _ _).
Qed.

(** A loop that files a validator under each key of a list without
    repeated keys ends with every listed key holding what its turn filed. *)
Lemma fold_entries_exact {S : Type} (valsof : S -> gmap NodeID Validator)
    (body : S -> NodeID * Validator -> S) (P : Validator -> Prop) (g : Validator -> Validator) :
  (forall st n v, exists v', valsof (body st (n, v)) = <[n := v']> (valsof st)
                             /\ (P v -> v' = g v)) ->
  forall l, NoDup (l.*1) -> forall st k v,
    (k, v) ∈ l -> P v -> valsof (fold_left body l st) !! k = Some (g v).
Proof.
  intros Hbody l Hnd st k v Hin HP.
  destruct (fold_entries valsof body (fun v v' => P v -> v' = g v) Hbody l Hnd st k)
    as [Hl _].
  destruct (Hl v Hin) as (v' & Hv' & Hg). now rewrite Hv', (Hg HP).
Qed.

(** A validator that [MintNewNAI] or [DistributeFees] leaves inactive has
    been credited nothing: its unclaimed rewards and its epoch rewards are
    what they were. *)
Theorem sweep_credits_nothing_outside oor64 (vm : NuklaiVM) (fee : Z) (e : Emission)
    (k : NodeID) (v : Validator) :
  validators e !! k = Some v ->
  (exists v', validators (snd (MintNewNAI oor64 vm e)) !! k = Some v' /\ uncredited v v')
  /\ (exists v', validators (DistributeFees oor64 vm fee e) !! k = Some v' /\ uncredited v v').
Proof.
  intros Hk.
  assert (Hsame : uncredited v v) by (intros _; auto).
  assert (Hin : (k, v) ∈ map_to_list (validators e)) by now apply elem_of_map_to_list.
  split.
  - unfold MintNewNAI.
    destruct (EpochLength (epochTracker e) =? 0); [exists v; now split |].
    destruct (lastHeight vm mod EpochLength (epochTracker e) =? 0); [| exists v; now split].
    set (body := mint_body oor64 vm (EpochLength (epochTracker e)) _).
    destruct (fold_entries (fun st : LoopState => fst (fst st)) body uncredited
                (fun st n v => mint_body_uncredited oor64 vm _ _ st n v)
                (map_to_list (validators e)) (NoDup_fst_map_to_list _)
                (validators e, TotalStaked e, 0) k) as [Hl _].
    destruct (fold_left body _ _) as [[vals s] r]. now apply Hl.
  - unfold DistributeFees. cbn [TotalStaked set_UnclaimedBalance validators].
    destruct ((TotalStaked e =? 0) || _); [exists v; now split |].
    set (body := fees_body oor64 vm _).
    destruct (fold_entries (fun st : gmap NodeID Validator * Z => fst st) body uncredited
                (fun st n v => fees_body_uncredited oor64 vm _ st n v)
                (map_to_list (validators e)) (NoDup_fst_map_to_list _)
                (validators e, TotalStaked e) k) as [Hl _].
    destruct (fold_left body _ _) as [vals s]. now apply Hl.
Qed.

(** On [oneActiveOneWaiting] at block 20, second 240: validator 2 still
    waits and is credited nothing. *)
Lemma sweep_credits_nothing_outside_witness :
  exists v',
    validators (snd (MintNewNAI oor_arm64 (blockAt 20 240 noStakes)
                       (oneActiveOneWaiting 1500 0))) !! 2%N = Some v'
    /\ IsActive v' = false /\ UnclaimedStakedReward v' = 0 /\ epochRewards v' = ∅.
Proof.
  destruct (proj1 (sweep_credits_nothing_outside oor_arm64 (blockAt 20 240 noStakes) 0
                     (oneActiveOneWaiting 1500 0) 2%N (registered 2%N 250 100000) eq_refl))
    as (v' & Hv' & Hun).
  exists v'. split; [exact Hv' |].
  assert (Ha : IsActive v' = false).
  { vm_compute in Hv'. injection Hv' as <-. reflexivity. }
  destruct (Hun Ha) as (Hus & _ & Her).
  split; [exact Ha |]. split; [exact Hus | exact Her].
Defined.

(** What a sweep credits to a validator whose stake start is passed and
    whose stake end is not. [MintNewNAI], at an epoch boundary, takes
    [GetRewardsPerEpoch () / TotalStaked] as the reward per staked unit,
    with [TotalStaked] as it stood before the loop; it marks the validator
    active, adds the validator's share to its unclaimed staked reward and
    the delegators' share to its unclaimed delegated reward, and records the
    delegators' share as the reward of the epoch. [DistributeFees], when it
    has fees for the validators, does the same with the validators' half of
    the fee over [TotalStaked], and records no epoch reward. *)
Theorem sweep_credits_in_window oor64 (vm : NuklaiVM) (fee : Z) (e : Emission)
    (k : NodeID) (v : Validator) :
  validators e !! k = Some v ->
  After (lastTimestamp vm) (stakeStartTime v) = true ->
  After (lastTimestamp vm) (stakeEndTime v) = false ->
  (minting vm e = true ->
   let perStakeUnit :=
     fdiv (float64_of_Z (GetRewardsPerEpoch oor64 e)) (float64_of_Z (TotalStaked e)) in
   let s := shares oor64 perStakeUnit v in
   validators (snd (MintNewNAI oor64 vm e)) !! k
   = Some (set_epochRewards
             (<[lastHeight vm / EpochLength (epochTracker e) := snd s]> (epochRewards v))
             (credit s v)))
  /\ (paying fee e = true ->
      let feesForValidators := sub64 (clamped_fee fee e) (clamped_fee fee e / 2) in
      let perStakeUnit :=
        fdiv (float64_of_Z feesForValidators) (float64_of_Z (TotalStaked e)) in
      validators (DistributeFees oor64 vm fee e) !! k
      = Some (credit (shares oor64 perStakeUnit v) v)).
Proof.
  intros Hk Hs He.
  assert (Hin : (k, v) ∈ map_to_list (validators e)) by now apply elem_of_map_to_list.
  split.
  - unfold minting, MintNewNAI.
    destruct (EpochLength (epochTracker e) =? 0); [discriminate |].
    destruct (lastHeight vm mod EpochLength (epochTracker e) =? 0); [| discriminate].
    intros _.
    set (perStakeUnit :=
           fdiv (float64_of_Z (GetRewardsPerEpoch oor64 e)) (float64_of_Z (TotalStaked e))).
    set (len := EpochLength (epochTracker e)).
    set (P := fun w : Validator =>
                After (lastTimestamp vm) (stakeStartTime w) = true
                /\ After (lastTimestamp vm) (stakeEndTime w) = false).
    set (g := fun w : Validator =>
                set_epochRewards
                  (<[lastHeight vm / len := snd (shares oor64 perStakeUnit w)]> (epochRewards w))
                  (credit (shares oor64 perStakeUnit w) w)).
    assert (Hbody : forall (st : LoopState) n w,
               exists w', fst (fst (mint_body oor64 vm len perStakeUnit st (n, w)))
                          = <[n := w']> (fst (fst st))
                          /\ (P w -> w' = g w)).
    { intros [[vals st] r] n w.
      destruct (After (lastTimestamp vm) (stakeStartTime w)) eqn:Hws;
        [destruct (After (lastTimestamp vm) (stakeEndTime w)) eqn:Hwe |].
      - destruct (mint_body_effect oor64 vm len perStakeUnit n w) as (w' & ks & kr & Hw).
        exists w'. rewrite Hw. split; [reflexivity |]. intros [_ Hf]. congruence.
      - exists (g w). rewrite (mint_body_started oor64 vm len perStakeUnit vals st r n w Hws Hwe).
        split; reflexivity.
      - destruct (mint_body_effect oor64 vm len perStakeUnit n w) as (w' & ks & kr & Hw).
        exists w'. rewrite Hw. split; [reflexivity |]. intros [Hf _]. congruence. }
    pose proof (fold_entries_exact (fun st : LoopState => fst (fst st))
                  (mint_body oor64 vm len perStakeUnit) P g Hbody
                  (map_to_list (validators e)) (NoDup_fst_map_to_list _)
                  (validators e, TotalStaked e, 0) k v Hin (conj Hs He)) as H.
    destruct (fold_left _ _ _) as [[vals st] r]. exact H.
  - unfold paying, DistributeFees. fold (clamped_fee fee e).
    cbn [TotalStaked set_UnclaimedBalance validators].
    destruct ((TotalStaked e =? 0) || _); [discriminate |].
    intros _.
    set (perStakeUnit :=
           fdiv (float64_of_Z (sub64 (clamped_fee fee e) (clamped_fee fee e / 2)))
             (float64_of_Z (TotalStaked e))).
    set (P := fun w : Validator =>
                After (lastTimestamp vm) (stakeStartTime w) = true
                /\ After (lastTimestamp vm) (stakeEndTime w) = false).
    set (g := fun w : Validator => credit (shares oor64 perStakeUnit w) w).
    assert (Hbody : forall (st : gmap NodeID Validator * Z) n w,
               exists w', fst (fees_body oor64 vm perStakeUnit st (n, w)) = <[n := w']> (fst st)
                          /\ (P w -> w' = g w)).
    { intros [vals st] n w.
      destruct (After (lastTimestamp vm) (stakeStartTime w)) eqn:Hws;
        [destruct (After (lastTimestamp vm) (stakeEndTime w)) eqn:Hwe |].
      - destruct (fees_body_effect oor64 vm perStakeUnit n w) as (w' & ks & Hw).
        exists w'. rewrite Hw. split; [reflexivity |]. intros [_ Hf]. congruence.
      - exists (g w). rewrite (fees_body_started oor64 vm perStakeUnit vals st n w Hws Hwe).
        split; reflexivity.
      - destruct (fees_body_effect oor64 vm perStakeUnit n w) as (w' & ks & Hw).
        exists w'. rewrite Hw. split; [reflexivity |]. intros [Hf _]. congruence. }
    pose proof (fold_entries_exact (fun st : gmap NodeID Validator * Z => fst st)
                  (fees_body oor64 vm perStakeUnit) P g Hbody
                  (map_to_list (validators e)) (NoDup_fst_map_to_list _)
                  (validators e, TotalStaked e) k v Hin (conj Hs He)) as H.
    destruct (fold_left _ _ _) as [vals st]. exact H.
Qed.

(** On [oneActiveOneWaiting] at block 20, second 300: validator 2 is in
    its window, the reward per staked unit is 1000 over the stake of
    validator 1, and validator 2 is credited its 1000 all the same. *)
Lemma sweep_credits_in_window_witness :
  let e := oneActiveOneWaiting 1500 0 in
  let vm := blockAt 20 300 noStakes in
  shares oor_arm64
    (fdiv (float64_of_Z (GetRewardsPerEpoch oor_arm64 e)) (float64_of_Z (TotalStaked e)))
    (registered 2%N 250 100000) = (1000, 0)
  /\ validators (snd (MintNewNAI oor_arm64 vm e)) !! 2%N
     = Some (set_epochRewards {[ 2 := 0 ]} (credit (1000, 0) (registered 2%N 250 100000))).
Proof.
  intros e vm.
  assert (Hsh : shares oor_arm64
                  (fdiv (float64_of_Z (GetRewardsPerEpoch oor_arm64 e))
                     (float64_of_Z (TotalStaked e)))
                  (registered 2%N 250 100000) = (1000, 0)) by (by_evaluation).
  split; [exact Hsh |].
  pose proof (proj1 (sweep_credits_in_window oor_arm64 vm 0 e 2%N (registered 2%N 250 100000)
                       eq_refl eq_refl eq_refl) eq_refl) as H.
  cbv zeta in H. rewrite Hsh in H. exact H.
Defined.

(** ** What no operation changes *)

Lemma step_constants oor64 (e e' : Emission) :
  step oor64 e e' ->
  epochTracker e' = epochTracker e /\ MaxSupply e' = MaxSupply e
  /\ eaAddress (emissionAccount e') = eaAddress (emissionAccount e).
Proof.
  intros Hstep. destruct Hstep.
  - now cbn.
  - unfold RegisterValidatorStake.
    destruct (validators e !! nodeID) as [v |]; [destruct (IsActive v) |]; now cbn.
  - unfold WithdrawValidatorStake.
    destruct (validators e !! nodeID) as [v |]; [| now cbn].
    destruct (withdraw_validator v (TotalStaked e)) as [[[r v'] s] d]. now cbn.
  - unfold DelegateUserStake.
    destruct (validators e !! nodeID) as [v |]; [| now cbn].
    destruct (delegatorsLastClaim v !! actor); now cbn.
  - unfold UndelegateUserStake.
    destruct (validators e !! nodeID) as [v |]; [| now cbn].
    destruct (delegatorsLastClaim v !! actor); [| now cbn].
    destruct (CalculateUserDelegationRewards _ _ _ _ _ _); now cbn.
  - unfold ClaimStakingRewards.
    destruct (validators e !! nodeID) as [v |]; [| now cbn].
    destruct (actor =? EmptyAddress)%N.
    + destruct (size _ =? 0)%nat; now cbn.
    + destruct (CalculateUserDelegationRewards _ _ _ _ _ _); now cbn.
  - unfold MintNewNAI.
    destruct (EpochLength (epochTracker e) =? 0); [now cbn |].
    destruct (lastHeight vm mod EpochLength (epochTracker e) =? 0); [| now cbn].
    destruct (fold_left _ _ _) as [[vals s] r]. now cbn.
  - unfold DistributeFees.
    destruct ((TotalStaked _ =? 0) || _); [now cbn |].
    destruct (fold_left _ _ _) as [vals s]. now cbn.
Qed.

Lemma keyed_insert (e : Emission) (n : NodeID) (v : Validator) :
  keyed e -> vNodeID v = n -> forall k w, <[n := v]> (validators e) !! k = Some w -> vNodeID w = k.
Proof.
  intros Hk Hv k w. destruct (decide (n = k)) as [<- | Hne].
  - rewrite lookup_insert_eq. now intros [= <-].
  - rewrite lookup_insert_ne by exact Hne. apply Hk.
Qed.

Lemma keyed_delete (e : Emission) (n : NodeID) :
  keyed e -> forall k w, delete n (validators e) !! k = Some w -> vNodeID w = k.
Proof.
  intros Hk k w Hl. apply lookup_delete_Some in Hl as [_ Hl]. now apply Hk.
Qed.

Lemma step_keyed oor64 (e e' : Emission) : step oor64 e e' -> keyed e -> keyed e'.
Proof.
  intros Hstep Hk. destruct Hstep.
  - exact Hk.
  - unfold RegisterValidatorStake.
    destruct (validators e !! nodeID) as [v |] eqn:Hv; [destruct (IsActive v) |];
      cbn [snd]; try exact Hk; unfold keyed; cbn [validators set_validators];
      apply keyed_insert; try exact Hk; cbn; eauto.
  - unfold WithdrawValidatorStake.
    destruct (validators e !! nodeID) as [v |] eqn:Hv; [| exact Hk].
    unfold withdraw_validator.
    destruct (size _ =? 0)%nat; cbn [snd]; unfold keyed;
      cbn [validators set_validators set_TotalStaked].
    + now apply keyed_delete.
    + apply keyed_insert; [exact Hk |]. cbn. eauto.
  - unfold DelegateUserStake.
    destruct (validators e !! nodeID) as [v |] eqn:Hv; [| exact Hk].
    destruct (delegatorsLastClaim v !! actor); [exact Hk |].
    cbn [snd]. unfold keyed. cbn [validators set_validators set_TotalStaked].
    apply keyed_insert; [exact Hk |]. cbn. eauto.
  - unfold UndelegateUserStake.
    destruct (validators e !! nodeID) as [v |] eqn:Hv; [| exact Hk].
    destruct (delegatorsLastClaim v !! actor); [| exact Hk].
    destruct (CalculateUserDelegationRewards _ _ _ _ _ _); [| exact Hk | exact Hk].
    destruct (negb _ && _); cbn [snd]; unfold keyed;
      cbn [validators set_validators set_TotalStaked].
    + now apply keyed_delete.
    + apply keyed_insert; [exact Hk |]. cbn. eauto.
  - unfold ClaimStakingRewards.
    destruct (validators e !! nodeID) as [v |] eqn:Hv; [| exact Hk].
    destruct (actor =? EmptyAddress)%N.
    + destruct (size _ =? 0)%nat; cbn [snd]; unfold keyed; cbn [validators set_validators];
        (apply keyed_insert; [exact Hk |]); cbn; eauto.
    + destruct (CalculateUserDelegationRewards _ _ _ _ _ _); [| exact Hk | exact Hk].
      cbn [snd]. unfold keyed. cbn [validators set_validators].
      apply keyed_insert; [exact Hk |]. cbn. eauto.
  - intros k w Hw. pose proof (MintNewNAI_validators oor64 vm e k) as Hm.
    destruct (validators e !! k) as [v |] eqn:Hv; [| congruence].
    destruct Hm as (v' & Hv' & Hsw). rewrite Hv' in Hw. injection Hw as <-.
    destruct (minting vm e).
    + destruct Hsw as (-> & _). now apply Hk.
    + subst v'. now apply Hk.
  - intros k w Hw. pose proof (DistributeFees_validators oor64 vm fee e k) as Hm.
    destruct (validators e !! k) as [v |] eqn:Hv; [| congruence].
    destruct Hm as (v' & Hv' & Hsw). rewrite Hv' in Hw. injection Hw as <-.
    destruct (paying fee e).
    + destruct Hsw as (-> & _). now apply Hk.
    + subst v'. now apply Hk.
Qed.

Lemma reachable_constants oor64 (first e : Emission) :
  reachable oor64 first e ->
  epochTracker e = epochTracker first /\ MaxSupply e = MaxSupply first
  /\ eaAddress (emissionAccount e) = eaAddress (emissionAccount first).
Proof.
  induction 1 as [| e e' _ IH Hstep]; [auto |].
  destruct (step_constants oor64 e e' Hstep) as (-> & -> & ->). exact IH.
Qed.

Lemma reachable_twoRegistered oor64 (maxSupply : Z) :
  reachable oor64 (New 0 0 maxSupply 9%N) (twoRegistered maxSupply).
Proof.
  unfold twoRegistered, fresh.
  eapply reachable_step; [| apply step_RegisterValidatorStake].
  eapply reachable_step; [| apply step_RegisterValidatorStake].
  apply reachable_first.
Qed.

(** However a ledger made by [New] is driven, its epoch tracker, its cap
    and the address of its emission account stay what [New] made them. The
    epoch length is therefore never 0, and no operation panics on a division
    by it. *)
Theorem ledger_constants oor64 (supplyCap totalSupply maxSupply : Z) (address : Address)
    (e : Emission) :
  reachable oor64 (New supplyCap totalSupply maxSupply address) e ->
  epochTracker e = mkEpochTracker f0_25 100 10
  /\ MaxSupply e = (if maxSupply =? 0 then supplyCap else maxSupply)
  /\ eaAddress (emissionAccount e) = address
  /\ forall vm nodeID actor amount,
       fst (MintNewNAI oor64 vm e) <> Panic
       /\ fst (ClaimStakingRewards oor64 vm nodeID actor e) <> Panic
       /\ fst (UndelegateUserStake oor64 vm nodeID actor amount e) <> Panic.
Proof.
  intros Hr. destruct (reachable_constants oor64 _ _ Hr) as (Ht & Hm & Ha).
  cbn in Ht, Hm, Ha. repeat split; try assumption.
  - unfold MintNewNAI. rewrite Ht. cbn [EpochLength Z.eqb].
    destruct (lastHeight vm mod 10 =? 0); [| discriminate].
    destruct (fold_left _ _ _) as [[vals s] r]. discriminate.
  - unfold ClaimStakingRewards.
    destruct (validators e !! nodeID) as [v |]; [| discriminate].
    destruct (actor =? EmptyAddress)%N.
    + destruct (size _ =? 0)%nat; discriminate.
    + unfold CalculateUserDelegationRewards. rewrite Ht. cbn [EpochLength Z.eqb].
      destruct (validators e !! nodeID) as [v0 |]; [| discriminate].
      destruct (delegatorsLastClaim v0 !! actor); [| discriminate].
      destruct (stateFails vm); [discriminate |].
      destruct (GetDelegateUserStake vm actor nodeID); discriminate.
  - unfold UndelegateUserStake.
    destruct (validators e !! nodeID) as [v |]; [| discriminate].
    destruct (delegatorsLastClaim v !! actor); [| discriminate].
    unfold CalculateUserDelegationRewards. rewrite Ht. cbn [EpochLength Z.eqb].
    destruct (validators e !! nodeID) as [v0 |]; [| discriminate].
    destruct (delegatorsLastClaim v0 !! actor); [| discriminate].
    destruct (stateFails vm); [discriminate |].
    destruct (GetDelegateUserStake vm actor nodeID); [| discriminate].
    destruct (negb _ && _); discriminate.
Qed.

(** The ledger after two registrations and the mint of block 10: the cap
    and the epoch tracker are those of [New], and the mint of block 20 does
    not panic. *)
Lemma ledger_constants_witness :
  let e := snd (MintNewNAI oor_arm64 (blockAt 10 200 noStakes) (twoRegistered 1500)) in
  epochTracker e = mkEpochTracker f0_25 100 10 /\ MaxSupply e = 1500
  /\ eaAddress (emissionAccount e) = 9%N.
Proof.
  intros e.
  assert (Hr : reachable oor_arm64 (New 0 0 1500 9%N) e).
  { eapply reachable_step; [apply reachable_twoRegistered | apply step_MintNewNAI]. }
  destruct (ledger_constants oor_arm64 0 0 1500 9%N e Hr) as (Ht & Hm & Ha & _).
  split; [exact Ht |]. split; [exact Hm | exact Ha].
Defined.

(** Every validator entry stays filed under its own [NodeID], however the
    ledger is driven. *)
Theorem validators_keyed_by_NodeID oor64 (first e : Emission) :
  keyed first -> reachable oor64 first e -> keyed e.
Proof.
  intros Hfirst Hr. induction Hr as [| e e' _ IH Hstep]; [exact Hfirst |].
  exact (step_keyed oor64 e e' Hstep IH).
Qed.

(** On the same ledger, the entry found under node 2 is that of node 2. *)
Lemma validators_keyed_by_NodeID_witness :
  exists v,
    validators (snd (MintNewNAI oor_arm64 (blockAt 10 200 noStakes) (twoRegistered 1500)))
      !! 2%N = Some v
    /\ vNodeID v = 2%N.
Proof.
  assert (Hfirst : keyed (New 0 0 1500 9%N)).
  { intros k v Hkv. cbn in Hkv. now rewrite lookup_empty in Hkv. }
  assert (Hr : reachable oor_arm64 (New 0 0 1500 9%N)
                 (snd (MintNewNAI oor_arm64 (blockAt 10 200 noStakes) (twoRegistered 1500)))).
  { eapply reachable_step; [apply reachable_twoRegistered | apply step_MintNewNAI]. }
  pose proof (validators_keyed_by_NodeID oor_arm64 _ _ Hfirst Hr 2%N) as Hk.
  destruct (validators _ !! 2%N) as [v |] eqn:Hv.
  - exists v. split; [reflexivity |]. now apply Hk.
  - exfalso. vm_compute in Hv. discriminate Hv.
Defined.

(** Registering, withdrawing, delegating, undelegating and claiming never
    change [TotalSupply], [MaxSupply] or the emission account: what a
    withdrawal or a claim pays out was added to the supply when it was
    minted, or never, when it came from fees. Registering and claiming
    leave [TotalStaked] alone as well. *)
Theorem stake_operations_keep_supply oor64 (vm : NuklaiVM) (nodeID : NodeID)
    (actor : Address) (pk : list Z) (start stop amount feeRate : Z) (e : Emission) :
  let kept e' :=
    TotalSupply e' = TotalSupply e /\ MaxSupply e' = MaxSupply e
    /\ emissionAccount e' = emissionAccount e in
  kept (snd (RegisterValidatorStake nodeID pk start stop amount feeRate e))
  /\ kept (snd (WithdrawValidatorStake nodeID e))
  /\ kept (snd (DelegateUserStake vm nodeID actor amount e))
  /\ kept (snd (UndelegateUserStake oor64 vm nodeID actor amount e))
  /\ kept (snd (ClaimStakingRewards oor64 vm nodeID actor e))
  /\ TotalStaked (snd (RegisterValidatorStake nodeID pk start stop amount feeRate e))
     = TotalStaked e
  /\ TotalStaked (snd (ClaimStakingRewards oor64 vm nodeID actor e)) = TotalStaked e.
Proof.
  intros kept. subst kept. cbv beta.
  assert (Hr : forall P : Emission -> Prop,
             P e -> (forall m, P (set_validators m e)) ->
             P (snd (RegisterValidatorStake nodeID pk start stop amount feeRate e))).
  { intros P He Hm. unfold RegisterValidatorStake.
    destruct (validators e !! nodeID) as [v |]; [destruct (IsActive v) |]; cbn [snd]; auto. }
  assert (Hc : forall P : Emission -> Prop,
             P e -> (forall m, P (set_validators m e)) ->
             P (snd (ClaimStakingRewards oor64 vm nodeID actor e))).
  { intros P He Hm. unfold ClaimStakingRewards.
    destruct (validators e !! nodeID) as [v |]; [| exact He].
    destruct (actor =? EmptyAddress)%N.
    - destruct (size _ =? 0)%nat; cbn [snd]; auto.
    - destruct (CalculateUserDelegationRewards _ _ _ _ _ _); cbn [snd]; auto. }
  repeat apply conj.
  - apply (Hr (fun e' => TotalSupply e' = TotalSupply e)); [reflexivity | now intros m].
  - apply (Hr (fun e' => MaxSupply e' = MaxSupply e)); [reflexivity | now intros m].
  - apply (Hr (fun e' => emissionAccount e' = emissionAccount e)); [reflexivity | now intros m].
  - unfold WithdrawValidatorStake. destruct (validators e !! nodeID) as [v |]; [| reflexivity].
    now destruct (withdraw_validator v (TotalStaked e)) as [[[r v'] s] d].
  - unfold WithdrawValidatorStake. destruct (validators e !! nodeID) as [v |]; [| reflexivity].
    now destruct (withdraw_validator v (TotalStaked e)) as [[[r v'] s] d].
  - unfold WithdrawValidatorStake. destruct (validators e !! nodeID) as [v |]; [| reflexivity].
    now destruct (withdraw_validator v (TotalStaked e)) as [[[r v'] s] d].
  - unfold DelegateUserStake. destruct (validators e !! nodeID) as [v |]; [| reflexivity].
    now destruct (delegatorsLastClaim v !! actor).
  - unfold DelegateUserStake. destruct (validators e !! nodeID) as [v |]; [| reflexivity].
    now destruct (delegatorsLastClaim v !! actor).
  - unfold DelegateUserStake. destruct (validators e !! nodeID) as [v |]; [| reflexivity].
    now destruct (delegatorsLastClaim v !! actor).
  - unfold UndelegateUserStake. destruct (validators e !! nodeID) as [v |]; [| reflexivity].
    destruct (delegatorsLastClaim v !! actor); [| reflexivity].
    now destruct (CalculateUserDelegationRewards _ _ _ _ _ _).
  - unfold UndelegateUserStake. destruct (validators e !! nodeID) as [v |]; [| reflexivity].
    destruct (delegatorsLastClaim v !! actor); [| reflexivity].
    now destruct (CalculateUserDelegationRewards _ _ _ _ _ _).
  - unfold UndelegateUserStake. destruct (validators e !! nodeID) as [v |]; [| reflexivity].
    destruct (delegatorsLastClaim v !! actor); [| reflexivity].
    now destruct (CalculateUserDelegationRewards _ _ _ _ _ _).
  - apply (Hc (fun e' => TotalSupply e' = TotalSupply e)); [reflexivity | now intros m].
  - apply (Hc (fun e' => MaxSupply e' = MaxSupply e)); [reflexivity | now intros m].
  - apply (Hc (fun e' => emissionAccount e' = emissionAccount e)); [reflexivity | now intros m].
  - apply (Hr (fun e' => TotalStaked e' = TotalStaked e)); [reflexivity | now intros m].
  - apply (Hc (fun e' => TotalStaked e' = TotalStaked e)); [reflexivity | now intros m].
Qed.

(** ** The clamps on the supply *)

Lemma clamp_within_cap (supply cap x : Z) :
  is_u64 cap ->
  add64 supply (if add64 supply x >? cap then sub64 cap supply else x) <= cap.
Proof.
  intros Hm. destruct (add64 supply x >? cap) eqn:Hgt.
  - unfold add64, sub64.
    replace (supply + u64 (cap - supply)) with (u64 (cap - supply) + supply) by lia.
    fold (add64 (u64 (cap - supply)) supply). fold (sub64 cap supply).
    rewrite add64_sub64_cancel, u64_small by exact Hm. lia.
  - rewrite Z.gtb_ltb in Hgt. now apply Z.ltb_ge in Hgt.
Qed.

(** The reward [GetRewardsPerEpoch] returns is a [uint64] that, added to
    [TotalSupply] in a [uint64], does not exceed [MaxSupply]; where that sum
    does not wrap around, the supply plus the reward is within the cap. *)
Theorem GetRewardsPerEpoch_within_cap oor64 (e : Emission) :
  is_u64 (TotalSupply e) -> is_u64 (MaxSupply e) ->
  is_u64 (GetRewardsPerEpoch oor64 e)
  /\ add64 (TotalSupply e) (GetRewardsPerEpoch oor64 e) <= MaxSupply e
  /\ (TotalSupply e + GetRewardsPerEpoch oor64 e < two64 ->
      TotalSupply e + GetRewardsPerEpoch oor64 e <= MaxSupply e).
Proof.
  intros Hs Hm.
  assert (Hr : is_u64 (GetRewardsPerEpoch oor64 e)).
  { unfold GetRewardsPerEpoch. destruct (_ >? _); [apply sub64_range | apply uint64_of_float64_range]. }
  assert (Hc : add64 (TotalSupply e) (GetRewardsPerEpoch oor64 e) <= MaxSupply e).
  { unfold GetRewardsPerEpoch. now apply clamp_within_cap. }
  split; [exact Hr |]. split; [exact Hc |].
  intros Hsum. rewrite add64_exact in Hc; unfold is_u64 in *; lia.
Qed.

(** On [oneActiveOneWaiting] with a cap of 500 and nothing minted: the
    epoch reward of 1000 is cut to the 500 left under the cap. *)
Lemma GetRewardsPerEpoch_within_cap_witness :
  GetRewardsPerEpoch oor_arm64 (oneActiveOneWaiting 1500 0) = 1000
  /\ GetRewardsPerEpoch oor_arm64 (oneActiveOneWaiting 500 0) = 500
  /\ add64 (TotalSupply (oneActiveOneWaiting 500 0))
       (GetRewardsPerEpoch oor_arm64 (oneActiveOneWaiting 500 0))
     <= MaxSupply (oneActiveOneWaiting 500 0).
Proof.
  split; [by_evaluation |]. split; [by_evaluation |].
  apply (GetRewardsPerEpoch_within_cap oor_arm64 (oneActiveOneWaiting 500 0));
    unfold is_u64; vm_compute; split; (discriminate || reflexivity).
Defined.

(** Within the cap and short of a wrap-around, [AddToTotalSupply] sets the
    supply to the smaller of [TotalSupply + amount] and [MaxSupply], and
    returns it. *)
Theorem AddToTotalSupply_min (amount : Z) (e : Emission) :
  0 <= amount -> 0 <= TotalSupply e <= MaxSupply e -> MaxSupply e < two64 ->
  TotalSupply e + amount < two64 ->
  AddToTotalSupply amount e
  = (Z.min (TotalSupply e + amount) (MaxSupply e),
     set_TotalSupply (Z.min (TotalSupply e + amount) (MaxSupply e)) e).
Proof.
  intros Ha Hs Hm Hsum. unfold AddToTotalSupply.
  rewrite (add64_exact _ amount) by lia.
  destruct (TotalSupply e + amount >? MaxSupply e) eqn:Hgt;
    rewrite Z.gtb_ltb in Hgt; [apply Z.ltb_lt in Hgt | apply Z.ltb_ge in Hgt].
  - rewrite sub64_exact by lia. rewrite add64_exact by lia.
    replace (TotalSupply e + (MaxSupply e - TotalSupply e)) with (MaxSupply e) by lia.
    now rewrite Z.min_r by lia.
  - rewrite add64_exact by lia. now rewrite Z.min_l by lia.
Qed.

(** With 990 of 1000 minted: 5 more make 995, 50 more make 1000. *)
Lemma AddToTotalSupply_min_witness :
  fst (AddToTotalSupply 5 (set_TotalSupply 990 (fresh 1000))) = 995
  /\ fst (AddToTotalSupply 50 (set_TotalSupply 990 (fresh 1000))) = 1000.
Proof.
  split.
  - rewrite (AddToTotalSupply_min 5 (set_TotalSupply 990 (fresh 1000)));
      [reflexivity | | | |]; vm_compute; intuition congruence.
  - rewrite (AddToTotalSupply_min 50 (set_TotalSupply 990 (fresh 1000)));
      [reflexivity | | | |]; vm_compute; intuition congruence.
Defined.

(** ** The stake window *)

(** Whether a block stamped [now] seconds after the Unix epoch is after
    the time [RegisterValidatorStake] makes of a [uint64] of seconds. *)
Lemma After_stake_time (now x : Z) :
  0 <= now < 2 ^ 63 - unixToInternal -> is_u64 x ->
  After (time_Unix now) (time_Unix (int64_of_u64 x))
  = if x <? 2 ^ 63 - unixToInternal then x <? now else true.
Proof.
  intros Hnow Hx. unfold After, time_Unix. cbn [t_sec t_nsec].
  rewrite (wrap_i64_small (now + unixToInternal)) by (unfold unixToInternal in *; lia).
  change (0 <? 0) with false. rewrite andb_false_r, orb_false_r.
  unfold is_u64, two64, unixToInternal in *.
  destruct (x <? 2 ^ 63 - 62135596800) eqn:Hlow;
    [apply Z.ltb_lt in Hlow | apply Z.ltb_ge in Hlow].
  - rewrite int64_of_u64_low by lia. rewrite wrap_i64_small by lia.
    destruct (x <? now) eqn:Hlt; [apply Z.ltb_lt in Hlt | apply Z.ltb_ge in Hlt].
    + apply Z.ltb_lt. lia.
    + apply Z.ltb_ge. lia.
  - apply Z.ltb_lt. destruct (Z_lt_ge_dec x (2 ^ 63)) as [Hlt | Hge].
    + rewrite int64_of_u64_low by lia. rewrite wrap_i64_high by (unfold two64; lia).
      unfold two64. lia.
    + rewrite int64_of_u64_high by (unfold two64; lia).
      rewrite wrap_i64_small by (unfold two64; lia). unfold two64. lia.
Qed.

(** The stake window of a newly registered validator, seen from a block
    stamped [now] seconds after the Unix epoch: the block is after the stake
    start (or end) exactly when [now] is greater than the seconds given,
    as long as those are below [2^63 - 62135596800]; seconds from there on
    make a time before the Unix epoch, which every block is after. *)
Theorem RegisterValidatorStake_window (nodeID : NodeID) (pk : list Z)
    (start stop amount feeRate : Z) (e : Emission) (now : Z) :
  validators e !! nodeID = None -> is_u64 start -> is_u64 stop ->
  0 <= now < 2 ^ 63 - unixToInternal ->
  exists v,
    validators (snd (RegisterValidatorStake nodeID pk start stop amount feeRate e)) !! nodeID
    = Some v
    /\ After (time_Unix now) (stakeStartTime v)
       = (if start <? 2 ^ 63 - unixToInternal then start <? now else true)
    /\ After (time_Unix now) (stakeEndTime v)
       = (if stop <? 2 ^ 63 - unixToInternal then stop <? now else true).
Proof.
  intros Hnone Hstart Hstop Hnow. unfold RegisterValidatorStake. rewrite Hnone.
  cbn [snd validators set_validators]. rewrite lookup_insert_eq. eexists. split; [reflexivity |].
  cbn [stakeStartTime stakeEndTime]. split; now apply After_stake_time.
Qed.

(** Node 1 registers on a fresh ledger from second 100 to second
    [2^64 - 1], the largest end there is. A block at second 200 is after
    its stake start, and after its stake end as well. *)
Lemma RegisterValidatorStake_window_witness :
  exists v,
    validators (snd (RegisterValidatorStake 1%N [] 100 (two64 - 1) 1000 10 (fresh 1000)))
      !! 1%N = Some v
    /\ After (time_Unix 200) (stakeStartTime v) = true
    /\ After (time_Unix 200) (stakeEndTime v) = true.
Proof.
  assert (H1 : validators (fresh 1000) !! 1%N = None) by reflexivity.
  assert (H2 : is_u64 100) by (unfold is_u64, two64; lia).
  assert (H3 : is_u64 (two64 - 1)) by (unfold is_u64, two64; lia).
  assert (H4 : 0 <= 200 < 2 ^ 63 - unixToInternal) by (unfold unixToInternal; lia).
  destruct (RegisterValidatorStake_window 1%N [] 100 (two64 - 1) 1000 10 (fresh 1000) 200
              H1 H2 H3 H4) as (v & Hv & Hs & He).
  exists v. split; [exact Hv |]. split; [exact Hs | exact He].
Defined.

(** ** Which error, when *)

(** The calls fail for these reasons and no other. A withdrawal and a claim
    by the validator fail only for want of the validator. A delegation
    fails for want of the validator or because the delegator has staked
    with it already. An undelegation and a claim by a delegator fail, in
    this order of precedence, for want of the validator, for want of the
    delegator, because the state is not to be had, or for want of the stake
    record. *)
Theorem operations_fail_exactly oor64 (vm : NuklaiVM) (nodeID : NodeID) (actor : Address)
    (amount : Z) (e : Emission) (err : Error) :
  let delegator_fails :=
    (err = ErrValidatorNotFound /\ validators e !! nodeID = None)
    \/ (exists v, validators e !! nodeID = Some v
        /\ ((err = ErrDelegatorNotFound /\ delegatorsLastClaim v !! actor = None)
            \/ (is_Some (delegatorsLastClaim v !! actor)
                /\ ((err = ErrState /\ stateFails vm = true)
                    \/ (err = ErrStakeNotFound /\ stateFails vm = false
                        /\ GetDelegateUserStake vm actor nodeID = None))))) in
  (fst (WithdrawValidatorStake nodeID e) = Err err <->
   err = ErrValidatorNotFound /\ validators e !! nodeID = None)
  /\ (fst (DelegateUserStake vm nodeID actor amount e) = Err err <->
      (err = ErrValidatorNotFound /\ validators e !! nodeID = None)
      \/ (err = ErrDelegatorAlreadyStaked
          /\ exists v, validators e !! nodeID = Some v
                       /\ is_Some (delegatorsLastClaim v !! actor)))
  /\ (fst (UndelegateUserStake oor64 vm nodeID actor amount e) = Err err <-> delegator_fails)
  /\ (fst (ClaimStakingRewards oor64 vm nodeID EmptyAddress e) = Err err <->
      err = ErrValidatorNotFound /\ validators e !! nodeID = None)
  /\ (actor <> EmptyAddress ->
      (fst (ClaimStakingRewards oor64 vm nodeID actor e) = Err err <-> delegator_fails)).
Proof.
  intros delegator_fails.
  assert (Hcalc : CalculateUserDelegationRewards oor64 vm nodeID actor (lastHeight vm) e
                  = Err err <-> delegator_fails).
  { subst delegator_fails. unfold CalculateUserDelegationRewards.
    destruct (validators e !! nodeID) as [v |] eqn:Hv.
    2: { split; [intros [= <-]; now left |].
         intros [[-> _] | (v & [=] & _)]. reflexivity. }
    destruct (delegatorsLastClaim v !! actor) as [h |] eqn:Ha.
    2: { split; [intros [= <-]; right; exists v; split; [reflexivity | now left] |].
         intros [[_ [=]] | (v' & [= <-] & [[-> _] | [Hsome _]])]; [reflexivity |].
         rewrite Ha in Hsome. now destruct Hsome. }
    destruct (stateFails vm) eqn:Hs.
    { split.
      - intros [= <-]. right. exists v. split; [reflexivity |]. right.
        split; [now rewrite Ha |]. now left.
      - intros [[_ [=]] | (v' & [= <-] & [[_ Hn] | [_ [[-> _] | [_ [[=] _]]]]])];
          [congruence | reflexivity]. }
    destruct (GetDelegateUserStake vm actor nodeID) as [s |] eqn:Hg.
    - split.
      + destruct (EpochLength (epochTracker e) =? 0); discriminate.
      + intros [[_ [=]] | (v' & [= <-] & [[_ Hn] | [_ [[_ [=]] | [_ [_ [=]]]]]])].
        congruence.
    - split.
      + intros [= <-]. right. exists v. split; [reflexivity |]. right.
        split; [now rewrite Ha |]. now right.
      + intros [[_ [=]] | (v' & [= <-] & [[_ Hn] | [_ [[_ [=]] | [-> _]]]])];
          [congruence | reflexivity]. }
  split; [| split; [| split; [| split]]].
  - unfold WithdrawValidatorStake.
    destruct (validators e !! nodeID) as [v |].
    + destruct (withdraw_validator v (TotalStaked e)) as [[[r v'] s] d]. cbn.
      split; [discriminate | now intros [_ [=]]].
    + cbn. split; [now intros [= <-] | now intros [-> _]].
  - unfold DelegateUserStake.
    destruct (validators e !! nodeID) as [v |].
    + destruct (delegatorsLastClaim v !! actor) as [h |] eqn:Ha; cbn.
      * split; [intros [= <-]; right; split; [reflexivity |]; exists v; split; eauto |].
        intros [[_ [=]] | [-> _]]. reflexivity.
      * split; [discriminate |].
        intros [[_ [=]] | [_ (v' & [= <-] & Hsome)]]. rewrite Ha in Hsome. now destruct Hsome.
    + cbn. split; [intros [= <-]; now left |].
      intros [[-> _] | [_ (v' & [=] & _)]]. reflexivity.
  - rewrite <- Hcalc. unfold UndelegateUserStake, CalculateUserDelegationRewards.
    destruct (validators e !! nodeID) as [v |]; [| reflexivity].
    destruct (delegatorsLastClaim v !! actor) as [h |]; [| reflexivity].
    destruct (stateFails vm); [reflexivity |].
    destruct (GetDelegateUserStake vm actor nodeID); [| reflexivity].
    destruct (EpochLength (epochTracker e) =? 0); [reflexivity |].
    cbn [fst]. split; discriminate.
  - unfold ClaimStakingRewards.
    destruct (validators e !! nodeID) as [v |].
    + cbn [N.eqb EmptyAddress]. destruct (size _ =? 0)%nat; cbn;
        (split; [discriminate | now intros [_ [=]]]).
    + cbn. split; [now intros [= <-] | now intros [-> _]].
  - intros Hact. apply N.eqb_neq in Hact. rewrite <- Hcalc.
    unfold ClaimStakingRewards, CalculateUserDelegationRewards.
    destruct (validators e !! nodeID) as [v |]; [| reflexivity]. rewrite Hact.
    destruct (delegatorsLastClaim v !! actor) as [h |]; [| reflexivity].
    destruct (stateFails vm); [reflexivity |].
    destruct (GetDelegateUserStake vm actor nodeID); [| reflexivity].
    destruct (EpochLength (epochTracker e) =? 0); [reflexivity |].
    cbn. split; discriminate.
Qed.
